(** * SakayDB: a shallow embedding of [sakaydb.py]

    The class [SakayDB] keeps three CSV tables in a data directory
    ([drivers.csv], [locations.csv], [trips.csv]) and reads and rewrites
    whole tables with pandas.  The development models

    - Python values as the inductive [value] (reals are exact rationals:
      binary64 rounding, infinities and int64 overflow are not modelled);
    - a pandas [DataFrame] as its column names and its rows of cells, in
      file order (the row index is the default range index throughout the
      write paths and is left implicit);
    - the data directory as a [Store] of three optional frames, and every
      method as a computation over a [World], which also records the
      sequence of file operations the method performs;
    - the library parsers ([pd.to_datetime] with the fixed format, [int]
      and [float] on strings) as an interface [PyLib]: the theorems hold
      for every implementation of it, and [ref_lib] is a concrete one used
      to run the methods on examples. *)

From Stdlib Require Import ZArith QArith Qabs List String Ascii Bool Lia
  Permutation Sorted DecimalString.
Import ListNotations.

Local Open Scope string_scope.
Local Open Scope list_scope.
Local Open Scope Z_scope.

(** ** Python strings (ASCII letters are the cased characters) *)

Module Str.

Definition code (c : ascii) : nat := nat_of_ascii c.

Definition is_upper (c : ascii) : bool :=
  (Nat.leb 65 (code c) && Nat.leb (code c) 90)%bool.

Definition is_lower (c : ascii) : bool :=
  (Nat.leb 97 (code c) && Nat.leb (code c) 122)%bool.

Definition is_cased (c : ascii) : bool := (is_upper c || is_lower c)%bool.

Definition to_lower (c : ascii) : ascii :=
  if is_upper c then ascii_of_nat (code c + 32) else c.

Definition to_upper (c : ascii) : ascii :=
  if is_lower c then ascii_of_nat (code c - 32) else c.

(** [str.isspace] on one character: TAB, LF, VT, FF, CR, FS, GS, RS, US
    and the space. *)
Definition is_space (c : ascii) : bool :=
  let n := code c in
  ((Nat.leb 9 n && Nat.leb n 13) || (Nat.leb 28 n && Nat.leb n 32))%bool.

(** [s.lower()] *)
Fixpoint lower (s : string) : string :=
  match s with
  | EmptyString => EmptyString
  | String c r => String (to_lower c) (lower r)
  end.

(** [s.title()]: a cased character is upper-cased when the character
    before it is not cased, and lower-cased otherwise. *)
Fixpoint title_from (previous_is_cased : bool) (s : string) : string :=
  match s with
  | EmptyString => EmptyString
  | String c r =>
      String (if previous_is_cased then to_lower c else to_upper c)
             (title_from (is_cased c) r)
  end.

Definition title (s : string) : string := title_from false s.

Fixpoint lstrip (s : string) : string :=
  match s with
  | EmptyString => EmptyString
  | String c r => if is_space c then lstrip r else s
  end.

Fixpoint rstrip (s : string) : string :=
  match s with
  | EmptyString => EmptyString
  | String c r =>
      match rstrip r with
      | EmptyString => if is_space c then EmptyString else String c EmptyString
      | r' => String c r'
      end
  end.

(** [s.strip()] *)
Definition strip (s : string) : string := rstrip (lstrip s).

Definition push (c : ascii) (parts : list string) : list string :=
  match parts with
  | [] => [String c EmptyString]
  | p :: ps => String c p :: ps
  end.

(** [s.split(', ')]: cut at every occurrence of comma-space, scanning
    from the left. *)
Fixpoint split_comma_space (s : string) : list string :=
  match s with
  | EmptyString => [EmptyString]
  | String c r =>
      match r with
      | EmptyString => [String c EmptyString]
      | String c' r' =>
          if (Ascii.eqb c "," && Ascii.eqb c' " ")%bool
          then EmptyString :: split_comma_space r'
          else push c (split_comma_space r)
      end
  end.

End Str.

(** ** Python values and frame cells *)

#[local] Set Warnings "-register-all".

Inductive value : Type :=
| VNone
| VInt (z : Z)
| VFloat (q : Q)
| VStr (s : string)
| VTime (t : Z)            (* a pandas Timestamp, in seconds since the epoch *)
| VNaT
| VNaN
| VTuple (items : list value)
| VDict (entries : list (value * value)).

Inductive exn : Type :=
| SakayDBError (text : option string)
| KeyError
| ValueError
| TypeError
| AttributeError
| IndexError
| FileNotFoundError.

Inductive result (A : Type) : Type :=
| Ok (a : A)
| Raise (e : exn).
Arguments Ok {A} a.
Arguments Raise {A} e.

Definition rbind {A B} (r : result A) (k : A -> result B) : result B :=
  match r with
  | Ok a => k a
  | Raise e => Raise e
  end.

Declare Scope py_scope.
Delimit Scope py_scope with py.
Notation "'let?' x ':=' r 'in' k" := (rbind r (fun x => k))
  (at level 10, x pattern, r at level 100, k at level 200) : py_scope.
Local Open Scope py_scope.

(** [try: body / except Exception: handler] *)
Definition try_except {A} (body : result A) (handler : exn -> result A)
  : result A :=
  match body with
  | Ok a => Ok a
  | Raise e => handler e
  end.

Fixpoint mapM {A B} (f : A -> result B) (l : list A) : result (list B) :=
  match l with
  | [] => Ok []
  | x :: r =>
      let? y := f x in
      let? ys := mapM f r in
      Ok (y :: ys)
  end.

(** The library functions the class calls on text. *)
Class PyLib : Type := {
  (** [pd.to_datetime(x, format='%H:%M:%S,%d-%m-%Y')]: [None] when it
      raises, [Some None] for [NaT], [Some (Some t)] for a timestamp. *)
  to_datetime : value -> option (option Z);
  (** [int(s)] and [float(s)] for a string [s]; [None] when they raise. *)
  int_of_string : string -> option Z;
  float_of_string : string -> option Q;
  (** [str(x)] for a number or a timestamp. *)
  to_text : value -> string
}.

Definition timestamp (o : option Z) : value :=
  match o with
  | Some t => VTime t
  | None => VNaT
  end.

Section Builtins.
Context {lib : PyLib}.

(** [x.strip()] *)
Definition py_strip (x : value) : result string :=
  match x with
  | VStr s => Ok (Str.strip s)
  | _ => Raise AttributeError
  end.

(** [int(x)] *)
Definition py_int (x : value) : result Z :=
  match x with
  | VInt z => Ok z
  | VFloat q => Ok (Z.quot (Qnum q) (Zpos (Qden q)))
  | VStr s =>
      match int_of_string s with
      | Some z => Ok z
      | None => Raise ValueError
      end
  | VNaN => Raise ValueError
  | _ => Raise TypeError
  end.

(** [float(x)]: a [VFloat], or [VNaN] for a NaN. *)
Definition py_float (x : value) : result value :=
  match x with
  | VInt z => Ok (VFloat (inject_Z z))
  | VFloat q => Ok (VFloat q)
  | VNaN => Ok VNaN
  | VStr s =>
      match float_of_string s with
      | Some q => Ok (VFloat q)
      | None => Raise ValueError
      end
  | _ => Raise TypeError
  end.

(** [pd.to_datetime(x, format=...)] on a scalar *)
Definition py_to_datetime (x : value) : result value :=
  match to_datetime x with
  | Some o => Ok (timestamp o)
  | None => Raise ValueError
  end.

End Builtins.

(** ** Comparisons of cells *)

Definition number (v : value) : option Q :=
  match v with
  | VInt z => Some (inject_Z z)
  | VFloat q => Some q
  | _ => None
  end.

(** Elementwise [==]: numbers by value, strings and timestamps by
    equality; a null cell equals nothing. *)
Definition val_eq (a b : value) : bool :=
  match a, b with
  | VStr s, VStr s' => String.eqb s s'
  | VTime t, VTime t' => Z.eqb t t'
  | _, _ =>
      match number a, number b with
      | Some x, Some y => Qeq_bool x y
      | _, _ => false
      end
  end.

Definition is_null (v : value) : bool :=
  match v with
  | VNaN | VNaT | VNone => true
  | _ => false
  end.

(** A float cell: a number or NaN. *)
Definition floating (v : value) : option (option Q) :=
  match v with
  | VInt z => Some (Some (inject_Z z))
  | VFloat q => Some (Some q)
  | VNaN => Some None
  | _ => None
  end.

(** Elementwise [<=]: false against NaN or NaT; values of different kinds do
    not compare. *)
Definition val_le (a b : value) : result bool :=
  match a, b with
  | VStr s, VStr s' => Ok (String.leb s s')
  | VTime t, VTime t' => Ok (Z.leb t t')
  | VTime _, VNaT | VNaT, VTime _ | VNaT, VNaT => Ok false
  | _, _ =>
      match floating a, floating b with
      | Some (Some x), Some (Some y) => Ok (Qle_bool x y)
      | Some _, Some _ => Ok false
      | _, _ => Raise TypeError
      end
  end.

(** ** Data frames *)

Record DataFrame : Type := {
  columns : list string;
  data : list (list value)
}.

(** [pd.DataFrame(columns=cols)] *)
Definition new_frame (cols : list string) : DataFrame :=
  {| columns := cols; data := [] |}.

Fixpoint col_index (name : string) (cols : list string) : option nat :=
  match cols with
  | [] => None
  | c :: r =>
      if String.eqb c name then Some O
      else match col_index name r with
           | Some i => Some (S i)
           | None => None
           end
  end.

Definition cell (i : nat) (row : list value) : value := nth i row VNaN.

(** [df[name]] *)
Definition get_col (df : DataFrame) (name : string) : result (list value) :=
  match col_index name (columns df) with
  | Some i => Ok (map (cell i) (data df))
  | None => Raise KeyError
  end.

(** [df.loc[df.shape[0] - 1, name]]: the cell of the last row; the label
    [-1] of an empty frame is a [KeyError]. *)
Definition loc_last (df : DataFrame) (name : string) : result value :=
  match col_index name (columns df), rev (data df) with
  | Some i, row :: _ => Ok (cell i row)
  | _, _ => Raise KeyError
  end.

(** [df.loc[len(df)] = row] *)
Definition append_row (df : DataFrame) (row : list value) : result DataFrame :=
  if Nat.eqb (List.length row) (List.length (columns df))
  then Ok {| columns := columns df; data := data df ++ [row] |}
  else Raise ValueError.

(** [df[mask]] *)
Fixpoint select {A} (mask : list bool) (rows : list A) : list A :=
  match mask, rows with
  | b :: m, r :: rs => if b then r :: select m rs else select m rs
  | _, _ => []
  end.

(** [m1 & m2] *)
Fixpoint mask_and (m1 m2 : list bool) : list bool :=
  match m1, m2 with
  | a :: r1, b :: r2 => (a && b)%bool :: mask_and r1 r2
  | _, _ => []
  end.

(** A column read from CSV has dtype object when it holds text or has no
    row at all. *)
Definition is_text (v : value) : bool :=
  match v with
  | VStr _ => true
  | _ => false
  end.

Definition object_dtype (column : list value) : bool :=
  match column with
  | [] => true
  | _ => existsb is_text column
  end.

(** [column.str.lower()]; the accessor exists on object columns only, and
    gives NaN on a cell that is not text. *)
Definition str_lower (column : list value) : result (list value) :=
  if object_dtype column
  then Ok (map (fun v => match v with
                         | VStr s => VStr (Str.lower s)
                         | _ => VNaN
                         end) column)
  else Raise AttributeError.

(** [x + 1] on a cell *)
Definition add_one (v : value) : result value :=
  match v with
  | VInt z => Ok (VInt (z + 1))
  | VFloat q => Ok (VFloat (q + 1))
  | VNaN => Ok VNaN
  | _ => Raise TypeError
  end.

(** [np.isclose(a, b)] with the default tolerances [rtol=1e-05],
    [atol=1e-08]: [|a - b| <= atol + rtol * |b|]. *)
Definition rtol : Q := 1 # 100000.
Definition atol : Q := 1 # 100000000.

Definition isclose (a b : value) : result bool :=
  match floating a, floating b with
  | Some (Some x), Some (Some y) =>
      Ok (Qle_bool (Qabs (x - y)) (atol + rtol * Qabs y))
  | Some _, Some _ => Ok false
  | _, _ => Raise TypeError
  end.

(** [np.isclose(column, b)]: numpy has no [isfinite] for an object array. *)
Definition np_isclose (column : list value) (b : value) : result (list bool) :=
  if object_dtype column then Raise TypeError
  else mapM (fun a => isclose a b) column.

(** ** The data directory and the file operations *)

Inductive file : Type := drivers_csv | locations_csv | trips_csv.

Record Store : Type := {
  drivers : option DataFrame;
  locations : option DataFrame;
  trips : option DataFrame
}.

Definition lookup (f : file) (s : Store) : option DataFrame :=
  match f with
  | drivers_csv => drivers s
  | locations_csv => locations s
  | trips_csv => trips s
  end.

Definition update (f : file) (df : DataFrame) (s : Store) : Store :=
  match f with
  | drivers_csv =>
      {| drivers := Some df; locations := locations s; trips := trips s |}
  | locations_csv =>
      {| drivers := drivers s; locations := Some df; trips := trips s |}
  | trips_csv =>
      {| drivers := drivers s; locations := locations s; trips := Some df |}
  end.

Definition empty_store : Store :=
  {| drivers := None; locations := None; trips := None |}.

Inductive event : Type :=
| PathExists (f : file)
| ReadCsv (f : file)
| ToCsv (f : file).

(** The trace lists the file operations performed so far, newest first. *)
Record World : Type := {
  store : Store;
  trace : list event
}.

Definition fresh (s : Store) : World := {| store := s; trace := [] |}.

Definition IO (A : Type) : Type := World -> result A * World.

Definition ret {A} (a : A) : IO A := fun w => (Ok a, w).

Definition raise {A} (e : exn) : IO A := fun w => (Raise e, w).

Definition bind {A B} (c : IO A) (k : A -> IO B) : IO B :=
  fun w =>
    match c w with
    | (Ok a, w') => k a w'
    | (Raise e, w') => (Raise e, w')
    end.

Definition lift {A} (r : result A) : IO A := fun w => (r, w).

Notation "x <- c ;; k" := (bind c (fun x => k))
  (at level 61, c at next level, right associativity) : py_scope.
Notation "' p <- c ;; k" := (bind c (fun x => match x with p => k end))
  (at level 61, p pattern, c at next level, right associativity) : py_scope.
Notation "c ;; k" := (bind c (fun _ => k))
  (at level 61, right associativity) : py_scope.

Definition log (e : event) (w : World) : World :=
  {| store := store w; trace := e :: trace w |}.

(** [os.path.exists(path)] *)
Definition path_exists (f : file) : IO bool :=
  fun w =>
    (Ok (match lookup f (store w) with Some _ => true | None => false end),
     log (PathExists f) w).

(** [pd.read_csv(path)] *)
Definition read_csv (f : file) : IO DataFrame :=
  fun w =>
    (match lookup f (store w) with
     | Some df => Ok df
     | None => Raise FileNotFoundError
     end, log (ReadCsv f) w).

(** [df.to_csv(path, index=False)] *)
Definition to_csv (df : DataFrame) (f : file) : IO unit :=
  fun w =>
    (Ok tt, {| store := update f df (store w); trace := ToCsv f :: trace w |}).

(** ** [SakayDB.add_trip] *)

Definition invalid : exn :=
  SakayDBError (Some "has invalid or incomplete information").

Definition duplicate : exn :=
  SakayDBError (Some "is already in the database").

(** The local variables of [add_trip] after its [try] block. *)
Record Validated : Type := {
  driver_name : list string;
  pickup_datetime : string;
  dropoff_datetime : string;
  pickup_loc_name : string;
  dropoff_loc_name : string;
  passenger_count : Z;
  trip_distance : value;
  fare_amount : value
}.

Definition drivers_columns : list string :=
  ["driver_id"; "given_name"; "last_name"].

Definition locations_columns : list string :=
  ["location_id"; "loc_name"].

Definition trips_columns : list string :=
  ["trip_id"; "driver_id"; "pickup_datetime"; "dropoff_datetime";
   "passenger_count"; "pickup_loc_id"; "dropoff_loc_id"; "trip_distance";
   "fare_amount"].

(** [column == x] *)
Definition col_eq (column : list value) (x : value) : list bool :=
  map (fun v => val_eq v x) column.

Section AddTrip.
Context {lib : PyLib}.

(** Lines 67-84: the validation of the arguments. *)
Definition validate
  (driver pickup_datetime dropoff_datetime passenger_count pickup_loc_name
   dropoff_loc_name trip_distance fare_amount : value) : result Validated :=
  try_except
    (let? driver := py_strip driver in
     let driver_name := Str.split_comma_space driver in
     if negb (Nat.eqb (List.length driver_name) 2) then Raise invalid
     else
       let? pickup_datetime := py_strip pickup_datetime in
       let? pickup_date :=
         py_to_datetime (VStr (Str.strip pickup_datetime)) in
       let? dropoff_datetime := py_strip dropoff_datetime in
       let? dropoff_date :=
         py_to_datetime (VStr (Str.strip dropoff_datetime)) in
       let? pickup_loc_name := py_strip pickup_loc_name in
       let? dropoff_loc_name := py_strip dropoff_loc_name in
       let? passenger_count := py_int passenger_count in
       let? trip_distance := py_float trip_distance in
       let? fare_amount := py_float fare_amount in
       Ok {| driver_name := driver_name;
             pickup_datetime := pickup_datetime;
             dropoff_datetime := dropoff_datetime;
             pickup_loc_name := pickup_loc_name;
             dropoff_loc_name := dropoff_loc_name;
             passenger_count := passenger_count;
             trip_distance := trip_distance;
             fare_amount := fare_amount |})
    (fun _ => Raise invalid).

(** Lines 93-105: the driver is looked up in the table read from
    [drivers.csv], and appended when no row matches. *)
Definition driver_in_table (df_drivers : DataFrame)
  (driver_name : list string) : result (DataFrame * value) :=
  let? last_names := get_col df_drivers "last_name" in
  let? last_names := str_lower last_names in
  let? given_names := get_col df_drivers "given_name" in
  let? given_names := str_lower given_names in
  let mask :=
    mask_and
      (col_eq last_names (VStr (Str.lower (nth 0 driver_name ""))))
      (col_eq given_names (VStr (Str.lower (nth 1 driver_name "")))) in
  match select mask (data df_drivers) with
  | [] =>
      let? last_id := loc_last df_drivers "driver_id" in
      let? driver_id := add_one last_id in
      let? df_drivers :=
        append_row df_drivers
          [driver_id; VStr (Str.title (nth 1 driver_name ""));
           VStr (Str.title (nth 0 driver_name ""))] in
      Ok (df_drivers, driver_id)
  | row :: _ => Ok (df_drivers, cell 0 row)
  end.

(** Lines 107-112: no [drivers.csv]. *)
Definition driver_in_new_table (driver_name : list string)
  : result (DataFrame * value) :=
  let df_drivers := new_frame ["driver_id"; "given_name"; "last_name"] in
  let driver_id := VInt 1 in
  let? df_drivers :=
    append_row df_drivers
      [driver_id; VStr (Str.title (nth 1 driver_name ""));
       VStr (Str.title (nth 0 driver_name ""))] in
  Ok (df_drivers, driver_id).

(** Lines 116-125, and again 133-142 for the drop-off: the location is
    looked up in the table read from [locations.csv]. *)
Definition location_in_table (df_locs : DataFrame) (loc_name : string)
  : result (DataFrame * value) :=
  let? names := get_col df_locs "loc_name" in
  let? names := str_lower names in
  let mask := col_eq names (VStr (Str.lower loc_name)) in
  match select mask (data df_locs) with
  | [] =>
      let? last_id := loc_last df_locs "location_id" in
      let? loc_id := add_one last_id in
      let? df_locs :=
        append_row df_locs [loc_id; VStr (Str.title loc_name)] in
      Ok (df_locs, loc_id)
  | row :: _ => Ok (df_locs, cell 0 row)
  end.

(** Lines 127-129, and again 144-146: no [locations.csv]. *)
Definition location_in_new_table (loc_name : string)
  : result (DataFrame * value) :=
  let df_locs := new_frame ["location_id"; "loc_name"] in
  let loc_id := VInt 1 in
  let? df_locs := append_row df_locs [loc_id; VStr (Str.title loc_name)] in
  Ok (df_locs, loc_id).

Definition trip_row (trip_id driver_id : value) (v : Validated)
  (pickup_id dropoff_id : value) : list value :=
  [trip_id; driver_id; VStr (pickup_datetime v); VStr (dropoff_datetime v);
   VInt (passenger_count v); pickup_id; dropoff_id; trip_distance v;
   fare_amount v].

(** Lines 151-163: the rows of [df_trips] equal to the new trip. *)
Definition same_trip_mask (df_trips : DataFrame) (driver_id : value)
  (v : Validated) (pickup_id dropoff_id : value) : result (list bool) :=
  let? c_driver := get_col df_trips "driver_id" in
  let? c_pickup := get_col df_trips "pickup_datetime" in
  let? c_dropoff := get_col df_trips "dropoff_datetime" in
  let? c_count := get_col df_trips "passenger_count" in
  let? c_pickup_loc := get_col df_trips "pickup_loc_id" in
  let? c_dropoff_loc := get_col df_trips "dropoff_loc_id" in
  let? c_distance := get_col df_trips "trip_distance" in
  let? m_distance := np_isclose c_distance (trip_distance v) in
  let? c_fare := get_col df_trips "fare_amount" in
  let? m_fare := np_isclose c_fare (fare_amount v) in
  Ok (mask_and (mask_and (mask_and (mask_and (mask_and (mask_and (mask_and
        (col_eq c_driver driver_id)
        (col_eq c_pickup (VStr (pickup_datetime v))))
        (col_eq c_dropoff (VStr (dropoff_datetime v))))
        (col_eq c_count (VInt (passenger_count v))))
        (col_eq c_pickup_loc pickup_id))
        (col_eq c_dropoff_loc dropoff_id))
        m_distance)
        m_fare).

(** Lines 150-173: the trip is appended to the table read from
    [trips.csv] unless a row equals it. *)
Definition trip_in_table (df_trips : DataFrame) (driver_id : value)
  (v : Validated) (pickup_id dropoff_id : value)
  : result (DataFrame * value) :=
  let? mask := same_trip_mask df_trips driver_id v pickup_id dropoff_id in
  match select mask (data df_trips) with
  | [] =>
      let? last_id := loc_last df_trips "trip_id" in
      let? trip_id := add_one last_id in
      let? df_trips :=
        append_row df_trips
          (trip_row trip_id driver_id v pickup_id dropoff_id) in
      Ok (df_trips, trip_id)
  | _ :: _ => Raise duplicate
  end.

(** Lines 175-187: no [trips.csv]. *)
Definition trip_in_new_table (driver_id : value) (v : Validated)
  (pickup_id dropoff_id : value) : result (DataFrame * value) :=
  let df_trips :=
    new_frame ["trip_id"; "driver_id"; "pickup_datetime";
               "dropoff_datetime"; "passenger_count"; "pickup_loc_id";
               "dropoff_loc_id"; "trip_distance"; "fare_amount"] in
  let trip_id := VInt 1 in
  let? df_trips :=
    append_row df_trips
      (trip_row trip_id driver_id v pickup_id dropoff_id) in
  Ok (df_trips, trip_id).

(** [if os.path.exists(path): df = pd.read_csv(path); ... else: ...] *)
Definition with_table {A} (f : file) (present : DataFrame -> result A)
  (absent : result A) : IO A :=
  found <- path_exists f ;;
  if found then df <- read_csv f ;; lift (present df)
  else lift absent.

(** Lines 86-193: the three tables are resolved, then written. *)
Definition add_validated (v : Validated) : IO value :=
  ' (df_drivers, driver_id) <-
    with_table drivers_csv
      (fun df_drivers => driver_in_table df_drivers (driver_name v))
      (driver_in_new_table (driver_name v)) ;;
  ' (df_locs, pickup_id) <-
    with_table locations_csv
      (fun df_locs => location_in_table df_locs (pickup_loc_name v))
      (location_in_new_table (pickup_loc_name v)) ;;
  (* the drop-off block reads [locations.csv] again and rebinds [df_locs] *)
  ' (df_locs, dropoff_id) <-
    with_table locations_csv
      (fun df_locs => location_in_table df_locs (dropoff_loc_name v))
      (location_in_new_table (dropoff_loc_name v)) ;;
  ' (df_trips, trip_id) <-
    with_table trips_csv
      (fun df_trips =>
         trip_in_table df_trips driver_id v pickup_id dropoff_id)
      (trip_in_new_table driver_id v pickup_id dropoff_id) ;;
  to_csv df_drivers drivers_csv ;;
  to_csv df_locs locations_csv ;;
  to_csv df_trips trips_csv ;;
  ret trip_id.

Definition add_trip
  (driver pickup_datetime dropoff_datetime passenger_count pickup_loc_name
   dropoff_loc_name trip_distance fare_amount : value) : IO value :=
  v <- lift (validate driver pickup_datetime dropoff_datetime
               passenger_count pickup_loc_name dropoff_loc_name
               trip_distance fare_amount) ;;
  add_validated v.

End AddTrip.

(** ** [SakayDB.delete_trip] *)

(** [column != x] *)
Definition col_ne (column : list value) (x : value) : list bool :=
  map (fun v => negb (val_eq v x)) column.

Definition delete_trip (trip_id : value) : IO value :=
  found <- path_exists trips_csv ;;
  if found then
    df_trips <- read_csv trips_csv ;;
    ids <- lift (get_col df_trips "trip_id") ;;
    match select (col_eq ids trip_id) (data df_trips) with
    | [] => raise (SakayDBError None)
    | _ :: _ =>
        ids <- lift (get_col df_trips "trip_id") ;;
        let df_trips :=
          {| columns := columns df_trips;
             data := select (col_ne ids trip_id) (data df_trips) |} in
        to_csv df_trips trips_csv ;;
        ret trip_id
    end
  else raise (SakayDBError None).

(** ** More frame operations *)

Definition mem (key : string) (keys : list string) : bool :=
  existsb (String.eqb key) keys.

Fixpoint insert_at {A} (n : nat) (x pad : A) (l : list A) : list A :=
  match n, l with
  | O, _ => x :: l
  | S n', [] => pad :: insert_at n' x pad []
  | S n', y :: r => y :: insert_at n' x pad r
  end.

Fixpoint replace_at {A} (n : nat) (x pad : A) (l : list A) : list A :=
  match n, l with
  | O, [] => [x]
  | O, _ :: r => x :: r
  | S n', [] => pad :: replace_at n' x pad []
  | S n', y :: r => y :: replace_at n' x pad r
  end.

Fixpoint remove_at {A} (n : nat) (l : list A) : list A :=
  match n, l with
  | _, [] => []
  | O, _ :: r => r
  | S n', y :: r => y :: remove_at n' r
  end.

Fixpoint zip_rows (f : value -> list value -> list value)
  (vals : list value) (rows : list (list value)) : list (list value) :=
  match vals, rows with
  | v :: vs, r :: rs => f v r :: zip_rows f vs rs
  | _, _ => []
  end.

(** [df.insert(loc=loc, column=name, value=vals)] *)
Definition insert_col (loc : nat) (name : string) (vals : list value)
  (df : DataFrame) : result DataFrame :=
  if mem name (columns df) then Raise ValueError
  else if Nat.ltb (List.length (columns df)) loc then Raise IndexError
  else Ok {| columns := insert_at loc name "" (columns df);
             data := zip_rows (fun v r => insert_at loc v VNaN r) vals
                       (data df) |}.

(** [df[name] = vals] *)
Definition set_col (name : string) (vals : list value) (df : DataFrame)
  : DataFrame :=
  match col_index name (columns df) with
  | Some i =>
      {| columns := columns df;
         data := zip_rows (fun v r => replace_at i v VNaN r) vals (data df) |}
  | None =>
      {| columns := columns df ++ [name];
         data := zip_rows
                   (fun v r =>
                      replace_at (List.length (columns df)) v VNaN r)
                   vals (data df) |}
  end.

(** [df.drop(columns=names)] *)
Fixpoint drop_cols (names : list string) (df : DataFrame) : result DataFrame :=
  match names with
  | [] => Ok df
  | name :: rest =>
      match col_index name (columns df) with
      | Some i =>
          drop_cols rest
            {| columns := remove_at i (columns df);
               data := map (remove_at i) (data df) |}
      | None => Raise KeyError
      end
  end.

Fixpoint renamed (mapping : list (string * string)) (name : string) : string :=
  match mapping with
  | [] => name
  | (old, new) :: rest => if String.eqb old name then new else renamed rest name
  end.

(** [df.rename(columns=mapping)] *)
Definition rename_cols (mapping : list (string * string)) (df : DataFrame)
  : DataFrame :=
  {| columns := map (renamed mapping) (columns df); data := data df |}.

(** [df[names]] *)
Definition project (names : list string) (df : DataFrame) : result DataFrame :=
  let? idx :=
    mapM (fun name => match col_index name (columns df) with
                      | Some i => Ok i
                      | None => Raise KeyError
                      end) names in
  Ok {| columns := names;
        data := map (fun row => map (fun i => cell i row) idx) (data df) |}.

(** The order [sort_values] puts cells in: numbers by value, timestamps by
    instant, text by code point, and null cells last. *)
Definition val_lt (a b : value) : bool :=
  match a, b with
  | VStr s, VStr s' => String.ltb s s'
  | VTime t, VTime t' => Z.ltb t t'
  | _, _ =>
      match number a, number b with
      | Some x, Some y => negb (Qle_bool y x)
      | _, _ => (negb (is_null a) && is_null b)%bool
      end
  end.

Fixpoint lex_lt (idx : list nat) (r1 r2 : list value) : bool :=
  match idx with
  | [] => false
  | i :: rest =>
      if val_lt (cell i r1) (cell i r2) then true
      else if val_lt (cell i r2) (cell i r1) then false
      else lex_lt rest r1 r2
  end.

Fixpoint insert_sorted {A} (lt : A -> A -> bool) (x : A) (l : list A)
  : list A :=
  match l with
  | [] => [x]
  | y :: r => if lt x y then x :: l else y :: insert_sorted lt x r
  end.

(** An insertion sort.  (Rows that tie under [lt] come out in the reverse
    of their order; nothing below depends on the order of tied rows.) *)
Definition stable_sort {A} (lt : A -> A -> bool) (l : list A) : list A :=
  fold_right (insert_sorted lt) [] l.

(** [df.sort_values(names)] (ascending; which order pandas leaves tied rows
    in under a single key is not used below). *)
Definition sort_values (names : list string) (df : DataFrame)
  : result DataFrame :=
  let? idx :=
    mapM (fun name => match col_index name (columns df) with
                      | Some i => Ok i
                      | None => Raise KeyError
                      end) names in
  Ok {| columns := columns df; data := stable_sort (lex_lt idx) (data df) |}.

(** [df[mask]] on a frame *)
Definition where_ (mask : list bool) (df : DataFrame) : DataFrame :=
  {| columns := columns df; data := select mask (data df) |}.

(** [column >= x] and [column <= x] *)
Definition col_ge (column : list value) (x : value) : result (list bool) :=
  mapM (fun v => val_le x v) column.

Definition col_le (column : list value) (x : value) : result (list bool) :=
  mapM (fun v => val_le v x) column.

(** ** [SakayDB.search_trips] *)

Definition valid_keys : list string :=
  ["driver_id"; "pickup_datetime"; "dropoff_datetime"; "passenger_count";
   "trip_distance"; "fare_amount"].

Definition date_keys : list string := ["pickup_datetime"; "dropoff_datetime"].

Definition float_keys : list string :=
  ["driver_id"; "passenger_count"; "trip_distance"; "fare_amount"].

(** [search_trips] returns the list [[]] or a frame. *)
Inductive search_result : Type :=
| EmptyList
| Frame (df : DataFrame).

Definition is_none (v : value) : bool :=
  match v with
  | VNone => true
  | _ => false
  end.

Section Search.
Context {lib : PyLib}.

(** [if x is not None: x = convert(x)] *)
Definition unless_none (convert : value -> result value) (x : value)
  : result value :=
  if is_none x then Ok x else convert x.

(** Lines 356-397: one pass of the loop over [kwargs.items()]. *)
Definition filter_by (key : string) (value : value) (df_trips : DataFrame)
  : result DataFrame :=
  try_except
    (match value with
     | VTuple items =>
         if negb (Nat.eqb (List.length items) 2)
         then Raise (SakayDBError None)
         else
           let lo := nth 0 items VNone in
           let hi := nth 1 items VNone in
           let? lo := if mem key float_keys
                      then unless_none py_float lo else Ok lo in
           let? hi := if mem key float_keys
                      then unless_none py_float hi else Ok hi in
           let? lo := if mem key date_keys
                      then unless_none py_to_datetime lo else Ok lo in
           let? hi := if mem key date_keys
                      then unless_none py_to_datetime hi else Ok hi in
           match is_none lo, is_none hi with
           | false, true =>
               let? column := get_col df_trips key in
               let? mask := col_ge column lo in
               Ok (where_ mask df_trips)
           | true, false =>
               let? column := get_col df_trips key in
               let? mask := col_le column hi in
               Ok (where_ mask df_trips)
           | false, false =>
               let? column := get_col df_trips key in
               let? above := col_ge column lo in
               let? column := get_col df_trips key in
               let? below := col_le column hi in
               Ok (where_ (mask_and above below) df_trips)
           | true, true => Ok df_trips
           end
     | _ =>
         let? value := if mem key float_keys
                       then py_float value else Ok value in
         let? value := if mem key date_keys
                       then py_to_datetime value else Ok value in
         let? column := get_col df_trips key in
         Ok (where_ (col_eq column value) df_trips)
     end)
    (fun _ => Raise (SakayDBError None)).

Fixpoint filter_all (kwargs : list (string * value)) (df_trips : DataFrame)
  : result DataFrame :=
  match kwargs with
  | [] => Ok df_trips
  | (key, value) :: rest =>
      let? df_trips := filter_by key value df_trips in
      filter_all rest df_trips
  end.

(** [pd.to_datetime(df[name], format=...)] *)
Definition to_datetime_col (df : DataFrame) (name : string)
  : result (list value) :=
  let? column := get_col df name in
  mapM py_to_datetime column.

(** Lines 341-405, on the frame read from [trips.csv]. *)
Definition search_frame (kwargs : list (string * value))
  (df_trips : DataFrame) : result DataFrame :=
  let? pickup := get_col df_trips "pickup_datetime" in
  let? df_trips := insert_col 4 "pickup_string" pickup df_trips in
  let? dropoff := get_col df_trips "dropoff_datetime" in
  let? df_trips := insert_col 5 "dropoff_string" dropoff df_trips in
  let? pickup := to_datetime_col df_trips "pickup_datetime" in
  let df_trips := set_col "pickup_datetime" pickup df_trips in
  let? dropoff := to_datetime_col df_trips "dropoff_datetime" in
  let df_trips := set_col "dropoff_datetime" dropoff df_trips in
  let? df_trips := filter_all kwargs df_trips in
  let? df_trips := sort_values (map fst kwargs) df_trips in
  let? df_trips := drop_cols date_keys df_trips in
  Ok (rename_cols [("pickup_string", "pickup_datetime");
                   ("dropoff_string", "dropoff_datetime")] df_trips).

Definition search_trips (kwargs : list (string * value))
  : IO search_result :=
  let keys := map fst kwargs in
  let chk := existsb (fun key => negb (mem key valid_keys)) keys in
  if (Nat.eqb (List.length keys) 0 || chk)%bool
  then raise (SakayDBError None)
  else
    found <- path_exists trips_csv ;;
    if found then
      df_trips <- read_csv trips_csv ;;
      df_trips <- lift (search_frame kwargs df_trips) ;;
      ret (Frame df_trips)
    else ret EmptyList.

End Search.

(** ** Joins and groups *)

Definition fit (n : nat) (row : list value) : list value :=
  firstn n (row ++ repeat VNaN n).

(** Merge keys match by value, and a null key matches a null key. *)
Definition key_match (a b : value) : bool :=
  (val_eq a b || (is_null a && is_null b))%bool.

(** The columns of a left merge: the key column of the right side is kept
    only when its name differs from the left key, and a name present on
    both sides gets the suffix [_x] on the left and [_y] on the right. *)
Definition merged_columns (left_cols right_cols : list string)
  (left_on right_on : string) (j : nat) : list string :=
  let right_cols :=
    if String.eqb left_on right_on then remove_at j right_cols
    else right_cols in
  map (fun n => if mem n right_cols then (n ++ "_x")%string else n)
      left_cols ++
  map (fun n => if mem n left_cols then (n ++ "_y")%string else n)
      right_cols.

(** The rows of a left merge: every left row, in order, once per matching
    right row, and once with NaN when nothing matches. *)
Definition merged_rows (left right : DataFrame) (shared : bool) (i j : nat)
  : list (list value) :=
  let keep (r : list value) := if shared then remove_at j r else r in
  let nl := List.length (columns left) in
  let nr := List.length (columns right) in
  flat_map
    (fun l =>
       match filter (fun r => key_match (cell i l) (cell j r)) (data right)
       with
       | [] => [fit nl l ++ keep (repeat VNaN nr)]
       | found => map (fun r => fit nl l ++ keep (fit nr r)) found
       end)
    (data left).

(** [left.merge(right, how='left', left_on=left_on, right_on=right_on)];
    [on=key] is the case of equal names. *)
Definition merge_left (left right : DataFrame) (left_on right_on : string)
  : result DataFrame :=
  match col_index left_on (columns left),
        col_index right_on (columns right) with
  | Some i, Some j =>
      Ok {| columns :=
              merged_columns (columns left) (columns right) left_on
                right_on j;
            data :=
              merged_rows left right (String.eqb left_on right_on) i j |}
  | _, _ => Raise KeyError
  end.

Definition keys_lt (n : nat) : list value -> list value -> bool :=
  lex_lt (seq 0 n).

Definition same_keys (n : nat) (r1 r2 : list value) : bool :=
  (negb (keys_lt n r1 r2) && negb (keys_lt n r2 r1))%bool.

(** One representative of every run of equal neighbours. *)
Fixpoint squeeze {A} (same : A -> A -> bool) (l : list A) : list A :=
  match l with
  | [] => []
  | x :: r =>
      match r with
      | [] => [x]
      | y :: _ => if same x y then squeeze same r else x :: squeeze same r
      end
  end.

Definition not_null (v : value) : bool := negb (is_null v).

(** [.count()] *)
Definition agg_count (cells : list value) : value :=
  VInt (Z.of_nat (List.length (filter not_null cells))).

(** [.mean()] *)
Definition agg_mean (cells : list value) : value :=
  match filter not_null cells with
  | [] => VNaN
  | present =>
      let total :=
        fold_right (fun v acc => match number v with
                                 | Some q => Qplus q acc
                                 | None => acc
                                 end) (0 # 1)%Q present in
      VFloat (Qred (total / inject_Z (Z.of_nat (List.length present))))
  end.

(** [.nunique()] *)
Definition agg_nunique (cells : list value) : value :=
  VInt (Z.of_nat (List.length
    (squeeze (fun a b => (negb (val_lt a b) && negb (val_lt b a))%bool)
       (stable_sort val_lt (filter not_null cells))))).

(** [groupby(keys)[value].agg()] followed by [reset_index()], on rows made
    of [n] key cells and then the value cell: rows with a null key are
    left out, and the groups come in key order. *)
Definition groupby_agg (n : nat) (agg : list value -> value)
  (rows : list (list value)) : list (list value) :=
  let rows := filter (fun r => forallb not_null (firstn n (fit n r))) rows in
  let groups :=
    squeeze (same_keys n) (stable_sort (keys_lt n) (map (fit n) rows)) in
  map (fun k => k ++ [agg (map (cell n) (filter (same_keys n k) rows))])
      groups.

(** [groupby(key).apply(lambda x: dict(zip(x[a], x[b]))).to_dict()] on rows
    [key; a; b] *)
Definition nested_dict (rows : list (list value)) : value :=
  let rows := filter (fun r => not_null (cell 0 r)) rows in
  let groups :=
    squeeze (same_keys 1) (stable_sort (keys_lt 1) (map (fit 1) rows)) in
  VDict (map (fun k =>
                (cell 0 k,
                 VDict (map (fun r => (cell 1 r, cell 2 r))
                            (filter (same_keys 1 k) rows))))
             groups).

Definition day_names : list string :=
  ["Monday"; "Tuesday"; "Wednesday"; "Thursday"; "Friday"; "Saturday";
   "Sunday"].

(** [.dt.day_name()]; the epoch was a Thursday. *)
Definition day_name (v : value) : value :=
  match v with
  | VTime t => VStr (nth (Z.to_nat ((t / 86400 + 3) mod 7)) day_names "")
  | _ => VNaN
  end.

(** The calendar day of a timestamp ([freq='1D'], [.dt.date]). *)
Definition day_of (v : value) : value :=
  match v with
  | VTime t => VTime (86400 * (t / 86400))
  | _ => VNaT
  end.

(** [a + b] on text cells *)
Definition str_add (a b : value) : result value :=
  match a, b with
  | VStr x, VStr y => Ok (VStr (x ++ y))
  | VStr _, VNaN | VNaN, VStr _ | VNaN, VNaN => Ok VNaN
  | _, _ => Raise TypeError
  end.

(** [a and b] on file tests: [b] is evaluated only when [a] holds. *)
Definition and_then (a b : IO bool) : IO bool :=
  x <- a ;;
  if x then b else ret false.

(** ** [SakayDB.export_data] *)

Definition export_columns : list string :=
  ["driver_lastname"; "driver_givenname"; "pickup_datetime";
   "dropoff_datetime"; "passenger_count"; "pickup_loc_name";
   "dropoff_loc_name"; "trip_distance"; "fare_amount"].

Section Exporter.
Context {lib : PyLib}.

(** [astype('string')], [astype('int')], [astype('float')] on a cell *)
Definition as_string (v : value) : result value :=
  match v with
  | VStr s => Ok (VStr s)
  | VNaN | VNaT | VNone => Ok VNaN
  | _ => Ok (VStr (to_text v))
  end.

Definition as_int (v : value) : result value :=
  let? z := py_int v in Ok (VInt z).

Definition astype (casts : list (string * (value -> result value)))
  (df : DataFrame) : result DataFrame :=
  let cast_row (row : list value) :=
    mapM (fun nc : string * value =>
            match find (fun c => String.eqb (fst c) (fst nc)) casts with
            | Some c => snd c (snd nc)
            | None => Ok (snd nc)
            end)
         (combine (columns df) (fit (List.length (columns df)) row)) in
  if forallb (fun c => mem (fst c) (columns df)) casts
  then let? rows := mapM cast_row (data df) in
       Ok {| columns := columns df; data := rows |}
  else Raise KeyError.

(** Lines 451-485. *)
Definition export_frame (df_trips df_drivers df_locs : DataFrame)
  : result DataFrame :=
  let? df_trips := merge_left df_trips df_drivers "driver_id" "driver_id" in
  let? df_trips :=
    merge_left df_trips df_locs "pickup_loc_id" "location_id" in
  let? df_trips :=
    merge_left df_trips df_locs "dropoff_loc_id" "location_id" in
  let? df_trips := sort_values ["trip_id"] df_trips in
  let? df_trips :=
    drop_cols ["driver_id"; "pickup_loc_id"; "dropoff_loc_id";
               "location_id_x"; "location_id_y"] df_trips in
  let df_trips :=
    rename_cols [("given_name", "driver_givenname");
                 ("last_name", "driver_lastname");
                 ("loc_name_x", "pickup_loc_name");
                 ("loc_name_y", "dropoff_loc_name")] df_trips in
  let? df_trips :=
    project ["driver_lastname"; "driver_givenname"; "pickup_datetime";
             "dropoff_datetime"; "passenger_count"; "pickup_loc_name";
             "dropoff_loc_name"; "trip_distance"; "fare_amount"]
            df_trips in
  astype [("driver_lastname", as_string); ("driver_givenname", as_string);
          ("pickup_datetime", as_string); ("dropoff_datetime", as_string);
          ("passenger_count", as_int); ("pickup_loc_name", as_string);
          ("dropoff_loc_name", as_string); ("trip_distance", py_float);
          ("fare_amount", py_float)] df_trips.

Definition export_data : IO DataFrame :=
  found <- and_then (path_exists trips_csv)
             (and_then (path_exists drivers_csv)
                       (path_exists locations_csv)) ;;
  if found then
    df_trips <- read_csv trips_csv ;;
    df_drivers <- read_csv drivers_csv ;;
    df_locs <- read_csv locations_csv ;;
    lift (export_frame df_trips df_drivers df_locs)
  else
    ret (new_frame ["driver_lastname"; "driver_givenname";
                    "pickup_datetime"; "dropoff_datetime";
                    "passenger_count"; "pickup_loc_name";
                    "dropoff_loc_name"; "trip_distance"; "fare_amount"]).

End Exporter.

(** ** [SakayDB.generate_statistics] *)

Section Statistics.
Context {lib : PyLib}.

(** The rows [keys; day_name; day; trip_id] that the three statistics
    group, after [pickup_datetime] is parsed. *)
Definition observations (df_trips : DataFrame) (keys : list string)
  : result (list (list value)) :=
  let? pickup := to_datetime_col df_trips "pickup_datetime" in
  let df_trips := set_col "pickup_datetime" pickup df_trips in
  let df_trips := set_col "day_name" (map day_name pickup) df_trips in
  let df_trips := set_col "day" (map day_of pickup) df_trips in
  let? df_trips :=
    project (keys ++ ["day_name"; "day"; "trip_id"]) df_trips in
  Ok (data df_trips).

Definition without_day (n : nat) (row : list value) : list value :=
  firstn n row ++ [cell (S n) row].

(** Lines 534-548. *)
Definition stat_trip_frame (df_trips : DataFrame) : result value :=
  let? rows := observations df_trips [] in
  let df_tripcount := groupby_agg 2 agg_count rows in
  let sr_tripave := groupby_agg 1 agg_mean (map (without_day 1) df_tripcount) in
  Ok (VDict (map (fun r => (cell 0 r, cell 1 r)) sr_tripave)).

(** Lines 560-577. *)
Definition stat_passenger_frame (df_trips : DataFrame) : result value :=
  let? rows := observations df_trips ["passenger_count"] in
  let df_tripcount := groupby_agg 3 agg_count rows in
  let df_tripave := groupby_agg 2 agg_mean (map (without_day 2) df_tripcount) in
  Ok (nested_dict df_tripave).

(** Lines 590-612. *)
Definition stat_driver_frame (df_trips df_drivers : DataFrame)
  : result value :=
  let? pickup := to_datetime_col df_trips "pickup_datetime" in
  let df_trips := set_col "pickup_datetime" pickup df_trips in
  let df_trips := set_col "day_name" (map day_name pickup) df_trips in
  let df_trips := set_col "day" (map day_of pickup) df_trips in
  let? df_trips := merge_left df_trips df_drivers "driver_id" "driver_id" in
  let? last_names := get_col df_trips "last_name" in
  let? last_names := mapM (fun v => str_add v (VStr ", ")) last_names in
  let? given_names := get_col df_trips "given_name" in
  let? full_names :=
    mapM (fun p : value * value => str_add (fst p) (snd p))
         (combine last_names given_names) in
  let df_trips := set_col "full_name" full_names df_trips in
  let? df_trips :=
    project ["full_name"; "day_name"; "day"; "trip_id"] df_trips in
  let df_tripcount := groupby_agg 3 agg_count (data df_trips) in
  let df_tripave := groupby_agg 2 agg_mean (map (without_day 2) df_tripcount) in
  Ok (nested_dict df_tripave).

Definition stat_trip : IO value :=
  with_table trips_csv stat_trip_frame (Ok (VDict [])).

Definition stat_passenger : IO value :=
  with_table trips_csv stat_passenger_frame (Ok (VDict [])).

Definition stat_driver : IO value :=
  found <- and_then (path_exists trips_csv) (path_exists drivers_csv) ;;
  if found then
    df_trips <- read_csv trips_csv ;;
    df_drivers <- read_csv drivers_csv ;;
    lift (stat_driver_frame df_trips df_drivers)
  else ret (VDict []).

Definition generate_statistics (stat : string) : IO value :=
  if String.eqb stat "trip" then stat_trip
  else if String.eqb stat "passenger" then stat_passenger
  else if String.eqb stat "driver" then stat_driver
  else if String.eqb stat "all" then
    t <- stat_trip ;;
    p <- stat_passenger ;;
    d <- stat_driver ;;
    ret (VDict [(VStr "trip", t); (VStr "passenger", p);
                (VStr "driver", d)])
  else raise (SakayDBError None).

End Statistics.

(** ** [SakayDB.generate_odmatrix] *)

(** A frame with row labels: [pd.crosstab] and its quotient. *)
Record Matrix : Type := {
  row_labels : list value;
  col_labels : list value;
  entries : list (list value)
}.

(** [pd.DataFrame()] *)
Definition empty_matrix : Matrix :=
  {| row_labels := []; col_labels := []; entries := [] |}.

Definition labels (i : nat) (rows : list (list value)) : list value :=
  squeeze (fun a b => (negb (val_lt a b) && negb (val_lt b a))%bool)
    (stable_sort val_lt (map (cell i) rows)).

Section ODMatrix.
Context {lib : PyLib}.

(** Lines 796-826: the filter on [date_range]. *)
Definition in_date_range (date_range : value) (df_trips : DataFrame)
  : result DataFrame :=
  match date_range with
  | VTuple items =>
      if negb (Nat.eqb (List.length items) 2) then Raise (SakayDBError None)
      else
        try_except
          (let lo := nth 0 items VNone in
           let hi := nth 1 items VNone in
           let? df_trips :=
             match is_none lo, is_none hi with
             | false, true =>
                 let? start := py_to_datetime lo in
                 let? column := get_col df_trips "pickup_datetime" in
                 let? mask := col_ge column start in
                 Ok (where_ mask df_trips)
             | true, false =>
                 let? end_ := py_to_datetime hi in
                 let? column := get_col df_trips "pickup_datetime" in
                 let? mask := col_le column end_ in
                 Ok (where_ mask df_trips)
             | false, false =>
                 let? start := py_to_datetime lo in
                 let? end_ := py_to_datetime hi in
                 let? column := get_col df_trips "pickup_datetime" in
                 let? above := col_ge column start in
                 let? column := get_col df_trips "pickup_datetime" in
                 let? below := col_le column end_ in
                 Ok (where_ (mask_and above below) df_trips)
             | true, true => Ok df_trips
             end in
           sort_values ["pickup_datetime"] df_trips)
          (fun _ => Raise (SakayDBError None))
  | VNone => Ok df_trips
  | _ => Raise (SakayDBError None)
  end.

(** Lines 828-841, on rows [pickup_datetime; pickup_loc_name;
    dropoff_loc_name]: the trips of every pair divided by the number of
    its days, and 0 for a pair without trips.  (All rows of a pair carry
    the same [uniquedate], which is its mean.) *)
Definition mean_daily_trips (rows : list (list value)) : Matrix :=
  let rows :=
    filter (fun r => (not_null (cell 1 r) && not_null (cell 2 r))%bool)
           (map (fun r => [day_of (cell 0 r); cell 1 r; cell 2 r]) rows) in
  let pickups := labels 1 rows in
  let dropoffs := labels 2 rows in
  let entry (d p : value) : value :=
    match filter (fun r => (val_eq (cell 1 r) p && val_eq (cell 2 r) d)%bool)
                 rows with
    | [] => VFloat (0 # 1)
    | found =>
        match agg_nunique (map (cell 0) found) with
        | VInt n =>
            VFloat (Qred (inject_Z (Z.of_nat (List.length found))
                          / inject_Z n))
        | _ => VNaN
        end
    end in
  {| row_labels := dropoffs;
     col_labels := pickups;
     entries := map (fun d => map (entry d) pickups) dropoffs |}.

(** Lines 781-843. *)
Definition odmatrix_frame (date_range : value)
  (df_trips df_locs : DataFrame) : result Matrix :=
  let? df_trips :=
    merge_left df_trips df_locs "pickup_loc_id" "location_id" in
  let? df_trips :=
    merge_left df_trips df_locs "dropoff_loc_id" "location_id" in
  let df_trips :=
    rename_cols [("loc_name_x", "pickup_loc_name");
                 ("loc_name_y", "dropoff_loc_name")] df_trips in
  let? df_trips :=
    project ["pickup_datetime"; "pickup_loc_name"; "dropoff_loc_name"]
            df_trips in
  let? pickup := to_datetime_col df_trips "pickup_datetime" in
  let df_trips := set_col "pickup_datetime" pickup df_trips in
  let? df_trips := in_date_range date_range df_trips in
  Ok (mean_daily_trips (data df_trips)).

Definition generate_odmatrix (date_range : value) : IO Matrix :=
  found <- and_then (path_exists trips_csv) (path_exists locations_csv) ;;
  if found then
    df_trips <- read_csv trips_csv ;;
    df_locs <- read_csv locations_csv ;;
    lift (odmatrix_frame date_range df_trips df_locs)
  else ret empty_matrix.

End ODMatrix.

(** ** A reference implementation of the library parsers

    It reads two-digit fields and a four-digit year for the timestamp
    format, and plain decimal literals for numbers. *)

Module Ref.

Definition digit (c : ascii) : option Z :=
  let n := Str.code c in
  if (Nat.leb 48 n && Nat.leb n 57)%bool then Some (Z.of_nat (n - 48))
  else None.

Fixpoint digits_from (acc : Z) (s : string) : option Z :=
  match s with
  | EmptyString => Some acc
  | String c r =>
      match digit c with
      | Some d => digits_from (10 * acc + d) r
      | None => None
      end
  end.

Definition natural (s : string) : option Z :=
  match s with
  | EmptyString => None
  | _ => digits_from 0 s
  end.

Definition signed {A} (neg : A -> A) (body : string -> option A)
  (s : string) : option A :=
  match s with
  | String c r =>
      if Ascii.eqb c "-" then option_map neg (body r)
      else if Ascii.eqb c "+" then body r
      else body s
  | EmptyString => None
  end.

Definition integer (s : string) : option Z :=
  signed Z.opp natural (Str.strip s).

Fixpoint until_dot (s : string) : string * option string :=
  match s with
  | EmptyString => (EmptyString, None)
  | String c r =>
      if Ascii.eqb c "." then (EmptyString, Some r)
      else let (a, b) := until_dot r in (String c a, b)
  end.

Definition unsigned_decimal (s : string) : option Q :=
  match until_dot s with
  | (whole, None) => option_map inject_Z (natural whole)
  | (whole, Some frac) =>
      match natural whole, natural frac with
      | Some w, Some f =>
          let scale := Z.pow 10 (Z.of_nat (String.length frac)) in
          Some (Qred (Qmake (w * scale + f) (Z.to_pos scale)))
      | _, _ => None
      end
  end.

Definition decimal (s : string) : option Q :=
  signed Qopp unsigned_decimal (Str.strip s).

Definition field (s : string) (pos len : nat) : option Z :=
  natural (substring pos len s).

Definition sep (s : string) (pos : nat) (c : ascii) : bool :=
  match String.get pos s with
  | Some c' => Ascii.eqb c c'
  | None => false
  end.

Definition is_leap (y : Z) : bool :=
  ((y mod 4 =? 0) && (negb (y mod 100 =? 0) || (y mod 400 =? 0)))%bool.

Definition days_in_month (y m : Z) : Z :=
  if m =? 2 then (if is_leap y then 29 else 28)
  else if ((m =? 4) || (m =? 6) || (m =? 9) || (m =? 11))%bool then 30
  else 31.

(** Days from 1970-01-01 to the civil date [y-m-d]. *)
Definition days_from_civil (y m d : Z) : Z :=
  let y := if m <=? 2 then y - 1 else y in
  let era := y / 400 in
  let yoe := y - era * 400 in
  let mp := (m + 9) mod 12 in
  let doy := (153 * mp + 2) / 5 + d - 1 in
  let doe := yoe * 365 + yoe / 4 - yoe / 100 + doy in
  era * 146097 + doe - 719468.

(** [HH:MM:SS,DD-MM-YYYY] to seconds since the epoch. *)
Definition strptime (s : string) : option Z :=
  if (Nat.eqb (String.length s) 19 && sep s 2 ":" && sep s 5 ":" &&
      sep s 8 "," && sep s 11 "-" && sep s 14 "-")%bool
  then
    match field s 0 2, field s 3 2, field s 6 2,
          field s 9 2, field s 12 2, field s 15 4 with
    | Some h, Some mi, Some se, Some d, Some mo, Some y =>
        if ((h <? 24) && (mi <? 60) && (se <? 60) && (1 <=? mo) &&
            (mo <=? 12) && (1 <=? d) && (d <=? days_in_month y mo))%bool
        then Some (days_from_civil y mo d * 86400 + h * 3600 + mi * 60 + se)
        else None
    | _, _, _, _, _, _ => None
    end
  else None.

Definition text (x : value) : string :=
  match x with
  | VInt z => NilZero.string_of_int (Z.to_int z)
  | VStr s => s
  | _ => "?"
  end.

Definition to_datetime (x : value) : option (option Z) :=
  match x with
  | VStr s => option_map Some (strptime s)
  | VTime t => Some (Some t)
  | VNone | VNaN | VNaT => Some None
  | _ => None
  end.

End Ref.

Definition ref_lib : PyLib :=
  {| to_datetime := Ref.to_datetime;
     int_of_string := Ref.integer;
     float_of_string := Ref.decimal;
     to_text := Ref.text |}.


(** ** What the blocks of [add_trip] compute from the persisted state *)

Definition on_table {A} (o : option DataFrame) (present : DataFrame -> result A)
  (absent : result A) : result A :=
  match o with
  | Some df => present df
  | None => absent
  end.

(** The world after [with_table f] has looked at the file. *)
Definition looked_at (f : file) (w : World) : World :=
  match lookup f (store w) with
  | Some _ => log (ReadCsv f) (log (PathExists f) w)
  | None => log (PathExists f) w
  end.

Definition resolved_driver (s : Store) (v : Validated)
  : result (DataFrame * value) :=
  on_table (drivers s)
    (fun df_drivers => driver_in_table df_drivers (driver_name v))
    (driver_in_new_table (driver_name v)).

Definition resolved_location (s : Store) (loc_name : string)
  : result (DataFrame * value) :=
  on_table (locations s)
    (fun df_locs => location_in_table df_locs loc_name)
    (location_in_new_table loc_name).

Definition resolved_trip (s : Store) (driver_id : value) (v : Validated)
  (pickup_id dropoff_id : value) : result (DataFrame * value) :=
  on_table (trips s)
    (fun df_trips => trip_in_table df_trips driver_id v pickup_id dropoff_id)
    (trip_in_new_table driver_id v pickup_id dropoff_id).

(** The world in which the four blocks of [add_trip] have run. *)
Definition tables_read (w : World) : World :=
  looked_at trips_csv
    (looked_at locations_csv
       (looked_at locations_csv (looked_at drivers_csv w))).

(** ** The data model: typed records and the frames that hold them *)

Record DriverRecord : Type := {
  d_id : Z;
  d_given : string;
  d_last : string
}.

Record LocationRecord : Type := {
  l_id : Z;
  l_name : string
}.

Record TripRecord : Type := {
  t_id : Z;
  t_driver : Z;
  t_pickup : string;
  t_dropoff : string;
  t_count : Z;
  t_pickup_loc : Z;
  t_dropoff_loc : Z;
  t_distance : Q;
  t_fare : Q
}.

Definition driver_cells (d : DriverRecord) : list value :=
  [VInt (d_id d); VStr (d_given d); VStr (d_last d)].

Definition location_cells (l : LocationRecord) : list value :=
  [VInt (l_id l); VStr (l_name l)].

Definition trip_cells (t : TripRecord) : list value :=
  [VInt (t_id t); VInt (t_driver t); VStr (t_pickup t); VStr (t_dropoff t);
   VInt (t_count t); VInt (t_pickup_loc t); VInt (t_dropoff_loc t);
   VFloat (t_distance t); VFloat (t_fare t)].

(** The tables in the layout [add_trip] creates them with. *)
Definition drivers_frame (ds : list DriverRecord) : DataFrame :=
  {| columns := drivers_columns; data := map driver_cells ds |}.

Definition locations_frame (ls : list LocationRecord) : DataFrame :=
  {| columns := locations_columns; data := map location_cells ls |}.

Definition trips_frame (ts : list TripRecord) : DataFrame :=
  {| columns := trips_columns; data := map trip_cells ts |}.

Definition layout (f : file) : list string :=
  match f with
  | drivers_csv => drivers_columns
  | locations_csv => locations_columns
  | trips_csv => trips_columns
  end.

(** The field listing of the drivers table in the specification. *)
Definition listed_drivers_columns : list string :=
  ["driver_id"; "last_name"; "given_name"].

(** An identifier resolves to the record of a table whose key is [name]. *)
Definition resolves (table : option DataFrame) (id_col key_col : string)
  (id : value) (name : string) : bool :=
  match table with
  | Some df =>
      match col_index id_col (columns df), col_index key_col (columns df) with
      | Some i, Some k =>
          existsb (fun row => (val_eq (cell i row) id &&
                               val_eq (cell k row) (VStr name))%bool)
                  (data df)
      | _, _ => false
      end
  | None => false
  end.

(** [np.isclose] between a real of the ledger and the new value. *)
Definition close (q : Q) (b : value) : bool :=
  match isclose (VFloat q) b with
  | Ok c => c
  | Raise _ => false
  end.

(** The test of lines 151-163 on one row of the ledger. *)
Definition same_trip (driver_id : value) (v : Validated)
  (pickup_id dropoff_id : value) (t : TripRecord) : bool :=
  (val_eq (VInt (t_driver t)) driver_id &&
   val_eq (VStr (t_pickup t)) (VStr (pickup_datetime v)) &&
   val_eq (VStr (t_dropoff t)) (VStr (dropoff_datetime v)) &&
   val_eq (VInt (t_count t)) (VInt (passenger_count v)) &&
   val_eq (VInt (t_pickup_loc t)) pickup_id &&
   val_eq (VInt (t_dropoff_loc t)) dropoff_id &&
   close (t_distance t) (trip_distance v) &&
   close (t_fare t) (fare_amount v))%bool.




(** ** Kinds of cells *)

Definition numeric (v : value) : Prop := exists q, number v = Some q.

Definition real_or_nan (v : value) : Prop :=
  (exists q, v = VFloat q) \/ v = VNaN.

Definition instant (v : value) : Prop := (exists t, v = VTime t) \/ v = VNaT.

(** [a <= b] does not raise. *)
Definition comparable (a b : value) : Prop := exists c, val_le a b = Ok c.

(** ** Search criteria, as the specification words them *)

(** A criterion after coercion: an exact value, or a range whose absent
    bounds are [VNone]. *)
Inductive criterion : Type :=
| Exactly (x : value)
| Between (lo hi : value).

Section Criteria.
Context {lib : PyLib}.

(** The timestamp a stored text parses to under the fixed format. *)
Definition parsed (s : string) : value :=
  match to_datetime (VStr s) with
  | Some o => timestamp o
  | None => VNaT
  end.

(** The value of a trip under a search key: numeric fields as they are,
    timestamps after parsing. *)
Definition field (key : string) (t : TripRecord) : value :=
  if String.eqb key "driver_id" then VInt (t_driver t)
  else if String.eqb key "pickup_datetime" then parsed (t_pickup t)
  else if String.eqb key "dropoff_datetime" then parsed (t_dropoff t)
  else if String.eqb key "passenger_count" then VInt (t_count t)
  else if String.eqb key "trip_distance" then VFloat (t_distance t)
  else if String.eqb key "fare_amount" then VFloat (t_fare t)
  else VNaN.

(** The coercion of a criterion value: to a real for the numeric keys, to
    a timestamp for the two date keys. *)
Definition coerce_for (key : string) (x : value) : result value :=
  if mem key float_keys then py_float x else py_to_datetime x.

Definition bound_for (key : string) (x : value) : result value :=
  if is_none x then Ok VNone else coerce_for key x.

(** A valid criterion: a scalar that coerces, or a tuple of exactly two
    bounds, each absent or coercible. *)
Definition criterion_of (key : string) (x : value) : option criterion :=
  match x with
  | VTuple [lo; hi] =>
      match bound_for key lo, bound_for key hi with
      | Ok l, Ok h => Some (Between l h)
      | _, _ => None
      end
  | VTuple _ => None
  | _ =>
      match coerce_for key x with
      | Ok y => Some (Exactly y)
      | Raise _ => None
      end
  end.

Definition inclusive_le (a b : value) : bool :=
  match val_le a b with
  | Ok c => c
  | Raise _ => false
  end.

(** A trip meets a criterion: equality for an exact value, and
    [lo <= value] and [value <= hi] for the bounds that are present. *)
Definition meets (key : string) (c : criterion) (t : TripRecord) : bool :=
  match c with
  | Exactly x => val_eq (field key t) x
  | Between lo hi =>
      ((is_none lo || inclusive_le lo (field key t)) &&
       (is_none hi || inclusive_le (field key t) hi))%bool
  end.

(** A trip meets all the criteria of a call. *)
Definition meets_all (kwargs : list (string * value)) (t : TripRecord)
  : bool :=
  forallb (fun kv : string * value =>
             match criterion_of (fst kv) (snd kv) with
             | Some c => meets (fst kv) c t
             | None => false
             end) kwargs.

(** The frame [search_trips] filters: the ledger with the two timestamp
    columns parsed and their text kept in two more columns. *)
Definition wide_columns : list string :=
  ["trip_id"; "driver_id"; "pickup_datetime"; "dropoff_datetime";
   "pickup_string"; "dropoff_string"; "passenger_count"; "pickup_loc_id";
   "dropoff_loc_id"; "trip_distance"; "fare_amount"].

Definition wide_cells (t : TripRecord) : list value :=
  [VInt (t_id t); VInt (t_driver t); parsed (t_pickup t);
   parsed (t_dropoff t); VStr (t_pickup t); VStr (t_dropoff t);
   VInt (t_count t); VInt (t_pickup_loc t); VInt (t_dropoff_loc t);
   VFloat (t_distance t); VFloat (t_fare t)].

Definition wide_frame (ts : list TripRecord) : DataFrame :=
  {| columns := wide_columns; data := map wide_cells ts |}.

(** Every stored timestamp of the ledger parses. *)
Definition timestamps_parse (ts : list TripRecord) : Prop :=
  forall t, In t ts ->
    to_datetime (VStr (t_pickup t)) <> None /\
    to_datetime (VStr (t_dropoff t)) <> None.

End Criteria.

(** ** Malformed parameters of the read paths *)

(** A [date_range] that is neither [None] nor a tuple of two elements. *)
Definition malformed_range (date_range : value) : Prop :=
  match date_range with
  | VNone => False
  | VTuple items => List.length items <> 2%nat
  | _ => True
  end.

Definition statistics_kinds : list string :=
  ["trip"; "passenger"; "driver"; "all"].

(** ** Natural keys *)







(** ** Stores written by the class *)

(** The trip_ids grow along the rows. *)
Definition ascending (ts : list TripRecord) : Prop :=
  StronglySorted (fun a b => t_id a < t_id b) ts.




(** ** Inputs that do not parse *)

Definition not_a_pair (driver : value) : Prop :=
  match driver with
  | VStr s => List.length (Str.split_comma_space (Str.strip s)) <> 2%nat
  | _ => True
  end.

Definition not_a_timestamp {lib : PyLib} (x : value) : Prop :=
  match x with
  | VStr s => to_datetime (VStr (Str.strip s)) = None
  | _ => True
  end.

Definition not_an_integer {lib : PyLib} (x : value) : Prop :=
  forall z, py_int x <> Ok z.

Definition not_a_real {lib : PyLib} (x : value) : Prop :=
  forall q, py_float x <> Ok q.

(** ** Example calls, run with the reference parsers *)

Module Example.

Definition add (driver pickup dropoff : string) (passengers : Z)
  (pickup_loc dropoff_loc : string) (distance fare : Q) : IO value :=
  add_trip (lib := ref_lib) (VStr driver) (VStr pickup) (VStr dropoff)
    (VInt passengers) (VStr pickup_loc) (VStr dropoff_loc)
    (VFloat distance) (VFloat fare).

Definition run {A} (c : IO A) (w : World) : World := snd (c w).

(** The first trip of an empty data directory: both locations are new. *)
Definition first_trip : IO value :=
  add "Cruz, Juan" "10:00:00,01-03-2022" "11:00:00,01-03-2022" 2
      "Makati" "Pasig" (1 # 1) (50 # 1).

Definition after_first : World := run first_trip (fresh empty_store).

(** The same driver and pickup in another case, a day later. *)
Definition second_trip : IO value :=
  add "  cruz, JUAN " "10:00:00,02-03-2022" "11:00:00,02-03-2022" 2
      "MAKATI" "Pasig" (1 # 1) (75 # 1).

Definition after_second : World := run second_trip after_first.

Definition third_trip : IO value :=
  add "Cruz, Juan" "10:00:00,03-03-2022" "11:00:00,03-03-2022" 1
      "Pasig" "Pasig" (1 # 1) (100 # 1).

Definition after_third : World := run third_trip after_second.

Definition trip1 : TripRecord :=
  {| t_id := 1; t_driver := 1; t_pickup := "10:00:00,01-03-2022";
     t_dropoff := "11:00:00,01-03-2022"; t_count := 2; t_pickup_loc := 1;
     t_dropoff_loc := 1; t_distance := 1 # 1; t_fare := 50 # 1 |}.

Definition trip2 : TripRecord :=
  {| t_id := 2; t_driver := 1; t_pickup := "10:00:00,02-03-2022";
     t_dropoff := "11:00:00,02-03-2022"; t_count := 2; t_pickup_loc := 2;
     t_dropoff_loc := 1; t_distance := 1 # 1; t_fare := 75 # 1 |}.

Definition trip3 : TripRecord :=
  {| t_id := 3; t_driver := 1; t_pickup := "10:00:00,03-03-2022";
     t_dropoff := "11:00:00,03-03-2022"; t_count := 1; t_pickup_loc := 1;
     t_dropoff_loc := 1; t_distance := 1 # 1; t_fare := 100 # 1 |}.

(** The third trip again, with a fare one billionth higher. *)
Definition third_trip_again : IO value :=
  add "cruz, juan" " 10:00:00,03-03-2022" "11:00:00,03-03-2022 " 1
      "pasig" "PASIG" (1 # 1) (100000000001 # 1000000000).




End Example.

(** ** Computations that only read *)

(** The store after [c] is the store before it, and [c] wrote no file. *)
Definition read_only {A} (c : IO A) : Prop :=
  forall w,
    store (snd (c w)) = store w /\
    forall f, In (ToCsv f) (trace (snd (c w))) -> In (ToCsv f) (trace w).

(** ** Bounds that do not parse *)

(** A [date_range] of two elements one of which is present and is not a
    timestamp under the fixed format. *)
Definition unparsable_bound {lib : PyLib} (date_range : value) : Prop :=
  match date_range with
  | VTuple [lo; hi] =>
      (is_none lo = false /\ to_datetime lo = None) \/
      (is_none hi = false /\ to_datetime hi = None)
  | _ => False
  end.

(** ** [SakayDB.add_trips] *)

(** [trip[key]] for a text key: a mapping (a list of entries with distinct
    keys) is looked up; the other values cannot be subscripted by text. *)
Definition subscript (trip : value) (key : string) : result value :=
  match trip with
  | VDict entries =>
      match find (fun entry => val_eq (fst entry) (VStr key)) entries with
      | Some entry => Ok (snd entry)
      | None => Raise KeyError
      end
  | _ => Raise TypeError
  end.

(** [str(error)] for a [SakayDBError(text)] *)
Definition error_text (text : option string) : string :=
  match text with
  | Some t => t
  | None => "None"
  end.

(** [f'{i}'] *)
Definition decimal (i : nat) : string := NilEmpty.string_of_uint (Nat.to_uint i).

(** The two warnings of lines 254-257. *)
Definition warning (i : nat) (text : string) : string :=
  "Warning: trip index " ++ decimal i ++ " " ++ text ++ ". Skipping...".

Definition generic_warning (i : nat) : string :=
  "Warning: trip index " ++ decimal i ++
  " has invalid or incomplete information. Skipping...".

(** What a call returns together with the lines it printed, oldest
    first. *)
Record Printed (A : Type) : Type := {
  returned_value : A;
  printed : list string
}.
Arguments returned_value {A} p.
Arguments printed {A} p.

Section AddTrips.
Context {lib : PyLib}.

(** Lines 244-251: the body of the [try]. *)
Definition add_trip_of (trip : value) : IO value :=
  driver <- lift (subscript trip "driver") ;;
  pickup_datetime <- lift (subscript trip "pickup_datetime") ;;
  dropoff_datetime <- lift (subscript trip "dropoff_datetime") ;;
  passenger_count <- lift (subscript trip "passenger_count") ;;
  pickup_loc_name <- lift (subscript trip "pickup_loc_name") ;;
  dropoff_loc_name <- lift (subscript trip "dropoff_loc_name") ;;
  trip_distance <- lift (subscript trip "trip_distance") ;;
  fare_amount <- lift (subscript trip "fare_amount") ;;
  add_trip driver pickup_datetime dropoff_datetime passenger_count
    pickup_loc_name dropoff_loc_name trip_distance fare_amount.

(** Lines 242-257: the loop, from index [i] on.  A [SakayDBError] prints
    its text, any other exception the fixed warning. *)
Fixpoint add_trips_from (i : nat) (trips : list value) (w : World)
  : Printed (list value) * World :=
  match trips with
  | [] => ({| returned_value := []; printed := [] |}, w)
  | trip :: rest =>
      match add_trip_of trip w with
      | (Ok trip_id, w') =>
          let (r, w'') := add_trips_from (S i) rest w' in
          ({| returned_value := trip_id :: returned_value r;
              printed := printed r |}, w'')
      | (Raise (SakayDBError text), w') =>
          let (r, w'') := add_trips_from (S i) rest w' in
          ({| returned_value := returned_value r;
              printed := warning i (error_text text) :: printed r |}, w'')
      | (Raise _, w') =>
          let (r, w'') := add_trips_from (S i) rest w' in
          ({| returned_value := returned_value r;
              printed := generic_warning i :: printed r |}, w'')
      end
  end.

(** Lines 241-258: [trip_ids] and the warnings printed. *)
Definition add_trips (trips : list value) (w : World)
  : Printed (list value) * World :=
  add_trips_from 0 trips w.

End AddTrips.

(** The keys [add_trips] reads of every trip, in the order it reads
    them. *)
Definition trip_keys : list string :=
  ["driver"; "pickup_datetime"; "dropoff_datetime"; "passenger_count";
   "pickup_loc_name"; "dropoff_loc_name"; "trip_distance"; "fare_amount"].





(** ** Stores whose identifiers grow along the rows *)

Definition drivers_ascending (ds : list DriverRecord) : Prop :=
  StronglySorted (fun a b => d_id a < d_id b) ds.

Definition locations_ascending (ls : list LocationRecord) : Prop :=
  StronglySorted (fun a b => l_id a < l_id b) ls.


(** ** The rows of the export *)

(** The driver and the location with an identifier: the first row that
    holds it. *)
Definition driver_of (ds : list DriverRecord) (id : Z) : option DriverRecord :=
  find (fun d => d_id d =? id) ds.

Definition location_of (ls : list LocationRecord) (id : Z)
  : option LocationRecord :=
  find (fun l => l_id l =? id) ls.

(** A name that was looked up: missing when no row has the identifier. *)
Definition text_or_missing (o : option string) : value :=
  match o with
  | Some s => VStr s
  | None => VNaN
  end.

(** The row of the export for a trip. *)
Definition exported (ds : list DriverRecord) (ls : list LocationRecord)
  (t : TripRecord) : list value :=
  [text_or_missing (option_map d_last (driver_of ds (t_driver t)));
   text_or_missing (option_map d_given (driver_of ds (t_driver t)));
   VStr (t_pickup t); VStr (t_dropoff t); VInt (t_count t);
   text_or_missing (option_map l_name (location_of ls (t_pickup_loc t)));
   text_or_missing (option_map l_name (location_of ls (t_dropoff_loc t)));
   VFloat (t_distance t); VFloat (t_fare t)].

Definition id_or_missing (o : option Z) : value :=
  match o with
  | Some z => VInt z
  | None => VNaN
  end.

(** The row of a trip after the three merges of [export_data]: its cells,
    the names of its driver, and the identifier and the name of its pickup
    and of its drop-off location. *)
Definition merged (ds : list DriverRecord) (ls : list LocationRecord)
  (t : TripRecord) : list value :=
  trip_cells t ++
  [text_or_missing (option_map d_given (driver_of ds (t_driver t)));
   text_or_missing (option_map d_last (driver_of ds (t_driver t)));
   id_or_missing (option_map l_id (location_of ls (t_pickup_loc t)));
   text_or_missing (option_map l_name (location_of ls (t_pickup_loc t)));
   id_or_missing (option_map l_id (location_of ls (t_dropoff_loc t)));
   text_or_missing (option_map l_name (location_of ls (t_dropoff_loc t)))].

(** ** The order of the search results *)

Section SearchOrder.
Context {lib : PyLib}.

(** [a] comes strictly before [b] under [sort_values(keys)]: at the first
    key on which the two trips differ, the value of [a] is the smaller
    one. *)
Fixpoint sorts_before (keys : list string) (a b : TripRecord) : bool :=
  match keys with
  | [] => false
  | key :: rest =>
      if val_lt (field key a) (field key b) then true
      else if val_lt (field key b) (field key a) then false
      else sorts_before rest a b
  end.

End SearchOrder.

(** ** [SakayDB.plot_statistics]: the statistics a plot is drawn from

    Lines 657-662, 677-682, 707-713 and 744-745: the method tests the
    files and binds [stat_dict], or raises.  What follows in the method
    reshapes [stat_dict] and draws it with matplotlib; it is not
    modelled. *)

Section PlotStatistics.
Context {lib : PyLib}.


End PlotStatistics.


(** ** Groups of rows *)

Section Distinct.
Context {A : Type} (lt : A -> A -> bool).

(** Neither row comes before the other. *)
Definition tied (a b : A) : bool := (negb (lt a b) && negb (lt b a))%bool.

(** One row of every group, in the order of [lt]. *)
Definition distinct (l : list A) : list A := squeeze tied (stable_sort lt l).

End Distinct.

(** ** The statistics of kind trip, as a formula *)

Section TripStatistics.
Context {lib : PyLib}.

(** Every pickup of the ledger parses to a timestamp (none is NaT). *)
Definition pickups_are_instants (ts : list TripRecord) : Prop :=
  forall t, In t ts ->
    exists p, to_datetime (VStr (t_pickup t)) = Some (Some p).

(** The name of the weekday of a pickup, and the number of its calendar
    day. *)
Definition weekday_of (t : TripRecord) : string :=
  match day_name (parsed (t_pickup t)) with
  | VStr s => s
  | _ => ""
  end.

Definition day_number (t : TripRecord) : Z :=
  match parsed (t_pickup t) with
  | VTime p => p / 86400
  | _ => 0
  end.

Definition picked_up_on (n : string) (t : TripRecord) : bool :=
  String.eqb (weekday_of t) n.

(** The number of calendar days with a pickup on the weekday [n]. *)
Definition active_days (n : string) (ts : list TripRecord) : nat :=
  List.length (nodup Z.eq_dec (map day_number (filter (picked_up_on n) ts))).

(** The trips picked up on the weekday [n], per calendar day with such a
    pickup. *)
Definition trips_per_active_day (n : string) (ts : list TripRecord) : value :=
  VFloat (Qred (inject_Z (Z.of_nat (List.length (filter (picked_up_on n) ts)))
                / inject_Z (Z.of_nat (active_days n ts)))).

(** The order of the two groupings: by weekday and calendar day, and by
    weekday. *)
Definition by_day (a b : TripRecord) : bool :=
  if String.ltb (weekday_of a) (weekday_of b) then true
  else if String.ltb (weekday_of b) (weekday_of a) then false
  else Z.ltb (day_number a) (day_number b).

Definition by_weekday (a b : TripRecord) : bool :=
  String.ltb (weekday_of a) (weekday_of b).

End TripStatistics.

(** * Properties *)

Section IOFacts.

Lemma store_log e w : store (log e w) = store w.
Proof. reflexivity. Qed.

Lemma store_looked_at f w : store (looked_at f w) = store w.
Proof. unfold looked_at. destruct (lookup f (store w)); reflexivity. Qed.

Lemma with_table_run {A} f (present : DataFrame -> result A) absent w :
  with_table f present absent w =
  (on_table (lookup f (store w)) present absent, looked_at f w).
Proof.
  unfold with_table, bind, path_exists, read_csv, lift, looked_at, on_table.
  destruct (lookup f (store w)) eqn:E; simpl; [rewrite E|]; reflexivity.
Qed.

Lemma store_tables_read w : store (tables_read w) = store w.
Proof. unfold tables_read. now rewrite !store_looked_at. Qed.

(** [add_trip] after validation, block by block. *)
Lemma add_validated_run v w :
  add_validated v w =
  match resolved_driver (store w) v with
  | Raise e => (Raise e, looked_at drivers_csv w)
  | Ok (df_drivers, driver_id) =>
    let w1 := looked_at drivers_csv w in
    match resolved_location (store w) (pickup_loc_name v) with
    | Raise e => (Raise e, looked_at locations_csv w1)
    | Ok (_, pickup_id) =>
      let w2 := looked_at locations_csv w1 in
      match resolved_location (store w) (dropoff_loc_name v) with
      | Raise e => (Raise e, looked_at locations_csv w2)
      | Ok (df_locs, dropoff_id) =>
        match resolved_trip (store w) driver_id v pickup_id dropoff_id with
        | Raise e => (Raise e, tables_read w)
        | Ok (df_trips, trip_id) =>
            (Ok trip_id,
             {| store := {| drivers := Some df_drivers;
                            locations := Some df_locs;
                            trips := Some df_trips |};
                trace := ToCsv trips_csv :: ToCsv locations_csv ::
                         ToCsv drivers_csv :: trace (tables_read w) |})
        end
      end
    end
  end.
Proof.
  unfold add_validated, resolved_driver, resolved_location, resolved_trip,
    tables_read.
  unfold bind at 1. rewrite with_table_run. simpl lookup.
  destruct (on_table (drivers (store w)) _ _) as [[df_drivers driver_id]|e];
    [|reflexivity].
  unfold bind at 1. rewrite with_table_run, store_looked_at. simpl lookup.
  destruct (on_table (locations (store w)) _ _) as [[df0 pickup_id]|e];
    [|reflexivity].
  unfold bind at 1. rewrite with_table_run, !store_looked_at. simpl lookup.
  destruct (on_table (locations (store w)) _ _) as [[df_locs dropoff_id]|e];
    [|reflexivity].
  unfold bind at 1. rewrite with_table_run, !store_looked_at. simpl lookup.
  destruct (on_table (trips (store w)) _ _) as [[df_trips trip_id]|e];
    [|reflexivity].
  reflexivity.
Qed.

End IOFacts.

(** ** Text *)

Section StrFacts.
Import Str.

Lemma rstrip_idempotent s : rstrip (rstrip s) = rstrip s.
Proof.
  induction s as [|c r IH]; [reflexivity|].
  simpl. destruct (rstrip r) as [|c' r'] eqn:E.
  - destruct (is_space c) eqn:Ec; [reflexivity|].
    simpl. now rewrite Ec.
  - simpl in *. now rewrite IH.
Qed.

Lemma lstrip_head s c r : lstrip s = String c r -> is_space c = false.
Proof.
  induction s as [|a s IH]; simpl; [discriminate|].
  destruct (is_space a) eqn:Ea; [exact IH|].
  intros H. injection H as <- _. exact Ea.
Qed.

Lemma rstrip_head c r :
  is_space c = false -> exists r', rstrip (String c r) = String c r'.
Proof.
  intros H. simpl. destruct (rstrip r).
  - rewrite H. now exists EmptyString.
  - eauto.
Qed.

Lemma strip_idempotent s : strip (strip s) = strip s.
Proof.
  unfold strip. destruct (lstrip s) as [|c r] eqn:E; [reflexivity|].
  destruct (rstrip_head c r (lstrip_head _ _ _ E)) as [r' Hr].
  rewrite Hr. simpl lstrip. rewrite (lstrip_head _ _ _ E).
  rewrite <- Hr. apply rstrip_idempotent.
Qed.

End StrFacts.

(** ** Frames *)

Section FrameFacts.

Lemma mem_In key keys : mem key keys = true <-> In key keys.
Proof.
  unfold mem. rewrite existsb_exists. split.
  - intros [x [Hx E]]. apply String.eqb_eq in E. now subst.
  - intros H. exists key. split; [assumption|apply String.eqb_refl].
Qed.

Lemma append_row_ok df row df' :
  append_row df row = Ok df' ->
  columns df' = columns df /\ data df' = data df ++ [row].
Proof.
  unfold append_row. destruct (Nat.eqb _ _); [|discriminate].
  intros H. injection H as <-. now split.
Qed.

End FrameFacts.

(** Splits a hypothesis that a chain of steps returned. *)
Ltac returned H :=
  repeat match type of H with
    | rbind ?r _ = Ok _ =>
        let E := fresh "E" in
        destruct r eqn:E; cbn [rbind] in H; [|discriminate H]
    | match ?x with _ => _ end = Ok _ =>
        let E := fresh "E" in
        destruct x eqn:E; try discriminate H
    end.

(** ** Column layout of the written tables *)

Section Layout.

Lemma driver_in_table_columns df dn df' id :
  driver_in_table df dn = Ok (df', id) -> columns df' = columns df.
Proof.
  unfold driver_in_table. intros H. returned H.
  - injection H as <- _.
    match goal with E : append_row _ _ = Ok _ |- _ =>
      apply append_row_ok in E; tauto end.
  - now injection H as <- _.
Qed.

Lemma location_in_table_columns df name df' id :
  location_in_table df name = Ok (df', id) -> columns df' = columns df.
Proof.
  unfold location_in_table. intros H. returned H.
  - injection H as <- _.
    match goal with E : append_row _ _ = Ok _ |- _ =>
      apply append_row_ok in E; tauto end.
  - now injection H as <- _.
Qed.

Lemma trip_in_table_columns df did v pid oid df' id :
  trip_in_table df did v pid oid = Ok (df', id) -> columns df' = columns df.
Proof.
  unfold trip_in_table. intros H. returned H.
  injection H as <- _.
  match goal with E : append_row _ _ = Ok _ |- _ =>
    apply append_row_ok in E; tauto end.
Qed.

End Layout.

(** [C1] The claim fails on the first trip of an empty data directory, whose
    pickup "Makati" and drop-off "Pasig" are both new: the drop-off block
    starts from a fresh locations table, so both get identifier 1, only
    "Pasig" is written, and the pickup identifier of the trip does not
    resolve to "Makati". *)
Theorem C1_new_pickup_is_not_persisted :
  Example.first_trip (fresh empty_store) =
    (Ok (VInt 1), Example.after_first) /\
  locations (store Example.after_first) =
    Some {| columns := ["location_id"; "loc_name"];
            data := [[VInt 1; VStr "Pasig"]] |} /\
  trips (store Example.after_first) =
    Some {| columns := trips_columns;
            data := [[VInt 1; VInt 1; VStr "10:00:00,01-03-2022";
                      VStr "11:00:00,01-03-2022"; VInt 2; VInt 1; VInt 1;
                      VFloat (1 # 1); VFloat (50 # 1)]] |} /\
  resolves (locations (store Example.after_first)) "location_id" "loc_name"
           (VInt 1) "Makati" = false /\
  resolves (locations (store Example.after_first)) "location_id" "loc_name"
           (VInt 1) "Pasig" = true.
Proof. vm_compute. repeat split. Qed.

(** The locations table that [add_trip] writes is the one of the drop-off
    block, computed from the table on disk: what the pickup block appended
    is never written. *)
Lemma add_validated_writes_dropoff_table v w id w' :
  add_validated v w = (Ok id, w') ->
  exists dropoff_id,
    resolved_location (store w) (dropoff_loc_name v)
      = Ok (match locations (store w') with
            | Some df => df
            | None => new_frame []
            end, dropoff_id).
Proof.
  rewrite add_validated_run. intros H.
  destruct (resolved_driver _ _) as [[dfd did]|]; [|discriminate].
  destruct (resolved_location _ (pickup_loc_name v)) as [[dfp pid]|];
    [|discriminate].
  destruct (resolved_location _ (dropoff_loc_name v)) as [[dfl oid]|];
    [|discriminate].
  destruct (resolved_trip _ _ _ _ _) as [[dft tid]|]; [|discriminate].
  injection H as _ <-. now exists oid.
Qed.

(** [C9, as stated] The drivers table that [add_trip] creates does not have
    the column order of the field listing: given_name comes before
    last_name. *)
Lemma C9_counterexample :
  exists df,
    drivers (store Example.after_first) = Some df /\
    columns df = ["driver_id"; "given_name"; "last_name"] /\
    columns df <> listed_drivers_columns.
Proof.
  eexists. split; [vm_compute; reflexivity|]. split; [reflexivity|].
  discriminate.
Qed.

(** [C9, amended] After every successful [add_trip] the three tables exist;
    a table the call created has the columns, in this order,
    driver_id, given_name, last_name (drivers), location_id, loc_name
    (locations) and trip_id, driver_id, pickup_datetime, dropoff_datetime,
    passenger_count, pickup_loc_id, dropoff_loc_id, trip_distance,
    fare_amount (trips), and a table that existed keeps its columns. *)
Theorem C9_written_tables_columns {lib : PyLib}
  (driver pickup dropoff passengers pickup_loc dropoff_loc distance fare
   id : value) (w w' : World) :
  add_trip driver pickup dropoff passengers pickup_loc dropoff_loc distance
    fare w = (Ok id, w') ->
  forall f, exists df',
    lookup f (store w') = Some df' /\
    columns df' = match lookup f (store w) with
                  | Some df => columns df
                  | None => layout f
                  end.
Proof.
  unfold add_trip, bind, lift.
  destruct (validate _ _ _ _ _ _ _ _) as [v|]; [|discriminate].
  rewrite add_validated_run.
  destruct (resolved_driver _ _) as [[dfd did]|] eqn:Ed; [|discriminate].
  destruct (resolved_location _ (pickup_loc_name v))
    as [[dfp pid]|]; [|discriminate].
  destruct (resolved_location _ (dropoff_loc_name v))
    as [[dfl oid]|] eqn:El; [|discriminate].
  destruct (resolved_trip _ _ _ _ _) as [[dft tid]|] eqn:Et; [|discriminate].
  intros H f. injection H as _ <-.
  unfold resolved_driver, resolved_location, resolved_trip, on_table in *.
  destruct f; simpl lookup; eexists; (split; [reflexivity|]).
  - destruct (drivers (store w)).
    + eapply driver_in_table_columns; eassumption.
    + unfold driver_in_new_table in Ed. returned Ed. injection Ed as <- _.
      match goal with E : append_row _ _ = Ok _ |- _ =>
        apply append_row_ok in E; destruct E as [-> _] end.
      reflexivity.
  - destruct (locations (store w)).
    + eapply location_in_table_columns; eassumption.
    + unfold location_in_new_table in El. returned El. injection El as <- _.
      match goal with E : append_row _ _ = Ok _ |- _ =>
        apply append_row_ok in E; destruct E as [-> _] end.
      reflexivity.
  - destruct (trips (store w)).
    + eapply trip_in_table_columns; eassumption.
    + unfold trip_in_new_table in Et. returned Et. injection Et as <- _.
      match goal with E : append_row _ _ = Ok _ |- _ =>
        apply append_row_ok in E; destruct E as [-> _] end.
      reflexivity.
Qed.

Lemma C9_written_tables_columns_witness :
  Example.first_trip (fresh empty_store) = (Ok (VInt 1), Example.after_first)
  /\ forall f, exists df',
       lookup f (store Example.after_first) = Some df' /\
       columns df' = layout f.
Proof.
  split; [vm_compute; reflexivity|].
  intros f.
  destruct (C9_written_tables_columns (lib := ref_lib)
           (VStr "Cruz, Juan") (VStr "10:00:00,01-03-2022")
           (VStr "11:00:00,01-03-2022") (VInt 2) (VStr "Makati")
           (VStr "Pasig") (VFloat (1 # 1)) (VFloat (50 # 1)) (VInt 1)
           (fresh empty_store) Example.after_first) with f as [df' [H1 H2]].
  - vm_compute. reflexivity.
  - exists df'. split; [exact H1|]. rewrite H2. destruct f; reflexivity.
Defined.

(** ** Masks *)

Section MaskFacts.

Lemma select_map {A} (p : A -> bool) (l : list A) :
  select (map p l) l = filter p l.
Proof.
  induction l as [|x l IH]; [reflexivity|].
  simpl. now rewrite IH.
Qed.

Lemma select_rows {A B} (p : A -> bool) (g : A -> B) (l : list A) :
  select (map p l) (map g l) = map g (filter p l).
Proof.
  induction l as [|x l IH]; [reflexivity|].
  simpl. rewrite IH. now destruct (p x).
Qed.

Lemma mask_and_map {A} (p q : A -> bool) (l : list A) :
  mask_and (map p l) (map q l) = map (fun x => (p x && q x)%bool) l.
Proof.
  induction l as [|x l IH]; [reflexivity|].
  simpl. now rewrite IH.
Qed.

Lemma filter_nil_existsb {A} (p : A -> bool) (l : list A) :
  existsb p l = false -> filter p l = [].
Proof.
  induction l as [|x l IH]; [reflexivity|].
  simpl. destruct (p x); [discriminate|exact IH].
Qed.

Lemma filter_cons_existsb {A} (p : A -> bool) (l : list A) :
  existsb p l = true -> exists x r, filter p l = x :: r.
Proof.
  induction l as [|x l IH]; [discriminate|].
  simpl. destruct (p x); eauto.
Qed.

Lemma col_eq_cells i rows x :
  col_eq (map (cell i) rows) x = map (fun row => val_eq (cell i row) x) rows.
Proof. unfold col_eq. now rewrite map_map. Qed.

Lemma col_ne_cells i rows x :
  col_ne (map (cell i) rows) x
  = map (fun row => negb (val_eq (cell i row) x)) rows.
Proof. unfold col_ne. now rewrite map_map. Qed.

End MaskFacts.

(** [C4] Whenever the driver text does not split into exactly two parts, a
    timestamp does not parse under the fixed format, the passenger count
    does not coerce to an integer, or the distance or the fare does not
    coerce to a real, [add_trip] raises the one error "has invalid or
    incomplete information" and leaves the world as it was: no file was
    looked at, read or written. *)
Theorem C4_unparsable_field_raises_before_any_lookup {lib : PyLib}
  (driver pickup dropoff passengers pickup_loc dropoff_loc distance
   fare : value) (w : World) :
  not_a_pair driver \/ not_a_timestamp pickup \/ not_a_timestamp dropoff \/
  not_an_integer passengers \/ not_a_real distance \/ not_a_real fare ->
  add_trip driver pickup dropoff passengers pickup_loc dropoff_loc distance
    fare w
  = (Raise (SakayDBError (Some "has invalid or incomplete information")), w).
Proof.
  intros H. unfold add_trip, bind, lift.
  assert (V : validate driver pickup dropoff passengers pickup_loc
                dropoff_loc distance fare = Raise invalid);
    [|now rewrite V].
  unfold validate.
  destruct driver as [| | |d| | | | |]; try reflexivity.
  cbn [py_strip rbind].
  destruct (Nat.eqb (List.length (Str.split_comma_space (Str.strip d))) 2)
    eqn:Ed; [|reflexivity].
  cbn [negb].
  destruct pickup as [| | |p| | | | |]; try reflexivity.
  cbn [py_strip rbind]. rewrite strip_idempotent.
  unfold py_to_datetime at 1.
  destruct (to_datetime (VStr (Str.strip p))) eqn:Ep; [|reflexivity].
  cbn [rbind].
  destruct dropoff as [| | |q| | | | |]; try reflexivity.
  cbn [py_strip rbind]. rewrite strip_idempotent.
  unfold py_to_datetime at 1.
  destruct (to_datetime (VStr (Str.strip q))) eqn:Eq; [|reflexivity].
  cbn [rbind].
  destruct (py_strip pickup_loc); [|reflexivity]. cbn [rbind].
  destruct (py_strip dropoff_loc); [|reflexivity]. cbn [rbind].
  destruct (py_int passengers) eqn:Ei; [|reflexivity]. cbn [rbind].
  destruct (py_float distance) eqn:Ef; [|reflexivity]. cbn [rbind].
  destruct (py_float fare) eqn:Eg; [|reflexivity].
  exfalso.
  destruct H as [H|[H|[H|[H|[H|H]]]]].
  - apply H. now apply Nat.eqb_eq.
  - simpl in H. congruence.
  - simpl in H. congruence.
  - exact (H _ Ei).
  - exact (H _ Ef).
  - exact (H _ Eg).
Qed.

Lemma C4_unparsable_field_raises_before_any_lookup_witness :
  add_trip (lib := ref_lib) (VStr "Cruz, Juan") (VStr "10:00:00,01-03-2022")
    (VStr "25:00:00,01-03-2022") (VInt 2) (VStr "Makati") (VStr "Pasig")
    (VFloat (1 # 1)) (VFloat (50 # 1)) Example.after_first
  = (Raise (SakayDBError (Some "has invalid or incomplete information")),
     Example.after_first).
Proof.
  apply (C4_unparsable_field_raises_before_any_lookup (lib := ref_lib)).
  right. right. left. vm_compute. reflexivity.
Defined.

(** [C6] A [search_trips] call with no criterion, or with a key outside
    driver_id, pickup_datetime, dropoff_datetime, passenger_count,
    trip_distance and fare_amount, raises [SakayDBError] and leaves the
    world as it was: the ledger was not looked at, whether it exists or
    not, and whatever the other keys are. *)
Theorem C6_unknown_key_raises_before_the_ledger {lib : PyLib}
  (kwargs : list (string * value)) (w : World) :
  kwargs = [] \/
  (exists key value, In (key, value) kwargs /\ ~ In key valid_keys) ->
  search_trips kwargs w = (Raise (SakayDBError None), w).
Proof.
  intros H. unfold search_trips.
  assert (E : (Nat.eqb (List.length (map fst kwargs)) 0
               || existsb (fun key => negb (mem key valid_keys))
                    (map fst kwargs))%bool = true).
  { destruct H as [->|[key [value [Hin Hkey]]]]; [reflexivity|].
    apply orb_true_iff. right. apply existsb_exists. exists key. split.
    - apply in_map_iff. now exists (key, value).
    - apply negb_true_iff. destruct (mem key valid_keys) eqn:M; [|reflexivity].
      apply mem_In in M. contradiction. }
  rewrite E. reflexivity.
Qed.

Lemma C6_unknown_key_raises_before_the_ledger_witness :
  search_trips (lib := ref_lib)
    [("driver_id", VInt 1); ("fare", VFloat (50 # 1))] (fresh empty_store)
  = (Raise (SakayDBError None), fresh empty_store).
Proof.
  apply (C6_unknown_key_raises_before_the_ledger (lib := ref_lib)).
  right. exists "fare", (VFloat (50 # 1)). split.
  - simpl. right. left. reflexivity.
  - unfold valid_keys. simpl. intros [H|[H|[H|[H|[H|[H|[]]]]]]]; discriminate H.
Defined.

(** [C10] When the ledger holds a row whose trip_id equals the argument,
    [delete_trip] returns the argument and writes the trips table alone,
    with the rows whose trip_id differs, in their order; the drivers and
    locations tables are neither looked at nor changed.  When no row has
    that trip_id, or there is no [trips.csv], it raises [SakayDBError]
    and writes nothing. *)
Theorem C10_delete_trip_rewrites_only_the_ledger (trip_id : value)
  (w : World) :
  (forall df i,
     trips (store w) = Some df ->
     col_index "trip_id" (columns df) = Some i ->
     delete_trip trip_id w =
     if existsb (fun row => val_eq (cell i row) trip_id) (data df)
     then (Ok trip_id,
           {| store :=
                {| drivers := drivers (store w);
                   locations := locations (store w);
                   trips :=
                     Some {| columns := columns df;
                             data := filter (fun row =>
                                        negb (val_eq (cell i row) trip_id))
                                      (data df) |} |};
              trace := ToCsv trips_csv :: ReadCsv trips_csv ::
                       PathExists trips_csv :: trace w |})
     else (Raise (SakayDBError None),
           {| store := store w;
              trace := ReadCsv trips_csv :: PathExists trips_csv :: trace w |}))
  /\
  (trips (store w) = None ->
   delete_trip trip_id w =
   (Raise (SakayDBError None),
    {| store := store w; trace := PathExists trips_csv :: trace w |})).
Proof.
  split.
  - intros df i Hdf Hi.
    unfold delete_trip, bind, path_exists, read_csv, lift, get_col, raise,
      to_csv, ret, log. cbn [lookup store trace]. rewrite Hdf. cbv beta iota.
    cbn [lookup store trace]. rewrite Hdf. cbv beta iota.
    rewrite Hi. cbv beta iota.
    rewrite col_eq_cells, select_map.
    destruct (existsb _ (data df)) eqn:E.
    + destruct (filter_cons_existsb _ _ E) as [x [r ->]].
      cbn [store trace update]. rewrite col_ne_cells, select_map. reflexivity.
    + rewrite (filter_nil_existsb _ _ E). reflexivity.
  - intros Hdf.
    unfold delete_trip, bind, path_exists, raise, log. cbn [lookup store].
    rewrite Hdf. reflexivity.
Qed.

Lemma C10_delete_trip_rewrites_only_the_ledger_witness :
  delete_trip (VInt 1) Example.after_second =
    (Ok (VInt 1),
     {| store :=
          {| drivers := drivers (store Example.after_second);
             locations := locations (store Example.after_second);
             trips :=
               Some {| columns := trips_columns;
                       data := [[VInt 2; VInt 1; VStr "10:00:00,02-03-2022";
                                 VStr "11:00:00,02-03-2022"; VInt 2; VInt 2;
                                 VInt 1; VFloat (1 # 1); VFloat (75 # 1)]] |} |};
        trace := ToCsv trips_csv :: ReadCsv trips_csv ::
                 PathExists trips_csv :: trace Example.after_second |}) /\
  delete_trip (VInt 1) (fresh empty_store) =
    (Raise (SakayDBError None),
     {| store := empty_store; trace := [PathExists trips_csv] |}).
Proof.
  split.
  - refine (eq_trans
      (proj1 (C10_delete_trip_rewrites_only_the_ledger (VInt 1)
                Example.after_second)
         {| columns := trips_columns;
            data := [[VInt 1; VInt 1; VStr "10:00:00,01-03-2022";
                      VStr "11:00:00,01-03-2022"; VInt 2; VInt 1; VInt 1;
                      VFloat (1 # 1); VFloat (50 # 1)];
                     [VInt 2; VInt 1; VStr "10:00:00,02-03-2022";
                      VStr "11:00:00,02-03-2022"; VInt 2; VInt 2; VInt 1;
                      VFloat (1 # 1); VFloat (75 # 1)]] |}
         0%nat _ _) _).
    + vm_compute. reflexivity.
    + reflexivity.
    + vm_compute. reflexivity.
  - apply (proj2 (C10_delete_trip_rewrites_only_the_ledger (VInt 1)
                    (fresh empty_store))).
    reflexivity.
Defined.

(** ** Typed frames *)

Section TypedFrames.

Lemma get_col_map {A} cols (g : A -> list value) (l : list A) name i :
  col_index name cols = Some i ->
  get_col {| columns := cols; data := map g l |} name
  = Ok (map (fun x => cell i (g x)) l).
Proof.
  intros H. unfold get_col. cbn [columns data]. rewrite H.
  now rewrite map_map.
Qed.

Lemma mapM_map {A B C} (g : A -> B) (f : B -> result C) (h : A -> C) l :
  (forall x, In x l -> f (g x) = Ok (h x)) ->
  mapM f (map g l) = Ok (map h l).
Proof.
  induction l as [|x l IH]; intros H; [reflexivity|].
  simpl. rewrite (H x (or_introl eq_refl)). cbn [rbind].
  rewrite IH; [reflexivity|]. intros y Hy. apply H. now right.
Qed.

Lemma object_dtype_reals {A} (g : A -> Q) (l : list A) :
  l <> [] -> object_dtype (map (fun x => VFloat (g x)) l) = false.
Proof.
  destruct l as [|x l]; [congruence|]. intros _.
  cbn [object_dtype map]. apply not_true_is_false. intros H.
  apply existsb_exists in H. destruct H as [c [Hc Ht]].
  change (VFloat (g x) :: map (fun x => VFloat (g x)) l)
    with (map (fun x => VFloat (g x)) (x :: l)) in Hc.
  apply in_map_iff in Hc. destruct Hc as [y [<- _]]. discriminate.
Qed.

Lemma isclose_close q b :
  floating b <> None -> isclose (VFloat q) b = Ok (close q b).
Proof.
  unfold close, isclose. cbn [floating].
  destruct (floating b) as [[y|]|]; [reflexivity|reflexivity|congruence].
Qed.

Lemma np_isclose_reals {A} (g : A -> Q) (l : list A) b :
  l <> [] -> floating b <> None ->
  np_isclose (map (fun x => VFloat (g x)) l) b
  = Ok (map (fun x => close (g x) b) l).
Proof.
  intros Hl Hb. unfold np_isclose. rewrite (object_dtype_reals g l Hl).
  apply mapM_map. intros x _. now apply isclose_close.
Qed.

Lemma val_eq_int a b : val_eq (VInt a) (VInt b) = Z.eqb a b.
Proof.
  cbn [val_eq number]. unfold Qeq_bool. simpl.
  now rewrite !Z.mul_1_r.
Qed.

Lemma val_eq_str a b : val_eq (VStr a) (VStr b) = String.eqb a b.
Proof. reflexivity. Qed.

(** The mask of lines 151-163 on a typed ledger is the row-wise test. *)
Lemma same_trip_mask_typed ts driver_id v pickup_id dropoff_id :
  ts <> [] ->
  floating (trip_distance v) <> None ->
  floating (fare_amount v) <> None ->
  same_trip_mask (trips_frame ts) driver_id v pickup_id dropoff_id
  = Ok (map (same_trip driver_id v pickup_id dropoff_id) ts).
Proof.
  intros Hts Hd Hf. unfold same_trip_mask, trips_frame.
  rewrite (get_col_map trips_columns trip_cells ts "driver_id" 1%nat eq_refl). cbn [rbind].
  rewrite (get_col_map trips_columns trip_cells ts "pickup_datetime" 2%nat eq_refl). cbn [rbind].
  rewrite (get_col_map trips_columns trip_cells ts "dropoff_datetime" 3%nat eq_refl). cbn [rbind].
  rewrite (get_col_map trips_columns trip_cells ts "passenger_count" 4%nat eq_refl). cbn [rbind].
  rewrite (get_col_map trips_columns trip_cells ts "pickup_loc_id" 5%nat eq_refl). cbn [rbind].
  rewrite (get_col_map trips_columns trip_cells ts "dropoff_loc_id" 6%nat eq_refl). cbn [rbind].
  rewrite (get_col_map trips_columns trip_cells ts "trip_distance" 7%nat eq_refl). cbn [rbind].
  rewrite (get_col_map trips_columns trip_cells ts "fare_amount" 8%nat eq_refl).
  cbn [cell nth trip_cells].
  rewrite (np_isclose_reals t_distance ts _ Hts Hd). cbn [rbind].
  rewrite (np_isclose_reals t_fare ts _ Hts Hf). cbn [rbind].
  unfold col_eq. rewrite !map_map, !mask_and_map. reflexivity.
Qed.

End TypedFrames.

(** ** Duplicate trips *)

Section Duplicates.
Context {lib : PyLib}.

Lemma no_new_write w f :
  In (ToCsv f) (trace (tables_read w)) -> In (ToCsv f) (trace w).
Proof.
  unfold tables_read, looked_at, log.
  repeat match goal with
    | |- context [match lookup ?g ?s with _ => _ end] =>
        destruct (lookup g s)
    end;
    cbn [trace store In]; intros H;
    repeat match goal with
      | H : _ \/ _ |- _ => destruct H as [H|H]; [discriminate H|]
      end; exact H.
Qed.


(** [C2] When the validated fields and the identifiers the driver and
    location blocks resolve equal a row of the ledger - exactly on
    driver_id, both timestamps, passenger_count and both location ids, and
    under [np.isclose] on trip_distance and fare_amount - [add_trip] raises
    "is already in the database"; the tables are as before, and the call
    wrote no file. *)
Theorem C2_duplicate_trip_raises_and_writes_nothing
  (driver pickup dropoff passengers pickup_loc dropoff_loc distance
   fare : value) (w : World) (v : Validated)
  (df_drivers df_pickup df_locs : DataFrame)
  (ts : list TripRecord) (t : TripRecord) :
  validate driver pickup dropoff passengers pickup_loc dropoff_loc distance
    fare = Ok v ->
  resolved_driver (store w) v = Ok (df_drivers, VInt (t_driver t)) ->
  resolved_location (store w) (pickup_loc_name v)
    = Ok (df_pickup, VInt (t_pickup_loc t)) ->
  resolved_location (store w) (dropoff_loc_name v)
    = Ok (df_locs, VInt (t_dropoff_loc t)) ->
  trips (store w) = Some (trips_frame ts) ->
  In t ts ->
  t_pickup t = pickup_datetime v ->
  t_dropoff t = dropoff_datetime v ->
  t_count t = passenger_count v ->
  isclose (VFloat (t_distance t)) (trip_distance v) = Ok true ->
  isclose (VFloat (t_fare t)) (fare_amount v) = Ok true ->
  add_trip driver pickup dropoff passengers pickup_loc dropoff_loc distance
    fare w
  = (Raise (SakayDBError (Some "is already in the database")),
     tables_read w) /\
  store (tables_read w) = store w /\
  (forall f, In (ToCsv f) (trace (tables_read w)) -> In (ToCsv f) (trace w)).
Proof.
  intros Hv Hd Hp Ho Ht Hin E1 E2 E3 E4 E5.
  split; [|split; [apply store_tables_read|apply no_new_write]].
  unfold add_trip, bind, lift. rewrite Hv, add_validated_run, Hd, Hp, Ho.
  unfold resolved_trip. rewrite Ht. cbn [on_table].
  unfold trip_in_table.
  assert (Hts : ts <> []) by (intros ->; contradiction).
  assert (Fd : floating (trip_distance v) <> None).
  { unfold isclose in E4. cbn [floating] in E4.
    destruct (floating (trip_distance v)); [discriminate|discriminate E4]. }
  assert (Ff : floating (fare_amount v) <> None).
  { unfold isclose in E5. cbn [floating] in E5.
    destruct (floating (fare_amount v)); [discriminate|discriminate E5]. }
  rewrite (same_trip_mask_typed ts _ v _ _ Hts Fd Ff). cbn [rbind].
  unfold trips_frame. cbn [data]. rewrite select_rows.
  assert (S : same_trip (VInt (t_driver t)) v (VInt (t_pickup_loc t))
                (VInt (t_dropoff_loc t)) t = true).
  { unfold same_trip, close. rewrite E4, E5, !val_eq_int, !val_eq_str.
    rewrite E1, E2, E3, !Z.eqb_refl, !String.eqb_refl. reflexivity. }
  destruct (filter_cons_existsb
              (same_trip (VInt (t_driver t)) v (VInt (t_pickup_loc t))
                 (VInt (t_dropoff_loc t))) ts) as [x [r ->]].
  { apply existsb_exists. now exists t. }
  reflexivity.
Qed.

End Duplicates.

Lemma C2_duplicate_trip_raises_and_writes_nothing_witness :
  Example.third_trip_again Example.after_third
  = (Raise (SakayDBError (Some "is already in the database")),
     tables_read Example.after_third) /\
  store (tables_read Example.after_third) = store Example.after_third /\
  (forall f, In (ToCsv f) (trace (tables_read Example.after_third)) ->
             In (ToCsv f) (trace Example.after_third)).
Proof.
  eapply (C2_duplicate_trip_raises_and_writes_nothing (lib := ref_lib)
            (VStr "cruz, juan") (VStr " 10:00:00,03-03-2022")
            (VStr "11:00:00,03-03-2022 ") (VInt 1) (VStr "pasig")
            (VStr "PASIG") (VFloat (1 # 1))
            (VFloat (100000000001 # 1000000000)) Example.after_third
            _ _ _ _ [Example.trip1; Example.trip2; Example.trip3]
            Example.trip3).
  - vm_compute. reflexivity.
  - vm_compute. reflexivity.
  - vm_compute. reflexivity.
  - vm_compute. reflexivity.
  - vm_compute. reflexivity.
  - simpl. tauto.
  - reflexivity.
  - reflexivity.
  - reflexivity.
  - vm_compute. reflexivity.
  - vm_compute. reflexivity.
Defined.

(** ** Identifiers of new trips *)

Section NextId.
Context {lib : PyLib}.







End NextId.




(** ** Searching the ledger *)

Section SearchFacts.
Context {lib : PyLib}.

Lemma zip_rows_map {A} F (f : A -> value) (g : A -> list value) l :
  zip_rows F (map f l) (map g l) = map (fun x => F (f x) (g x)) l.
Proof.
  induction l as [|x l IH]; [reflexivity|].
  simpl. now rewrite IH.
Qed.

Lemma py_to_datetime_parsed s :
  to_datetime (VStr s) <> None -> py_to_datetime (VStr s) = Ok (parsed s).
Proof.
  unfold py_to_datetime, parsed. destruct (to_datetime (VStr s));
    [reflexivity|congruence].
Qed.

(** The first half of [search_trips] builds the wide frame. *)
Lemma search_frame_typed kwargs ts :
  timestamps_parse ts ->
  search_frame kwargs (trips_frame ts) =
  (let? df := filter_all kwargs (wide_frame ts) in
   let? df := sort_values (map fst kwargs) df in
   let? df := drop_cols date_keys df in
   Ok (rename_cols [("pickup_string", "pickup_datetime");
                    ("dropoff_string", "dropoff_datetime")] df)).
Proof.
  intros P. unfold search_frame, trips_frame.
  rewrite (get_col_map trips_columns trip_cells ts "pickup_datetime" 2%nat
             eq_refl).
  cbn [rbind cell nth trip_cells]. unfold insert_col.
  cbn [columns data mem existsb trips_columns String.eqb Ascii.eqb
       Bool.eqb orb List.length Nat.ltb Nat.leb].
  rewrite zip_rows_map. cbn [insert_at trip_cells rbind trips_columns].
  match goal with |- context [get_col {| columns := ?c; data := map ?g ts |}
                                "dropoff_datetime"] =>
    rewrite (get_col_map c g ts "dropoff_datetime" 3%nat eq_refl) end.
  cbn [rbind cell nth].
  cbn [columns data mem existsb String.eqb Ascii.eqb
       Bool.eqb orb List.length Nat.ltb Nat.leb].
  rewrite zip_rows_map. cbn [insert_at rbind].
  unfold to_datetime_col.
  match goal with |- context [get_col {| columns := ?c; data := map ?g ts |}
                                "pickup_datetime"] =>
    rewrite (get_col_map c g ts "pickup_datetime" 2%nat eq_refl) end.
  cbn [rbind cell nth].
  rewrite (mapM_map (fun t => VStr (t_pickup t)) py_to_datetime
             (fun t => parsed (t_pickup t)))
    by (intros t Ht; apply py_to_datetime_parsed, (P t Ht)).
  cbn [rbind]. unfold set_col at 1.
  cbn [columns data col_index String.eqb Ascii.eqb Bool.eqb].
  rewrite zip_rows_map. cbn [replace_at].
  match goal with |- context [get_col {| columns := ?c; data := map ?g ts |}
                                "dropoff_datetime"] =>
    rewrite (get_col_map c g ts "dropoff_datetime" 3%nat eq_refl) end.
  cbn [rbind cell nth].
  rewrite (mapM_map (fun t => VStr (t_dropoff t)) py_to_datetime
             (fun t => parsed (t_dropoff t)))
    by (intros t Ht; apply py_to_datetime_parsed, (P t Ht)).
  cbn [rbind]. unfold set_col.
  cbn [columns data col_index String.eqb Ascii.eqb Bool.eqb].
  rewrite !zip_rows_map.
  reflexivity.
Qed.

End SearchFacts.

Section FilterFacts.
Context {lib : PyLib}.

Lemma comparable_le a b : comparable a b -> val_le a b = Ok (inclusive_le a b).
Proof. intros [c H]. unfold inclusive_le. now rewrite H. Qed.

Lemma real_numeric_comparable a b :
  real_or_nan a -> numeric b -> comparable a b /\ comparable b a.
Proof.
  intros [[q ->]| ->] [x Hx]; destruct b; try discriminate Hx;
    split; eexists; reflexivity.
Qed.

Lemma instants_comparable a b : instant a -> instant b -> comparable a b.
Proof.
  intros [[t ->]| ->] [[u ->]| ->]; eexists; reflexivity.
Qed.

Lemma py_float_real x y : py_float x = Ok y -> real_or_nan y.
Proof.
  destruct x; simpl; try discriminate; intros H.
  - injection H as <-. left. eauto.
  - injection H as <-. left. eauto.
  - destruct (float_of_string s); [|discriminate]. injection H as <-.
    left. eauto.
  - injection H as <-. now right.
Qed.

Lemma py_to_datetime_instant x y : py_to_datetime x = Ok y -> instant y.
Proof.
  unfold py_to_datetime. destruct (to_datetime x) as [[t|]|]; [| |discriminate];
    intros H; injection H as <-; [left; eexists; reflexivity|now right].
Qed.

Lemma parsed_instant s : instant (parsed s).
Proof.
  unfold parsed. destruct (to_datetime (VStr s)) as [[t|]|];
    [left; eexists; reflexivity|now right|now right].
Qed.

(** A valid key is numeric or a date, and the wide frame has its column. *)
Lemma valid_key_cases key :
  In key valid_keys ->
  (forall l, get_col (wide_frame l) key = Ok (map (field key) l)) /\
  ((mem key float_keys = true /\ mem key date_keys = false /\
    forall t, numeric (field key t)) \/
   (mem key float_keys = false /\ mem key date_keys = true /\
    forall t, instant (field key t))).
Proof.
  intros H. unfold valid_keys in H. simpl in H.
  destruct H as [<-|[<-|[<-|[<-|[<-|[<-|[]]]]]]]; split.
  - intros l. unfold wide_frame.
    now rewrite (get_col_map wide_columns wide_cells l "driver_id" 1%nat
                   eq_refl).
  - left. repeat split. intros t. eexists. reflexivity.
  - intros l. unfold wide_frame.
    now rewrite (get_col_map wide_columns wide_cells l "pickup_datetime"
                   2%nat eq_refl).
  - right. repeat split. intros t. apply parsed_instant.
  - intros l. unfold wide_frame.
    now rewrite (get_col_map wide_columns wide_cells l "dropoff_datetime"
                   3%nat eq_refl).
  - right. repeat split. intros t. apply parsed_instant.
  - intros l. unfold wide_frame.
    now rewrite (get_col_map wide_columns wide_cells l "passenger_count"
                   6%nat eq_refl).
  - left. repeat split. intros t. eexists. reflexivity.
  - intros l. unfold wide_frame.
    now rewrite (get_col_map wide_columns wide_cells l "trip_distance"
                   9%nat eq_refl).
  - left. repeat split. intros t. eexists. reflexivity.
  - intros l. unfold wide_frame.
    now rewrite (get_col_map wide_columns wide_cells l "fare_amount"
                   10%nat eq_refl).
  - left. repeat split. intros t. eexists. reflexivity.
Qed.

Lemma where_wide p l :
  where_ (map p l) (wide_frame l) = wide_frame (filter p l).
Proof.
  unfold where_, wide_frame. cbn [columns data]. now rewrite select_rows.
Qed.

Lemma col_ge_fields key lo l :
  (forall t, comparable lo (field key t)) ->
  col_ge (map (field key) l) lo
  = Ok (map (fun t => inclusive_le lo (field key t)) l).
Proof.
  intros C. unfold col_ge. apply mapM_map. intros t _.
  apply comparable_le, C.
Qed.

Lemma col_le_fields key hi l :
  (forall t, comparable (field key t) hi) ->
  col_le (map (field key) l) hi
  = Ok (map (fun t => inclusive_le (field key t) hi) l).
Proof.
  intros C. unfold col_le. apply mapM_map. intros t _.
  apply comparable_le, C.
Qed.

(** A coerced value compares with the column of its key. *)
Lemma coerced_comparable key x y :
  In key valid_keys -> coerce_for key x = Ok y ->
  forall t, comparable y (field key t) /\ comparable (field key t) y.
Proof.
  intros K H t. destruct (valid_key_cases key K) as [_ [[F [_ N]]|[F [_ I]]]];
    unfold coerce_for in H; rewrite F in H.
  - apply real_numeric_comparable; [eapply py_float_real; eauto|apply N].
  - apply py_to_datetime_instant in H.
    split; apply instants_comparable; auto.
Qed.

Lemma is_none_true x : is_none x = true -> x = VNone.
Proof. destruct x; simpl; congruence. Qed.

Lemma bound_comparable key x y :
  In key valid_keys -> bound_for key x = Ok y -> is_none y = false ->
  forall t, comparable y (field key t) /\ comparable (field key t) y.
Proof.
  unfold bound_for. intros K H N. destruct (is_none x).
  - injection H as <-. discriminate N.
  - now apply coerced_comparable with x.
Qed.

End FilterFacts.

Section FilterBy.
Context {lib : PyLib}.

Lemma bound_for_float key x :
  mem key float_keys = true -> bound_for key x = unless_none py_float x.
Proof.
  intros F. unfold unless_none, bound_for, coerce_for. rewrite F.
  destruct (is_none x) eqn:N; [|reflexivity].
  now rewrite (is_none_true x N).
Qed.

Lemma bound_for_date key x :
  mem key float_keys = false ->
  bound_for key x = unless_none py_to_datetime x.
Proof.
  intros F. unfold unless_none, bound_for, coerce_for. rewrite F.
  destruct (is_none x) eqn:N; [|reflexivity].
  now rewrite (is_none_true x N).
Qed.

(** The four cases of lines 379-385 on the wide frame. *)
Lemma range_on_wide key lo hi l :
  In key valid_keys ->
  (is_none lo = false ->
   forall t, comparable lo (field key t)) ->
  (is_none hi = false ->
   forall t, comparable (field key t) hi) ->
  match is_none lo, is_none hi with
  | false, true =>
      let? column := get_col (wide_frame l) key in
      let? mask := col_ge column lo in
      Ok (where_ mask (wide_frame l))
  | true, false =>
      let? column := get_col (wide_frame l) key in
      let? mask := col_le column hi in
      Ok (where_ mask (wide_frame l))
  | false, false =>
      let? column := get_col (wide_frame l) key in
      let? above := col_ge column lo in
      let? column := get_col (wide_frame l) key in
      let? below := col_le column hi in
      Ok (where_ (mask_and above below) (wide_frame l))
  | true, true => Ok (wide_frame l)
  end
  = Ok (wide_frame (filter (meets key (Between lo hi)) l)).
Proof.
  intros K Clo Chi. destruct (valid_key_cases key K) as [G _].
  unfold meets.
  destruct (is_none lo) eqn:Nlo, (is_none hi) eqn:Nhi; cbn [orb andb].
  - f_equal. f_equal. symmetry. clear. induction l as [|t l IH];
      [reflexivity|]. simpl. now rewrite IH.
  - rewrite G. cbn [rbind]. rewrite (col_le_fields key hi l (Chi eq_refl)).
    cbn [rbind]. now rewrite where_wide.
  - rewrite G. cbn [rbind]. rewrite (col_ge_fields key lo l (Clo eq_refl)).
    cbn [rbind]. rewrite where_wide. do 2 f_equal. apply filter_ext.
    intros t. now rewrite andb_true_r.
  - rewrite G. cbn [rbind]. rewrite (col_ge_fields key lo l (Clo eq_refl)).
    cbn [rbind]. rewrite (col_le_fields key hi l (Chi eq_refl)).
    cbn [rbind]. now rewrite mask_and_map, where_wide.
Qed.

Lemma filter_by_range key lo hi lo' hi' l :
  In key valid_keys ->
  bound_for key lo = Ok lo' -> bound_for key hi = Ok hi' ->
  filter_by key (VTuple [lo; hi]) (wide_frame l)
  = Ok (wide_frame (filter (meets key (Between lo' hi')) l)).
Proof.
  intros K Hlo Hhi.
  assert (R := range_on_wide key lo' hi' l K
                 (fun N t => proj1 (bound_comparable key lo lo' K Hlo N t))
                 (fun N t => proj2 (bound_comparable key hi hi' K Hhi N t))).
  unfold filter_by. cbn [List.length Nat.eqb negb nth].
  destruct (valid_key_cases key K) as [_ [[F [D _]]|[F [D _]]]];
    rewrite F, D.
  - rewrite (bound_for_float key _ F) in Hlo.
    rewrite (bound_for_float key _ F) in Hhi. rewrite Hlo. cbn [rbind]. rewrite Hhi. cbn [rbind].
    rewrite R. reflexivity.
  - rewrite (bound_for_date key _ F) in Hlo.
    rewrite (bound_for_date key _ F) in Hhi.
    cbn [rbind]. rewrite Hlo. cbn [rbind]. rewrite Hhi. cbn [rbind].
    rewrite R. reflexivity.
Qed.

Lemma filter_by_scalar key x y l :
  In key valid_keys ->
  (forall items, x <> VTuple items) ->
  coerce_for key x = Ok y ->
  filter_by key x (wide_frame l)
  = Ok (wide_frame (filter (meets key (Exactly y)) l)).
Proof.
  intros K T H.
  assert (B : filter_by key x (wide_frame l) =
              try_except
                (let? value := if mem key float_keys
                               then py_float x else Ok x in
                 let? value := if mem key date_keys
                               then py_to_datetime value else Ok value in
                 let? column := get_col (wide_frame l) key in
                 Ok (where_ (col_eq column value) (wide_frame l)))
                (fun _ => Raise (SakayDBError None))).
  { unfold filter_by. destruct x; try reflexivity. now elim (T items). }
  rewrite B. clear B. unfold coerce_for in H.
  destruct (valid_key_cases key K) as [G [[F [D _]]|[F [D _]]]];
    rewrite F in H; rewrite F, D.
  - rewrite H. cbn [rbind]. rewrite G. cbn [rbind try_except].
    unfold col_eq. rewrite map_map. now rewrite where_wide.
  - cbn [rbind]. rewrite H. cbn [rbind]. rewrite G. cbn [rbind try_except].
    unfold col_eq. rewrite map_map. now rewrite where_wide.
Qed.

(** One pass of the loop keeps the trips that meet the criterion. *)
Lemma filter_by_valid key x c l :
  In key valid_keys -> criterion_of key x = Some c ->
  filter_by key x (wide_frame l)
  = Ok (wide_frame (filter (meets key c) l)).
Proof.
  intros K H. unfold criterion_of in H.
  destruct x as [| | | | | | |items|];
    try (destruct (coerce_for key _) eqn:C in H; [|discriminate H];
         injection H as <-; apply filter_by_scalar;
         [exact K|discriminate|exact C]).
  destruct items as [|lo [|hi [|]]]; try discriminate H.
  destruct (bound_for key lo) eqn:Hlo; [|discriminate H].
  destruct (bound_for key hi) eqn:Hhi; [|discriminate H].
  injection H as <-. now apply filter_by_range.
Qed.

(** Whatever a pass raises is [SakayDBError]. *)
Lemma filter_by_raises key x df e :
  filter_by key x df = Raise e -> e = SakayDBError None.
Proof.
  unfold filter_by, try_except.
  match goal with |- match ?b with _ => _ end = _ -> _ => destruct b end;
    [discriminate|]. intros H. now injection H.
Qed.

Lemma filter_by_bad_length key items df :
  List.length items <> 2%nat ->
  filter_by key (VTuple items) df = Raise (SakayDBError None).
Proof.
  intros H. unfold filter_by.
  destruct (Nat.eqb_spec (List.length items) 2); [contradiction|reflexivity].
Qed.

Lemma filter_all_valid kwargs l :
  (forall kv, In kv kwargs ->
     In (fst kv) valid_keys /\ criterion_of (fst kv) (snd kv) <> None) ->
  filter_all kwargs (wide_frame l)
  = Ok (wide_frame (filter (meets_all kwargs) l)).
Proof.
  revert l. induction kwargs as [|[key x] kwargs IH]; intros l V.
  - cbn [filter_all]. do 2 f_equal. symmetry. clear.
    induction l as [|t l IH]; [reflexivity|]. simpl. now rewrite IH.
  - cbn [filter_all].
    destruct (V (key, x) (or_introl eq_refl)) as [K C]. cbn [fst snd] in K, C.
    destruct (criterion_of key x) as [c|] eqn:E; [|congruence].
    rewrite (filter_by_valid key x c l K E). cbn [rbind].
    rewrite IH by (intros kv Hkv; apply V; now right).
    do 2 f_equal. clear -E.
    induction l as [|t l IHl]; [reflexivity|].
    cbn [filter]. unfold meets_all at 2. cbn [forallb fst snd]. rewrite E.
    destruct (meets key c t); cbn [filter andb].
    + fold (meets_all kwargs t). destruct (meets_all kwargs t);
        now rewrite IHl.
    + exact IHl.
Qed.

Lemma filter_all_bad_length kwargs key items :
  In (key, VTuple items) kwargs -> List.length items <> 2%nat ->
  forall df, filter_all kwargs df = Raise (SakayDBError None).
Proof.
  intros Hin Hlen. induction kwargs as [|[k x] kwargs IH]; [contradiction|].
  intros df. cbn [filter_all]. destruct Hin as [E|Hin].
  - injection E as -> ->. now rewrite filter_by_bad_length.
  - destruct (filter_by k x df) eqn:F; cbn [rbind].
    + now apply IH.
    + now rewrite (filter_by_raises _ _ _ _ F).
Qed.

End FilterBy.

Section SortFacts.

Lemma insert_sorted_map {A B} (g : A -> B) lt x l :
  insert_sorted lt (g x) (map g l)
  = map g (insert_sorted (fun a b => lt (g a) (g b)) x l).
Proof.
  induction l as [|y l IH]; [reflexivity|].
  simpl. destruct (lt (g x) (g y)); [reflexivity|].
  simpl. now rewrite IH.
Qed.

Lemma stable_sort_map {A B} (g : A -> B) lt l :
  stable_sort lt (map g l)
  = map g (stable_sort (fun a b => lt (g a) (g b)) l).
Proof.
  unfold stable_sort. induction l as [|x l IH]; [reflexivity|].
  simpl. rewrite IH. apply insert_sorted_map.
Qed.

Lemma insert_sorted_perm {A} (lt : A -> A -> bool) x l :
  Permutation (insert_sorted lt x l) (x :: l).
Proof.
  induction l as [|y l IH]; [reflexivity|].
  simpl. destruct (lt x y); [reflexivity|].
  rewrite IH. apply perm_swap.
Qed.

Lemma stable_sort_perm {A} (lt : A -> A -> bool) l :
  Permutation (stable_sort lt l) l.
Proof.
  unfold stable_sort. induction l as [|x l IH]; [reflexivity|].
  simpl. rewrite insert_sorted_perm. now constructor.
Qed.

Lemma wide_indexes names :
  (forall name, In name names -> In name valid_keys) ->
  exists idx,
    mapM (fun name => match col_index name wide_columns with
                      | Some i => Ok i
                      | None => Raise KeyError
                      end) names = Ok idx.
Proof.
  induction names as [|name names IH]; intros V.
  - now exists [].
  - destruct IH as [idx E]; [intros n Hn; apply V; now right|].
    assert (K := V name (or_introl eq_refl)).
    unfold valid_keys in K. simpl in K.
    destruct K as [<-|[<-|[<-|[<-|[<-|[<-|[]]]]]]];
      cbn [mapM]; rewrite E; eexists; reflexivity.
Qed.

End SortFacts.

(** [C7] On a ledger in the written layout whose timestamps parse, a
    [search_trips] call with valid keys and valid criteria returns the
    trips that meet every criterion and no other trip (in the sorted
    order): a scalar criterion is equality with the coerced value, a
    two-element range keeps [lo <= value] and [value <= hi] for the bounds
    that are present, and the two date keys compare parsed timestamps.
    A tuple whose length is not two makes the call raise [SakayDBError]. *)
Theorem C7_search_returns_exactly_the_matching_trips {lib : PyLib}
  (kwargs : list (string * value)) (ts : list TripRecord) (w : World) :
  trips (store w) = Some (trips_frame ts) ->
  timestamps_parse ts ->
  kwargs <> [] ->
  (forall kv, In kv kwargs -> In (fst kv) valid_keys) ->
  ((forall kv, In kv kwargs -> criterion_of (fst kv) (snd kv) <> None) ->
   exists found,
     search_trips kwargs w
     = (Ok (Frame (trips_frame found)),
        log (ReadCsv trips_csv) (log (PathExists trips_csv) w)) /\
     Permutation found (filter (meets_all kwargs) ts)) /\
  (forall key items,
     In (key, VTuple items) kwargs -> List.length items <> 2%nat ->
     search_trips kwargs w
     = (Raise (SakayDBError None),
        log (ReadCsv trips_csv) (log (PathExists trips_csv) w))).
Proof.
  intros Ht P Hne K.
  assert (Run : search_trips kwargs w =
                match search_frame kwargs (trips_frame ts) with
                | Ok df => (Ok (Frame df),
                            log (ReadCsv trips_csv)
                              (log (PathExists trips_csv) w))
                | Raise e => (Raise e,
                              log (ReadCsv trips_csv)
                                (log (PathExists trips_csv) w))
                end).
  { unfold search_trips.
    assert (C : (Nat.eqb (List.length (map fst kwargs)) 0
                 || existsb (fun key => negb (mem key valid_keys))
                      (map fst kwargs))%bool = false).
    { apply orb_false_iff. split.
      - destruct kwargs; [congruence|reflexivity].
      - apply not_true_is_false. intros E. apply existsb_exists in E.
        destruct E as [key [Hin Hneg]]. apply in_map_iff in Hin.
        destruct Hin as [kv [<- Hkv]]. apply negb_true_iff in Hneg.
        assert (M := proj2 (mem_In _ _) (K kv Hkv)). congruence. }
    rewrite C. unfold bind, path_exists, read_csv, lift, ret.
    cbn [lookup store log]. rewrite Ht. cbv beta iota.
    cbn [lookup store log]. rewrite Ht. cbv beta iota.
    destruct (search_frame kwargs (trips_frame ts)); reflexivity. }
  rewrite Run, (search_frame_typed kwargs ts P). split.
  - intros V.
    rewrite (filter_all_valid kwargs ts (fun kv H => conj (K kv H) (V kv H))).
    cbn [rbind]. unfold sort_values, wide_frame. cbn [columns data].
    destruct (wide_indexes (map fst kwargs)) as [idx ->].
    { intros name Hn. apply in_map_iff in Hn. destruct Hn as [kv [<- Hkv]].
      now apply K. }
    cbn [rbind]. rewrite stable_sort_map.
    set (found := stable_sort _ (filter (meets_all kwargs) ts)).
    exists found. split; [|apply stable_sort_perm].
    unfold trips_frame, rename_cols. cbn. rewrite !map_map. reflexivity.
  - intros key items Hin Hlen.
    now rewrite (filter_all_bad_length kwargs key items Hin Hlen).
Qed.

Lemma C7_search_returns_exactly_the_matching_trips_witness :
  exists found,
    search_trips (lib := ref_lib)
      [("fare_amount", VTuple [VFloat (50 # 1); VFloat (75 # 1)])]
      Example.after_third
    = (Ok (Frame (trips_frame found)),
       log (ReadCsv trips_csv)
         (log (PathExists trips_csv) Example.after_third)) /\
    Permutation found [Example.trip1; Example.trip2].
Proof.
  assert (F : filter (meets_all (lib := ref_lib)
                        [("fare_amount",
                          VTuple [VFloat (50 # 1); VFloat (75 # 1)])])
                [Example.trip1; Example.trip2; Example.trip3]
              = [Example.trip1; Example.trip2])
    by (vm_compute; reflexivity).
  rewrite <- F.
  apply (C7_search_returns_exactly_the_matching_trips (lib := ref_lib)
           [("fare_amount", VTuple [VFloat (50 # 1); VFloat (75 # 1)])]
           [Example.trip1; Example.trip2; Example.trip3]
           Example.after_third).
  - vm_compute. reflexivity.
  - intros t [<-|[<-|[<-|[]]]]; split; vm_compute; discriminate.
  - discriminate.
  - intros kv [<-|[]]. simpl. tauto.
  - intros kv [<-|[]]. vm_compute. discriminate.
Defined.

(** ** Read paths *)

Section ReadPaths.
Context {lib : PyLib}.

Lemma cell_fit n row i : (i < n)%nat -> cell i (fit n row) = cell i row.
Proof.
  intros H. unfold cell, fit. rewrite nth_firstn.
  destruct (Nat.ltb_spec i n); [|lia].
  destruct (Nat.lt_ge_cases i (List.length row)).
  - now apply app_nth1.
  - rewrite app_nth2 by assumption. rewrite nth_repeat.
    symmetry. now apply nth_overflow.
Qed.

Lemma length_fit n row : List.length (fit n row) = n.
Proof.
  unfold fit. rewrite length_firstn, length_app, repeat_length. lia.
Qed.

(** A left merge keeps the cells of the left rows. *)
Lemma merged_rows_left left right shared i j row :
  In row (merged_rows left right shared i j) ->
  exists l, In l (data left) /\
    forall k, (k < List.length (columns left))%nat -> cell k row = cell k l.
Proof.
  unfold merged_rows. intros H. apply in_flat_map in H.
  destruct H as [l [Hl Hrow]]. exists l. split; [exact Hl|].
  intros k Hk.
  assert (E : exists rest, row = fit (List.length (columns left)) l ++ rest).
  { destruct (filter _ (data right)) as [|r0 found].
    - destruct Hrow as [<-|[]]. eauto.
    - apply in_map_iff in Hrow. destruct Hrow as [r [<- _]]. eauto. }
  destruct E as [rest ->]. unfold cell at 1.
  rewrite app_nth1 by (now rewrite length_fit).
  now apply cell_fit.
Qed.

Lemma mapM_total {A B} (f : A -> result B) l :
  (forall x, In x l -> exists y, f x = Ok y) -> exists ys, mapM f l = Ok ys.
Proof.
  induction l as [|x l IH]; intros H; [now exists []|].
  destruct (H x (or_introl eq_refl)) as [y Hy].
  destruct IH as [ys Hys]; [intros z Hz; apply H; now right|].
  exists (y :: ys). cbn [mapM]. now rewrite Hy, Hys.
Qed.

Lemma in_date_range_malformed date_range df :
  malformed_range date_range ->
  in_date_range date_range df = Raise (SakayDBError None).
Proof.
  destruct date_range; simpl; intros H; try reflexivity; [contradiction|].
  destruct (Nat.eqb_spec (List.length items) 2); [contradiction|reflexivity].
Qed.

(** With both tables present, a malformed [date_range] is an error. *)
Lemma odmatrix_frame_malformed date_range ts ls :
  timestamps_parse ts -> malformed_range date_range ->
  odmatrix_frame date_range (trips_frame ts) (locations_frame ls)
  = Raise (SakayDBError None).
Proof.
  intros P M. unfold odmatrix_frame, merge_left at 1.
  unfold trips_frame, locations_frame.
  cbn [columns trips_frame locations_frame col_index trips_columns
       locations_columns String.eqb Ascii.eqb Bool.eqb].
  cbn [rbind].
  set (rows1 := merged_rows _ _ _ _ _).
  assert (R1 : forall row, In row rows1 ->
             exists t, In t ts /\ cell 2 row = VStr (t_pickup t)).
  { intros row Hrow. apply merged_rows_left in Hrow.
    destruct Hrow as [l [Hl Hk]]. cbn [data columns] in Hl, Hk.
    apply in_map_iff in Hl. destruct Hl as [t [<- Ht]].
    exists t. split; [exact Ht|]. apply (Hk 2%nat). simpl. lia. }
  clearbody rows1.
  set (cols1 := merged_columns _ _ _ _ _).
  vm_compute in cols1. subst cols1.
  unfold merge_left.
  cbn [columns col_index locations_columns String.eqb Ascii.eqb Bool.eqb].
  cbn [rbind].
  set (rows2 := merged_rows _ _ _ _ _).
  assert (R2 : forall row, In row rows2 ->
             exists t, In t ts /\ cell 2 row = VStr (t_pickup t)).
  { intros row Hrow. apply merged_rows_left in Hrow.
    destruct Hrow as [l [Hl Hk]]. cbn [data columns] in Hl, Hk.
    destruct (R1 l Hl) as [t [Ht E]]. exists t. split; [exact Ht|].
    rewrite <- E. apply (Hk 2%nat). simpl. lia. }
  clearbody rows2. clear R1 rows1.
  set (cols2 := merged_columns _ _ _ _ _).
  vm_compute in cols2. subst cols2.
  unfold rename_cols, project. cbn [columns data].
  cbn [map renamed String.eqb Ascii.eqb Bool.eqb mapM col_index rbind].
  cbn [columns data].
  unfold to_datetime_col, get_col.
  cbn [columns data col_index String.eqb Ascii.eqb Bool.eqb rbind].
  rewrite !map_map. cbn [cell nth].
  destruct (mapM_total py_to_datetime
              (map (fun row => cell 2 row) rows2)) as [pickup ->].
  { intros x Hx. apply in_map_iff in Hx. destruct Hx as [row [<- Hrow]].
    destruct (R2 row Hrow) as [t [Ht E]]. rewrite E.
    exists (parsed (t_pickup t)). apply py_to_datetime_parsed, (P t Ht). }
  cbn [rbind]. now rewrite in_date_range_malformed.
Qed.

End ReadPaths.

(** Runs the file tests of a read path under the equations at hand. *)
Ltac run_io :=
  repeat (cbn [lookup store log trace]; cbv beta iota;
          repeat match goal with
            | E : ?x = _ |- context [match ?x with _ => _ end] => rewrite E
            end).

(** [C8, as stated] With no table at all, [generate_statistics('all')]
    returns a mapping of three entries, not an empty mapping. *)
Lemma C8_counterexample :
  fst (generate_statistics (lib := ref_lib) "all" (fresh empty_store))
  = Ok (VDict [(VStr "trip", VDict []); (VStr "passenger", VDict []);
               (VStr "driver", VDict [])]) /\
  fst (generate_statistics (lib := ref_lib) "all" (fresh empty_store))
  <> Ok (VDict []).
Proof. split; [reflexivity|discriminate]. Qed.

(** [C8, amended] An absent backing table is never an error on the read
    paths: [search_trips] with valid keys returns the empty list,
    [export_data] the empty frame with its nine columns,
    [generate_statistics] an empty mapping for the kinds trip, passenger and
    driver and, for the kind all, the mapping of trip, passenger and driver
    to three empty mappings, and [generate_odmatrix] an empty frame, whatever
    its [date_range].  Malformed parameters raise [SakayDBError]: an
    unknown statistics kind always, and, when the tables are present, a
    [date_range] that is neither [None] nor a tuple of two elements. *)
Theorem C8_absent_tables_give_empty_results {lib : PyLib} (w : World) :
  (forall kwargs,
     kwargs <> [] ->
     (forall kv, In kv kwargs -> In (fst kv) valid_keys) ->
     trips (store w) = None ->
     search_trips kwargs w = (Ok EmptyList, log (PathExists trips_csv) w)) /\
  (trips (store w) = None \/ drivers (store w) = None \/
   locations (store w) = None ->
   exists w',
     export_data w = (Ok (new_frame export_columns), w') /\
     store w' = store w) /\
  (trips (store w) = None ->
   generate_statistics "trip" w
     = (Ok (VDict []), log (PathExists trips_csv) w) /\
   generate_statistics "passenger" w
     = (Ok (VDict []), log (PathExists trips_csv) w) /\
   exists w',
     generate_statistics "all" w
     = (Ok (VDict [(VStr "trip", VDict []); (VStr "passenger", VDict []);
                   (VStr "driver", VDict [])]), w') /\
     store w' = store w) /\
  (trips (store w) = None \/ drivers (store w) = None ->
   exists w',
     generate_statistics "driver" w = (Ok (VDict []), w') /\
     store w' = store w) /\
  (trips (store w) = None \/ locations (store w) = None ->
   forall date_range, exists w',
     generate_odmatrix date_range w = (Ok empty_matrix, w') /\
     store w' = store w) /\
  (forall stat,
     ~ In stat statistics_kinds ->
     generate_statistics stat w = (Raise (SakayDBError None), w)) /\
  (forall ts ls date_range,
     trips (store w) = Some (trips_frame ts) ->
     locations (store w) = Some (locations_frame ls) ->
     timestamps_parse ts ->
     malformed_range date_range ->
     exists w',
       generate_odmatrix date_range w = (Raise (SakayDBError None), w') /\
       store w' = store w).
Proof.
  split; [|split; [|split; [|split; [|split; [|split]]]]].
  - intros kwargs Hne K Ht. unfold search_trips.
    assert (C : (Nat.eqb (List.length (map fst kwargs)) 0
                 || existsb (fun key => negb (mem key valid_keys))
                      (map fst kwargs))%bool = false).
    { apply orb_false_iff. split.
      - destruct kwargs; [congruence|reflexivity].
      - apply not_true_is_false. intros E. apply existsb_exists in E.
        destruct E as [key [Hin Hneg]]. apply in_map_iff in Hin.
        destruct Hin as [kv [<- Hkv]]. apply negb_true_iff in Hneg.
        assert (M := proj2 (mem_In _ _) (K kv Hkv)). congruence. }
    rewrite C. unfold bind, path_exists, ret. run_io. reflexivity.
  - intros H. unfold export_data, and_then, bind, path_exists, read_csv,
      lift, ret.
    destruct (trips (store w)) eqn:Et, (drivers (store w)) eqn:Ed,
      (locations (store w)) eqn:El;
      try (destruct H as [H|[H|H]]; discriminate H);
      run_io; eexists; (split; [reflexivity|reflexivity]).
  - intros Ht. unfold generate_statistics. cbn [String.eqb Ascii.eqb Bool.eqb].
    unfold stat_trip, stat_passenger, stat_driver, and_then, with_table, bind,
      path_exists, read_csv, lift, ret.
    run_io. split; [reflexivity|]. split; [reflexivity|].
    eexists. split; reflexivity.
  - intros H. unfold generate_statistics. cbn [String.eqb Ascii.eqb Bool.eqb].
    unfold stat_driver, and_then, bind, path_exists, read_csv, lift, ret.
    destruct (trips (store w)) eqn:Et, (drivers (store w)) eqn:Ed;
      try (destruct H as [H|H]; discriminate H);
      run_io; eexists; (split; [reflexivity|reflexivity]).
  - intros H date_range.
    unfold generate_odmatrix, and_then, bind, path_exists, read_csv, lift,
      ret.
    destruct (trips (store w)) eqn:Et, (locations (store w)) eqn:El;
      try (destruct H as [H|H]; discriminate H);
      run_io; eexists; (split; [reflexivity|reflexivity]).
  - intros stat H. unfold generate_statistics, statistics_kinds in *.
    destruct (String.eqb_spec stat "trip") as [->|_]; [elim H; simpl; tauto|].
    destruct (String.eqb_spec stat "passenger") as [->|_];
      [elim H; simpl; tauto|].
    destruct (String.eqb_spec stat "driver") as [->|_];
      [elim H; simpl; tauto|].
    destruct (String.eqb_spec stat "all") as [->|_]; [elim H; simpl; tauto|].
    reflexivity.
  - intros ts ls date_range Ht El P M.
    unfold generate_odmatrix, and_then, bind, path_exists, read_csv, lift,
      ret.
    run_io. rewrite (odmatrix_frame_malformed date_range ts ls P M).
    eexists. split; reflexivity.
Qed.

Lemma C8_absent_tables_give_empty_results_witness :
  search_trips (lib := ref_lib) [("driver_id", VInt 1)] (fresh empty_store)
    = (Ok EmptyList, log (PathExists trips_csv) (fresh empty_store)) /\
  (exists w',
     export_data (lib := ref_lib) (fresh empty_store)
       = (Ok (new_frame export_columns), w') /\
     store w' = empty_store) /\
  generate_statistics (lib := ref_lib) "trip" (fresh empty_store)
    = (Ok (VDict []), log (PathExists trips_csv) (fresh empty_store)) /\
  (exists w',
     generate_statistics (lib := ref_lib) "driver" (fresh empty_store)
       = (Ok (VDict []), w') /\
     store w' = empty_store) /\
  (exists w',
     generate_odmatrix (lib := ref_lib) (VTuple [VNone]) (fresh empty_store)
       = (Ok empty_matrix, w') /\
     store w' = empty_store) /\
  generate_statistics (lib := ref_lib) "weekly" (fresh empty_store)
    = (Raise (SakayDBError None), fresh empty_store) /\
  (exists w',
     generate_odmatrix (lib := ref_lib) (VTuple [VNone]) Example.after_third
       = (Raise (SakayDBError None), w') /\
     store w' = store Example.after_third).
Proof.
  destruct (C8_absent_tables_give_empty_results (lib := ref_lib)
              (fresh empty_store)) as [S [E [T [D [O [U _]]]]]].
  destruct (C8_absent_tables_give_empty_results (lib := ref_lib)
              Example.after_third) as [_ [_ [_ [_ [_ [_ M]]]]]].
  split.
  { apply S; [discriminate| |reflexivity].
    intros kv [<-|[]]. simpl. tauto. }
  split; [apply E; left; reflexivity|].
  split; [apply (proj1 (T eq_refl))|].
  split; [apply D; left; reflexivity|].
  split; [apply O; left; reflexivity|].
  split.
  { apply U. unfold statistics_kinds. simpl.
    intros [H|[H|[H|[H|[]]]]]; discriminate H. }
  apply (M [Example.trip1; Example.trip2; Example.trip3]
           [{| l_id := 1; l_name := "Pasig" |}]).
  - vm_compute. reflexivity.
  - vm_compute. reflexivity.
  - intros t [<-|[<-|[<-|[]]]]; split; vm_compute; discriminate.
  - simpl. discriminate.
Defined.

(** [C5] The claim fails for a pickup location.  The first trip of an
    empty data directory is picked up at "Makati", the second at "MAKATI":
    the first gets pickup_loc_id 1 and the second 2, because the row the
    first call appended for "Makati" was never written.  The driver part
    holds on these calls: "Cruz, Juan" and "  cruz, JUAN " get driver_id 1
    and the second call leaves the drivers table as it was. *)
Theorem C5_pickup_in_another_case_gets_another_id :
  Example.first_trip (fresh empty_store)
    = (Ok (VInt 1), Example.after_first) /\
  Example.second_trip Example.after_first
    = (Ok (VInt 2), Example.after_second) /\
  trips (store Example.after_second)
    = Some (trips_frame [Example.trip1; Example.trip2]) /\
  t_pickup_loc Example.trip1 = 1 /\
  t_pickup_loc Example.trip2 = 2 /\
  locations (store Example.after_second)
    = Some (locations_frame [{| l_id := 1; l_name := "Pasig" |}]) /\
  t_driver Example.trip1 = t_driver Example.trip2 /\
  drivers (store Example.after_second) = drivers (store Example.after_first).
Proof. vm_compute. repeat split. Qed.

(** ** Names in another case *)

Section CaseFacts.
Import Str.









End CaseFacts.

(** ** Drivers and locations in typed tables *)

Section Resolution.
Context {lib : PyLib}.










End Resolution.

(** ** The stores the class writes stay typed *)

Section Invariant.
Context {lib : PyLib}.


Lemma ascending_last ts x :
  ascending (ts ++ [x]) -> forall t, In t ts -> t_id t < t_id x.
Proof.
  unfold ascending. induction ts as [|a ts IH]; intros S t Ht;
    [contradiction|].
  cbn [app] in S. apply StronglySorted_inv in S. destruct S as [S F].
  destruct Ht as [<-|Ht]; [|now apply IH].
  rewrite Forall_forall in F. apply F. apply in_or_app. right. now left.
Qed.







(** In a typed store the last row of the ledger has the largest trip_id. *)
Lemma ascending_last_is_largest ts t :
  ascending (ts ++ [t]) -> forall t', In t' ts -> t_id t' <= t_id t.
Proof.
  intros A t' Ht'. pose proof (ascending_last ts t A t' Ht'). lia.
Qed.

End Invariant.

(** ** Readings of the criteria *)

Section Readings.
Context {lib : PyLib}.

(** A range on a real field is the two inequalities. *)
Lemma meets_fare_between lo hi t :
  meets "fare_amount" (Between (VFloat lo) (VFloat hi)) t = true <->
  (lo <= t_fare t)%Q /\ (t_fare t <= hi)%Q.
Proof.
  unfold meets, inclusive_le. cbn. rewrite andb_true_iff, !Qle_bool_iff.
  tauto.
Qed.

(** An absent bound leaves one inequality. *)
Lemma meets_fare_from lo t :
  meets "fare_amount" (Between (VFloat lo) VNone) t = true <->
  (lo <= t_fare t)%Q.
Proof.
  unfold meets, inclusive_le. cbn. rewrite andb_true_r. apply Qle_bool_iff.
Qed.

Lemma meets_fare_until hi t :
  meets "fare_amount" (Between VNone (VFloat hi)) t = true <->
  (t_fare t <= hi)%Q.
Proof. unfold meets, inclusive_le. cbn. apply Qle_bool_iff. Qed.

(** A scalar on a real field is equality of the two reals. *)
Lemma meets_fare_exactly x t :
  meets "fare_amount" (Exactly (VFloat x)) t = true <-> (t_fare t == x)%Q.
Proof. unfold meets. cbn. apply Qeq_bool_iff. Qed.

(** An integer field is compared with the coerced real. *)
Lemma meets_driver_exactly x t :
  meets "driver_id" (Exactly (VFloat x)) t = true <->
  (inject_Z (t_driver t) == x)%Q.
Proof. unfold meets. cbn. apply Qeq_bool_iff. Qed.

(** A range on a date field compares the parsed timestamps. *)
Lemma meets_pickup_between a b t p :
  to_datetime (VStr (t_pickup t)) = Some (Some p) ->
  (meets "pickup_datetime" (Between (VTime a) (VTime b)) t = true <->
   a <= p <= b).
Proof.
  intros E. unfold meets, inclusive_le, field, parsed. cbn. rewrite E. cbn.
  rewrite andb_true_iff, !Z.leb_le. tauto.
Qed.

(** The criteria of the fare example. *)
Lemma criterion_of_real_range key lo hi :
  mem key float_keys = true ->
  criterion_of key (VTuple [VFloat lo; VFloat hi])
  = Some (Between (VFloat lo) (VFloat hi)).
Proof.
  intros F. unfold criterion_of, bound_for, coerce_for. cbn [is_none].
  now rewrite F.
Qed.

End Readings.

(** ** A ledger file without rows *)

Section EmptyLedger.
Context {lib : PyLib}.

Lemma trip_in_table_needs_a_row df driver_id v pickup_id dropoff_id r :
  data df = [] ->
  trip_in_table df driver_id v pickup_id dropoff_id <> Ok r.
Proof.
  intros E H. unfold trip_in_table in H.
  destruct (same_trip_mask df driver_id v pickup_id dropoff_id) eqn:M;
    [|discriminate H].
  clear H. unfold same_trip_mask, get_col in M. rewrite E in M.
  cbn [map] in M.
  repeat match type of M with
    | context [match col_index ?n ?c with _ => _ end] =>
        destruct (col_index n c); cbn [rbind] in M; try discriminate M
    end.
Qed.

(** No [add_trip] succeeds on a [trips.csv] that has no row. *)
Lemma add_trip_on_empty_ledger_raises driver pickup dropoff passengers
  pickup_loc dropoff_loc distance fare w df :
  trips (store w) = Some df -> data df = [] ->
  exists e w',
    add_trip driver pickup dropoff passengers pickup_loc dropoff_loc distance
      fare w = (Raise e, w') /\
    store w' = store w.
Proof.
  intros Ht Ed. unfold add_trip, bind, lift.
  destruct (validate _ _ _ _ _ _ _ _) as [v|e]; [|now exists e, w].
  rewrite add_validated_run.
  destruct (resolved_driver _ _) as [[dfd did]|e];
    [|eexists; eexists; split; [reflexivity|apply store_looked_at]].
  destruct (resolved_location _ (pickup_loc_name v)) as [[dfp pid]|e];
    [|eexists; eexists; split; [reflexivity|now rewrite !store_looked_at]].
  destruct (resolved_location _ (dropoff_loc_name v)) as [[dfl oid]|e];
    [|eexists; eexists; split; [reflexivity|now rewrite !store_looked_at]].
  destruct (resolved_trip _ _ _ _ _) as [r|e] eqn:R;
    [|eexists; eexists; split; [reflexivity|apply store_tables_read]].
  unfold resolved_trip in R. rewrite Ht in R. cbn [on_table] in R.
  now elim (trip_in_table_needs_a_row _ _ _ _ _ _ Ed R).
Qed.

End EmptyLedger.

(** ** Drop-off names in another case *)

Section DropOff.
Context {lib : PyLib}.




End DropOff.

(** * More properties of the methods *)

(** ** Failed and successful writes of [add_trip] *)

Section Writes.
Context {lib : PyLib}.

Lemma looked_at_no_write g w f :
  In (ToCsv f) (trace (looked_at g w)) -> In (ToCsv f) (trace w).
Proof.
  unfold looked_at, log. destruct (lookup g (store w)); cbn [trace In];
    intros H;
    repeat match goal with
      | H : _ \/ _ |- _ => destruct H as [H|H]; [discriminate H|]
      end; exact H.
Qed.

(** [X1] Whenever [add_trip] raises - on invalid arguments, on a duplicate
    trip, or on a table it cannot use - the three tables are as they were
    and the call wrote no file: all three [to_csv] calls come after the last
    statement that can raise. *)
Theorem add_trip_raise_writes_nothing
  (driver pickup dropoff passengers pickup_loc dropoff_loc distance
   fare : value) (w : World) (e : exn) (w' : World) :
  add_trip driver pickup dropoff passengers pickup_loc dropoff_loc distance
    fare w = (Raise e, w') ->
  store w' = store w /\
  forall f, In (ToCsv f) (trace w') -> In (ToCsv f) (trace w).
Proof.
  unfold add_trip, bind, lift.
  destruct (validate _ _ _ _ _ _ _ _) as [v|e0].
  - rewrite add_validated_run.
    destruct (resolved_driver _ _) as [[dfd did]|e1].
    + destruct (resolved_location _ (pickup_loc_name v)) as [[dfp pid]|e2].
      * destruct (resolved_location _ (dropoff_loc_name v))
          as [[dfl oid]|e3].
        -- destruct (resolved_trip _ _ _ _ _) as [[dft tid]|e4];
             [discriminate|].
           intros H. injection H as _ <-.
           split; [apply store_tables_read|].
           intros f. unfold tables_read. intros H.
           now repeat apply looked_at_no_write in H.
        -- intros H. injection H as _ <-.
           split; [now rewrite !store_looked_at|].
           intros f H. now repeat apply looked_at_no_write in H.
      * intros H. injection H as _ <-.
        split; [now rewrite !store_looked_at|].
        intros f H. now repeat apply looked_at_no_write in H.
    + intros H. injection H as _ <-.
      split; [now rewrite !store_looked_at|].
      intros f H. now repeat apply looked_at_no_write in H.
  - intros H. injection H as _ <-. now split.
Qed.

End Writes.

Lemma add_trip_raise_writes_nothing_witness :
  store (tables_read Example.after_third) = store Example.after_third /\
  forall f, In (ToCsv f) (trace (tables_read Example.after_third)) ->
            In (ToCsv f) (trace Example.after_third).
Proof.
  apply (add_trip_raise_writes_nothing (lib := ref_lib)
           (VStr "cruz, juan") (VStr " 10:00:00,03-03-2022")
           (VStr "11:00:00,03-03-2022 ") (VInt 1) (VStr "pasig")
           (VStr "PASIG") (VFloat (1 # 1))
           (VFloat (100000000001 # 1000000000)) Example.after_third
           duplicate).
  vm_compute. reflexivity.
Defined.

(** ** What a successful [add_trip] leaves of the tables *)

Section Appends.
Context {lib : PyLib}.





End Appends.


(** ** Blanks around the text arguments *)

Section Blanks.
Context {lib : PyLib}.

(** [X3] [add_trip] ignores blanks around the driver, the two timestamps and
    the two location names: the call with the stripped texts does the same
    to every world and returns the same. *)
Theorem add_trip_ignores_surrounding_blanks
  (d p q a b : string) (passengers distance fare : value) (w : World) :
  add_trip (VStr d) (VStr p) (VStr q) passengers (VStr a) (VStr b) distance
    fare w
  = add_trip (VStr (Str.strip d)) (VStr (Str.strip p)) (VStr (Str.strip q))
      passengers (VStr (Str.strip a)) (VStr (Str.strip b)) distance fare w.
Proof.
  unfold add_trip. f_equal. f_equal. unfold validate.
  cbn [py_strip rbind]. now rewrite !strip_idempotent.
Qed.

End Blanks.

(** ** Deleting and adding again *)

Section DeleteAgain.

(** [delete_trip] on a ledger that has the trip_id column. *)
Lemma delete_trip_run trip_id w df i :
  trips (store w) = Some df ->
  col_index "trip_id" (columns df) = Some i ->
  delete_trip trip_id w =
  if existsb (fun row => val_eq (cell i row) trip_id) (data df)
  then (Ok trip_id,
        {| store :=
             {| drivers := drivers (store w);
                locations := locations (store w);
                trips :=
                  Some {| columns := columns df;
                          data := filter (fun row =>
                                     negb (val_eq (cell i row) trip_id))
                                   (data df) |} |};
           trace := ToCsv trips_csv :: ReadCsv trips_csv ::
                    PathExists trips_csv :: trace w |})
  else (Raise (SakayDBError None),
        log (ReadCsv trips_csv) (log (PathExists trips_csv) w)).
Proof.
  intros Hdf Hi.
  unfold delete_trip, bind, path_exists, read_csv, lift, get_col, raise,
    to_csv, ret, log. cbn [lookup store trace]. rewrite Hdf. cbv beta iota.
  cbn [lookup store trace]. rewrite Hdf. cbv beta iota.
  rewrite Hi. cbv beta iota.
  rewrite col_eq_cells, select_map.
  destruct (existsb _ (data df)) eqn:E.
  - destruct (filter_cons_existsb _ _ E) as [x [r ->]].
    cbn [store trace update]. rewrite col_ne_cells, select_map. reflexivity.
  - rewrite (filter_nil_existsb _ _ E). reflexivity.
Qed.

Lemma delete_trip_returned trip_id w r w1 :
  delete_trip trip_id w = (Ok r, w1) ->
  exists df i,
    trips (store w) = Some df /\
    col_index "trip_id" (columns df) = Some i.
Proof.
  intros H. destruct (trips (store w)) as [df|] eqn:Hdf.
  - destruct (col_index "trip_id" (columns df)) as [i|] eqn:Hi; [eauto|].
    exfalso. revert H.
    unfold delete_trip, bind, path_exists, read_csv, lift, get_col, log.
    cbn [lookup store trace]. rewrite Hdf. cbv beta iota.
    cbn [lookup store trace]. rewrite Hdf. cbv beta iota.
    rewrite Hi. discriminate.
  - exfalso. revert H.
    unfold delete_trip, bind, path_exists, raise, log.
    cbn [lookup store]. rewrite Hdf. discriminate.
Qed.

(** [X4] A trip is deleted once: after [delete_trip] has returned for a
    trip_id, the same call raises [SakayDBError] and writes nothing,
    whatever the ledger holds. *)
Theorem delete_trip_again_raises (trip_id r : value) (w w1 : World) :
  delete_trip trip_id w = (Ok r, w1) ->
  delete_trip trip_id w1
  = (Raise (SakayDBError None),
     log (ReadCsv trips_csv) (log (PathExists trips_csv) w1)).
Proof.
  intros H. destruct (delete_trip_returned _ _ _ _ H) as [df [i [Hdf Hi]]].
  rewrite (delete_trip_run trip_id w df i Hdf Hi) in H.
  destruct (existsb _ (data df)); [|discriminate].
  injection H as _ <-.
  match goal with |- delete_trip _ ?w2 = _ =>
    rewrite (delete_trip_run trip_id w2
               {| columns := columns df;
                  data := filter (fun row =>
                             negb (val_eq (cell i row) trip_id)) (data df) |}
               i eq_refl Hi) end.
  cbn [data].
  replace (existsb _ (filter _ (data df))) with false; [reflexivity|].
  symmetry. apply not_true_is_false. intros E.
  apply existsb_exists in E. destruct E as [row [Hin Heq]].
  apply filter_In in Hin. destruct Hin as [_ Hne]. now rewrite Heq in Hne.
Qed.

End DeleteAgain.

Lemma delete_trip_again_raises_witness :
  delete_trip (VInt 1) (Example.run (delete_trip (VInt 1)) Example.after_second)
  = (Raise (SakayDBError None),
     log (ReadCsv trips_csv)
       (log (PathExists trips_csv)
          (Example.run (delete_trip (VInt 1)) Example.after_second))).
Proof.
  apply (delete_trip_again_raises (VInt 1) (VInt 1) Example.after_second).
  vm_compute. reflexivity.
Defined.

(** ** A trip added and deleted again *)

Section RoundTrip.
Context {lib : PyLib}.


Lemma filter_keeps_all {A} (p : A -> bool) l :
  (forall x, In x l -> p x = true) -> filter p l = l.
Proof.
  induction l as [|a l IH]; intros H; [reflexivity|].
  cbn [filter]. rewrite (H a (or_introl eq_refl)). f_equal.
  apply IH. intros x Hx. apply H. now right.
Qed.


(** [X6] Deleting the only trip leaves a [trips.csv] without rows, and no
    trip can be added to it: when the first trip of a data directory (no
    [trips.csv] yet) has been added and deleted again, every later
    [add_trip] raises and writes nothing, whatever its arguments. *)
Theorem deleting_the_first_trip_blocks_add_trip
  (driver pickup dropoff passengers pickup_loc dropoff_loc distance fare
   id : value) (w w1 : World) :
  trips (store w) = None ->
  add_trip driver pickup dropoff passengers pickup_loc dropoff_loc distance
    fare w = (Ok id, w1) ->
  exists w2,
    delete_trip id w1 = (Ok id, w2) /\
    trips (store w2) = Some (new_frame trips_columns) /\
    forall driver' pickup' dropoff' passengers' pickup_loc' dropoff_loc'
           distance' fare',
    exists e w3,
      add_trip driver' pickup' dropoff' passengers' pickup_loc' dropoff_loc'
        distance' fare' w2 = (Raise e, w3) /\
      store w3 = store w2.
Proof.
  intros Hn H. unfold add_trip, bind, lift in H.
  destruct (validate _ _ _ _ _ _ _ _) as [v|] eqn:V; [|discriminate].
  rewrite add_validated_run in H.
  destruct (resolved_driver _ _) as [[dfd did]|]; [|discriminate].
  destruct (resolved_location _ (pickup_loc_name v)) as [[dfp pid]|];
    [|discriminate].
  destruct (resolved_location _ (dropoff_loc_name v)) as [[dfl oid]|];
    [|discriminate].
  destruct (resolved_trip _ _ _ _ _) as [[dft tid]|] eqn:Rt; [|discriminate].
  injection H as <- <-.
  unfold resolved_trip in Rt. rewrite Hn in Rt. cbn [on_table] in Rt.
  unfold trip_in_new_table, append_row, trip_row, new_frame in Rt.
  cbn [List.length columns data Nat.eqb rbind app] in Rt.
  injection Rt as <- <-.
  eexists. split; [|split].
  - match goal with |- delete_trip _ ?w1 = _ =>
      rewrite (delete_trip_run (VInt 1) w1 _ 0%nat eq_refl eq_refl) end.
    cbn [data existsb cell nth]. rewrite val_eq_int. cbn [Z.eqb orb].
    reflexivity.
  - cbn [store trips data filter cell nth columns]. rewrite val_eq_int.
    reflexivity.
  - intros. eapply add_trip_on_empty_ledger_raises; reflexivity.
Qed.

End RoundTrip.


Lemma deleting_the_first_trip_blocks_add_trip_witness :
  exists w2,
    delete_trip (VInt 1) Example.after_first = (Ok (VInt 1), w2) /\
    trips (store w2) = Some (new_frame trips_columns) /\
    forall driver' pickup' dropoff' passengers' pickup_loc' dropoff_loc'
           distance' fare',
    exists e w3,
      add_trip (lib := ref_lib) driver' pickup' dropoff' passengers'
        pickup_loc' dropoff_loc' distance' fare' w2 = (Raise e, w3) /\
      store w3 = store w2.
Proof.
  apply (deleting_the_first_trip_blocks_add_trip (lib := ref_lib)
           (VStr "Cruz, Juan") (VStr "10:00:00,01-03-2022")
           (VStr "11:00:00,01-03-2022") (VInt 2) (VStr "Makati")
           (VStr "Pasig") (VFloat (1 # 1)) (VFloat (50 # 1)) (VInt 1)
           (fresh empty_store) Example.after_first).
  - reflexivity.
  - vm_compute. reflexivity.
Defined.

(** ** The read paths write nothing *)

Section ReadOnly.
Context {lib : PyLib}.

Lemma read_only_ret {A} (a : A) : read_only (ret a).
Proof. intros w. now split. Qed.

Lemma read_only_raise {A} e : read_only (@raise A e).
Proof. intros w. now split. Qed.

Lemma read_only_lift {A} (r : result A) : read_only (lift r).
Proof. intros w. now split. Qed.

Lemma read_only_path_exists f : read_only (path_exists f).
Proof.
  intros w. split; [reflexivity|].
  intros g [H|H]; [discriminate H|exact H].
Qed.

Lemma read_only_read_csv f : read_only (read_csv f).
Proof.
  intros w. split; [reflexivity|].
  intros g [H|H]; [discriminate H|exact H].
Qed.

Lemma read_only_bind {A B} (c : IO A) (k : A -> IO B) :
  read_only c -> (forall a, read_only (k a)) -> read_only (bind c k).
Proof.
  intros Hc Hk w. unfold bind. destruct (Hc w) as [S T].
  destruct (c w) as [[a|e] w1]; cbn [snd] in *.
  - destruct (Hk a w1) as [S1 T1]. split; [congruence|auto].
  - now split.
Qed.

Lemma read_only_and_then a b :
  read_only a -> read_only b -> read_only (and_then a b).
Proof.
  intros Ha Hb. apply read_only_bind; [exact Ha|].
  intros [|]; [exact Hb|apply read_only_ret].
Qed.

Lemma read_only_with_table {A} f (present : DataFrame -> result A) absent :
  read_only (with_table f present absent).
Proof.
  apply read_only_bind; [apply read_only_path_exists|].
  intros [|]; [|apply read_only_lift].
  apply read_only_bind; [apply read_only_read_csv|].
  intros df. apply read_only_lift.
Qed.

Lemma read_only_stat_driver : read_only stat_driver.
Proof.
  apply read_only_bind.
  - apply read_only_and_then; apply read_only_path_exists.
  - intros [|]; [|apply read_only_ret].
    apply read_only_bind; [apply read_only_read_csv|]. intros df_trips.
    apply read_only_bind; [apply read_only_read_csv|]. intros df_drivers.
    apply read_only_lift.
Qed.

(** [X7] [search_trips], [export_data], [generate_statistics] and
    [generate_odmatrix] never write: whatever their arguments and whatever
    the tables hold, and whether they return or raise, the three tables are
    afterwards what they were and no [to_csv] was performed. *)
Theorem read_paths_write_nothing :
  (forall kwargs, read_only (search_trips kwargs)) /\
  read_only export_data /\
  (forall stat, read_only (generate_statistics stat)) /\
  (forall date_range, read_only (generate_odmatrix date_range)).
Proof.
  split; [|split; [|split]].
  - intros kwargs. unfold search_trips.
    destruct (_ || _)%bool; [apply read_only_raise|].
    apply read_only_bind; [apply read_only_path_exists|].
    intros [|]; [|apply read_only_ret].
    apply read_only_bind; [apply read_only_read_csv|]. intros df.
    apply read_only_bind; [apply read_only_lift|]. intros df'.
    apply read_only_ret.
  - unfold export_data. apply read_only_bind.
    + repeat apply read_only_and_then; apply read_only_path_exists.
    + intros [|]; [|apply read_only_ret].
      apply read_only_bind; [apply read_only_read_csv|]. intros df_trips.
      apply read_only_bind; [apply read_only_read_csv|]. intros df_drivers.
      apply read_only_bind; [apply read_only_read_csv|]. intros df_locs.
      apply read_only_lift.
  - intros stat. unfold generate_statistics.
    destruct (String.eqb stat "trip"); [apply read_only_with_table|].
    destruct (String.eqb stat "passenger"); [apply read_only_with_table|].
    destruct (String.eqb stat "driver"); [apply read_only_stat_driver|].
    destruct (String.eqb stat "all"); [|apply read_only_raise].
    apply read_only_bind; [apply read_only_with_table|]. intros t.
    apply read_only_bind; [apply read_only_with_table|]. intros p.
    apply read_only_bind; [apply read_only_stat_driver|]. intros d.
    apply read_only_ret.
  - intros date_range. unfold generate_odmatrix. apply read_only_bind.
    + apply read_only_and_then; apply read_only_path_exists.
    + intros [|]; [|apply read_only_ret].
      apply read_only_bind; [apply read_only_read_csv|]. intros df_trips.
      apply read_only_bind; [apply read_only_read_csv|]. intros df_locs.
      apply read_only_lift.
Qed.

End ReadOnly.

(** ** The frame [export_data] returns *)

Section ExportShape.
Context {lib : PyLib}.

Lemma mapM_length {A B} (f : A -> result B) l ys :
  mapM f l = Ok ys -> List.length ys = List.length l.
Proof.
  revert ys. induction l as [|x l IH]; intros ys H.
  - injection H as <-. reflexivity.
  - cbn [mapM] in H. destruct (f x); [|discriminate H]. cbn [rbind] in H.
    destruct (mapM f l) as [zs|]; [|discriminate H]. cbn [rbind] in H.
    injection H as <-. cbn [List.length]. f_equal. now apply IH.
Qed.

Lemma mapM_In {A B} (f : A -> result B) l ys y :
  mapM f l = Ok ys -> In y ys -> exists x, In x l /\ f x = Ok y.
Proof.
  revert ys. induction l as [|x l IH]; intros ys H Hy.
  - injection H as <-. contradiction.
  - cbn [mapM] in H. destruct (f x) as [z|] eqn:Ez; [|discriminate H].
    cbn [rbind] in H.
    destruct (mapM f l) as [zs|]; [|discriminate H]. cbn [rbind] in H.
    injection H as <-. destruct Hy as [<-|Hy].
    + exists x. split; [now left|exact Ez].
    + destruct (IH zs eq_refl Hy) as [x' [Hx' E']]. exists x'.
      split; [now right|exact E'].
Qed.

Lemma project_shape names df df' :
  project names df = Ok df' ->
  columns df' = names /\
  forall row, In row (data df') -> List.length row = List.length names.
Proof.
  unfold project. intros H. returned H. injection H as <-.
  cbn [columns data]. split; [reflexivity|].
  intros row Hrow. apply in_map_iff in Hrow. destruct Hrow as [r [<- _]].
  rewrite length_map. eapply mapM_length. eassumption.
Qed.

Lemma astype_shape casts df df' :
  astype casts df = Ok df' ->
  columns df' = columns df /\
  forall row, In row (data df') ->
    List.length row = List.length (columns df).
Proof.
  unfold astype. intros H.
  destruct (forallb _ casts); [|discriminate H].
  destruct (mapM _ (data df)) as [rows|] eqn:E; [|discriminate H].
  cbn [rbind] in H. injection H as <-. cbn [columns data].
  split; [reflexivity|]. intros row Hrow.
  destruct (mapM_In _ _ _ _ E Hrow) as [r [_ Hr]].
  apply mapM_length in Hr. rewrite Hr, length_combine, length_fit.
  apply Nat.min_id.
Qed.

(** [X8] Whenever [export_data] returns, whatever the three tables hold,
    the frame has the nine columns driver_lastname, driver_givenname,
    pickup_datetime, dropoff_datetime, passenger_count, pickup_loc_name,
    dropoff_loc_name, trip_distance and fare_amount, in this order, and
    every row has nine cells. *)
Theorem export_data_has_the_nine_columns (w w' : World) (df : DataFrame) :
  export_data w = (Ok df, w') ->
  columns df = export_columns /\
  forall row, In row (data df) -> List.length row = 9%nat.
Proof.
  unfold export_data, bind. intros H.
  destruct (and_then _ _ w) as [[[|]|] w0]; [| |discriminate H].
  - destruct (read_csv trips_csv w0) as [[df_trips|] w1]; [|discriminate H].
    destruct (read_csv drivers_csv w1) as [[df_drivers|] w2];
      [|discriminate H].
    destruct (read_csv locations_csv w2) as [[df_locs|] w3];
      [|discriminate H].
    unfold lift in H. injection H as H _. unfold export_frame in H.
    repeat match type of H with
      | rbind ?r _ = Ok _ =>
          let E := fresh "E" in
          destruct r eqn:E; cbn [rbind] in H; [|discriminate H]
      end.
    apply astype_shape in H. destruct H as [Hc Hr].
    match goal with E : project _ _ = Ok _ |- _ =>
      apply project_shape in E; destruct E as [Ec _] end.
    rewrite Ec in Hc, Hr. split; [exact Hc|exact Hr].
  - unfold ret in H. injection H as <- _. split; [reflexivity|].
    intros row [].
Qed.

End ExportShape.

Lemma export_data_has_the_nine_columns_witness :
  columns (match fst (export_data (lib := ref_lib) Example.after_third) with
           | Ok df => df
           | Raise _ => new_frame []
           end) = export_columns /\
  forall row,
    In row (data (match fst (export_data (lib := ref_lib)
                               Example.after_third) with
                  | Ok df => df
                  | Raise _ => new_frame []
                  end)) ->
    List.length row = 9%nat.
Proof.
  apply (export_data_has_the_nine_columns (lib := ref_lib)
           Example.after_third
           (snd (export_data (lib := ref_lib) Example.after_third))).
  vm_compute. reflexivity.
Defined.

(** ** Criteria that do not coerce *)

Section InvalidCriteria.
Context {lib : PyLib}.

(** [search_trips] once the keys are accepted and the ledger is there. *)
Lemma search_trips_run kwargs w df :
  kwargs <> [] ->
  (forall kv, In kv kwargs -> In (fst kv) valid_keys) ->
  trips (store w) = Some df ->
  search_trips kwargs w =
  (match search_frame kwargs df with
   | Ok found => Ok (Frame found)
   | Raise e => Raise e
   end, log (ReadCsv trips_csv) (log (PathExists trips_csv) w)).
Proof.
  intros Hne K Ht. unfold search_trips.
  assert (C : (Nat.eqb (List.length (map fst kwargs)) 0
               || existsb (fun key => negb (mem key valid_keys))
                    (map fst kwargs))%bool = false).
  { apply orb_false_iff. split.
    - destruct kwargs; [congruence|reflexivity].
    - apply not_true_is_false. intros E. apply existsb_exists in E.
      destruct E as [key [Hin Hneg]]. apply in_map_iff in Hin.
      destruct Hin as [kv [<- Hkv]]. apply negb_true_iff in Hneg.
      assert (M := proj2 (mem_In _ _) (K kv Hkv)). congruence. }
  rewrite C. unfold bind, path_exists, read_csv, lift, ret.
  cbn [lookup store log]. rewrite Ht. cbv beta iota.
  cbn [lookup store log]. rewrite Ht. cbv beta iota.
  destruct (search_frame kwargs df); reflexivity.
Qed.

Lemma unless_none_raises convert x e :
  unless_none convert x = Raise e -> convert x = Raise e.
Proof. unfold unless_none. destruct (is_none x); [discriminate|auto]. Qed.

(** A pass of the loop on a criterion that is not valid raises. *)
Lemma filter_by_invalid key x df :
  In key valid_keys -> criterion_of key x = None ->
  filter_by key x df = Raise (SakayDBError None).
Proof.
  intros K H.
  destruct (filter_by key x df) as [found|e] eqn:F;
    [|now rewrite (filter_by_raises _ _ _ _ F)].
  exfalso. revert F. unfold filter_by, criterion_of in *.
  destruct (valid_key_cases key K) as [_ [[Fk [Dk _]]|[Fk [Dk _]]]].
  - destruct x as [| | | | | | |items|];
      try (unfold coerce_for in H; rewrite Fk in H; rewrite Fk, Dk;
           match type of H with
           | match ?c with _ => _ end = None =>
               destruct c eqn:C; [discriminate H|]
           end; cbn [rbind try_except]; discriminate).
    destruct items as [|lo [|hi [|]]]; try (cbn; discriminate).
    cbn [List.length Nat.eqb negb nth]. rewrite Fk, Dk.
    rewrite <- !(bound_for_float key _ Fk).
    destruct (bound_for key lo); [|cbn; discriminate].
    destruct (bound_for key hi); [discriminate H|cbn; discriminate].
  - destruct x as [| | | | | | |items|];
      try (unfold coerce_for in H; rewrite Fk in H; rewrite Fk, Dk;
           match type of H with
           | match ?c with _ => _ end = None =>
               destruct c eqn:C; [discriminate H|]
           end; cbn [rbind try_except]; rewrite C; discriminate).
    destruct items as [|lo [|hi [|]]]; try (cbn; discriminate).
    cbn [List.length Nat.eqb negb nth]. rewrite Fk, Dk. cbn [rbind].
    rewrite <- !(bound_for_date key _ Fk).
    destruct (bound_for key lo); [|cbn; discriminate].
    destruct (bound_for key hi); [discriminate H|cbn; discriminate].
Qed.

Lemma filter_all_invalid kwargs key x :
  (forall kv, In kv kwargs -> In (fst kv) valid_keys) ->
  In (key, x) kwargs -> criterion_of key x = None ->
  forall df, filter_all kwargs df = Raise (SakayDBError None).
Proof.
  intros K Hin Hc. induction kwargs as [|[k y] kwargs IH]; [contradiction|].
  intros df. cbn [filter_all]. destruct Hin as [E|Hin].
  - injection E as -> ->.
    rewrite filter_by_invalid; [reflexivity| |exact Hc].
    apply (K (key, x)). now left.
  - destruct (filter_by k y df) eqn:F; cbn [rbind].
    + apply IH; [|exact Hin]. intros kv Hkv. apply K. now right.
    + now rewrite (filter_by_raises _ _ _ _ F).
Qed.

(** [X9] On a ledger in the written layout, a [search_trips] call whose
    keys are all valid raises [SakayDBError], and writes nothing, as soon
    as one criterion is not valid: a scalar that does not coerce to a real
    (numeric keys) or to a timestamp (date keys), a range one of whose
    bounds does not, or a tuple that is not a pair. *)
Theorem search_trips_invalid_criterion_raises
  (kwargs : list (string * value)) (ts : list TripRecord) (w : World)
  (key : string) (x : value) :
  trips (store w) = Some (trips_frame ts) ->
  timestamps_parse ts ->
  (forall kv, In kv kwargs -> In (fst kv) valid_keys) ->
  In (key, x) kwargs ->
  criterion_of key x = None ->
  search_trips kwargs w
  = (Raise (SakayDBError None),
     log (ReadCsv trips_csv) (log (PathExists trips_csv) w)).
Proof.
  intros Ht P K Hin Hc.
  assert (Hne : kwargs <> []) by (intros ->; contradiction).
  rewrite (search_trips_run kwargs w _ Hne K Ht).
  rewrite (search_frame_typed kwargs ts P).
  now rewrite (filter_all_invalid kwargs key x K Hin Hc).
Qed.

End InvalidCriteria.

Lemma search_trips_invalid_criterion_raises_witness :
  search_trips (lib := ref_lib)
    [("driver_id", VInt 1); ("pickup_datetime", VStr "2022-03-01")]
    Example.after_third
  = (Raise (SakayDBError None),
     log (ReadCsv trips_csv)
       (log (PathExists trips_csv) Example.after_third)).
Proof.
  apply (search_trips_invalid_criterion_raises (lib := ref_lib)
           [("driver_id", VInt 1); ("pickup_datetime", VStr "2022-03-01")]
           [Example.trip1; Example.trip2; Example.trip3]
           Example.after_third "pickup_datetime" (VStr "2022-03-01")).
  - vm_compute. reflexivity.
  - intros t [<-|[<-|[<-|[]]]]; split; vm_compute; discriminate.
  - intros kv [<-|[<-|[]]]; simpl; tauto.
  - simpl. tauto.
  - vm_compute. reflexivity.
Defined.

(** ** Date ranges that do not parse *)

Section UnparsableRange.
Context {lib : PyLib}.

(** On typed tables [generate_odmatrix] reaches the filter on
    [date_range]. *)
Lemma odmatrix_frame_typed date_range ts ls :
  timestamps_parse ts ->
  exists df,
    odmatrix_frame date_range (trips_frame ts) (locations_frame ls)
    = (let? df := in_date_range date_range df in
       Ok (mean_daily_trips (data df))).
Proof.
  intros P. unfold odmatrix_frame, merge_left at 1.
  unfold trips_frame, locations_frame.
  cbn [columns trips_frame locations_frame col_index trips_columns
       locations_columns String.eqb Ascii.eqb Bool.eqb].
  cbn [rbind].
  set (rows1 := merged_rows _ _ _ _ _).
  assert (R1 : forall row, In row rows1 ->
             exists t, In t ts /\ cell 2 row = VStr (t_pickup t)).
  { intros row Hrow. apply merged_rows_left in Hrow.
    destruct Hrow as [l [Hl Hk]]. cbn [data columns] in Hl, Hk.
    apply in_map_iff in Hl. destruct Hl as [t [<- Ht]].
    exists t. split; [exact Ht|]. apply (Hk 2%nat). simpl. lia. }
  clearbody rows1.
  set (cols1 := merged_columns _ _ _ _ _).
  vm_compute in cols1. subst cols1.
  unfold merge_left.
  cbn [columns col_index locations_columns String.eqb Ascii.eqb Bool.eqb].
  cbn [rbind].
  set (rows2 := merged_rows _ _ _ _ _).
  assert (R2 : forall row, In row rows2 ->
             exists t, In t ts /\ cell 2 row = VStr (t_pickup t)).
  { intros row Hrow. apply merged_rows_left in Hrow.
    destruct Hrow as [l [Hl Hk]]. cbn [data columns] in Hl, Hk.
    destruct (R1 l Hl) as [t [Ht E]]. exists t. split; [exact Ht|].
    rewrite <- E. apply (Hk 2%nat). simpl. lia. }
  clearbody rows2. clear R1 rows1.
  set (cols2 := merged_columns _ _ _ _ _).
  vm_compute in cols2. subst cols2.
  unfold rename_cols, project. cbn [columns data].
  cbn [map renamed String.eqb Ascii.eqb Bool.eqb mapM col_index rbind].
  cbn [columns data].
  unfold to_datetime_col, get_col.
  cbn [columns data col_index String.eqb Ascii.eqb Bool.eqb rbind].
  rewrite !map_map. cbn [cell nth].
  destruct (mapM_total py_to_datetime
              (map (fun row => cell 2 row) rows2)) as [pickup ->].
  { intros x Hx. apply in_map_iff in Hx. destruct Hx as [row [<- Hrow]].
    destruct (R2 row Hrow) as [t [Ht E]]. rewrite E.
    exists (parsed (t_pickup t)). apply py_to_datetime_parsed, (P t Ht). }
  cbn [rbind]. eexists. reflexivity.
Qed.

Lemma in_date_range_unparsable date_range df :
  unparsable_bound date_range ->
  in_date_range date_range df = Raise (SakayDBError None).
Proof.
  destruct date_range as [| | | | | | |items|]; try contradiction.
  destruct items as [|lo [|hi [|]]]; try contradiction.
  intros H. unfold in_date_range. cbn [List.length Nat.eqb negb nth].
  unfold py_to_datetime.
  destruct H as [[N E]|[N E]]; rewrite N.
  - rewrite E. destruct (is_none hi); reflexivity.
  - rewrite E. destruct (is_none lo); [reflexivity|].
    destruct (to_datetime lo); reflexivity.
Qed.

(** [X10] With [trips.csv] and [locations.csv] in the written layout,
    [generate_odmatrix] raises [SakayDBError], and writes nothing, when a
    bound of its two-element [date_range] is present and is not a
    timestamp in the format hh:mm:ss,DD-MM-YYYY. *)
Theorem generate_odmatrix_unparsable_bound_raises
  (date_range : value) (ts : list TripRecord) (ls : list LocationRecord)
  (w : World) :
  trips (store w) = Some (trips_frame ts) ->
  locations (store w) = Some (locations_frame ls) ->
  timestamps_parse ts ->
  unparsable_bound date_range ->
  exists w',
    generate_odmatrix date_range w = (Raise (SakayDBError None), w') /\
    store w' = store w.
Proof.
  intros Ht El P U.
  unfold generate_odmatrix, and_then, bind, path_exists, read_csv, lift, ret.
  run_io.
  destruct (odmatrix_frame_typed date_range ts ls P) as [df ->].
  rewrite (in_date_range_unparsable date_range df U).
  eexists. split; reflexivity.
Qed.

End UnparsableRange.

Lemma generate_odmatrix_unparsable_bound_raises_witness :
  exists w',
    generate_odmatrix (lib := ref_lib)
      (VTuple [VStr "2022-03-01"; VNone]) Example.after_third
    = (Raise (SakayDBError None), w') /\
    store w' = store Example.after_third.
Proof.
  apply (generate_odmatrix_unparsable_bound_raises (lib := ref_lib)
           (VTuple [VStr "2022-03-01"; VNone])
           [Example.trip1; Example.trip2; Example.trip3]
           [{| l_id := 1; l_name := "Pasig" |}] Example.after_third).
  - vm_compute. reflexivity.
  - vm_compute. reflexivity.
  - intros t [<-|[<-|[<-|[]]]]; split; vm_compute; discriminate.
  - left. split; vm_compute; reflexivity.
Defined.

(** ** The statistics of kind all *)

Section AllStatistics.
Context {lib : PyLib}.

Lemma stat_trip_run w :
  stat_trip w
  = (on_table (trips (store w)) stat_trip_frame (Ok (VDict [])),
     looked_at trips_csv w).
Proof. apply with_table_run. Qed.

Lemma stat_passenger_run w :
  stat_passenger w
  = (on_table (trips (store w)) stat_passenger_frame (Ok (VDict [])),
     looked_at trips_csv w).
Proof. apply with_table_run. Qed.

Lemma stat_driver_fst w :
  fst (stat_driver w)
  = match trips (store w), drivers (store w) with
    | Some df_trips, Some df_drivers =>
        stat_driver_frame df_trips df_drivers
    | _, _ => Ok (VDict [])
    end.
Proof.
  unfold stat_driver, and_then, bind, path_exists, read_csv, lift, ret.
  cbn [lookup store log].
  destruct (trips (store w)) eqn:Et; [|reflexivity].
  cbn [lookup store log].
  destruct (drivers (store w)) eqn:Ed; [|reflexivity].
  cbn [lookup store log]. rewrite Et. cbn [lookup store log]. rewrite Ed.
  reflexivity.
Qed.

(** [X11] [generate_statistics('all')] is the three statistics put
    together: on every state of the data directory it returns the mapping
    of trip, passenger and driver to what the calls for these three kinds
    return, and it raises what the first of them that raises does. *)
Theorem generate_statistics_all_is_the_three_kinds (w : World) :
  fst (generate_statistics "all" w)
  = (let? t := fst (generate_statistics "trip" w) in
     let? p := fst (generate_statistics "passenger" w) in
     let? d := fst (generate_statistics "driver" w) in
     Ok (VDict [(VStr "trip", t); (VStr "passenger", p);
                (VStr "driver", d)])).
Proof.
  unfold generate_statistics. cbn [String.eqb Ascii.eqb Bool.eqb].
  rewrite (stat_driver_fst w). unfold bind.
  rewrite !stat_trip_run. cbn [fst].
  destruct (on_table (trips (store w)) stat_trip_frame _) as [t|e];
    [|reflexivity].
  cbn [rbind]. rewrite !stat_passenger_run, store_looked_at. cbn [fst].
  destruct (on_table (trips (store w)) stat_passenger_frame _) as [p|e];
    [|reflexivity].
  cbn [rbind].
  pose proof (stat_driver_fst (looked_at trips_csv (looked_at trips_csv w)))
    as F.
  rewrite !store_looked_at in F.
  destruct (stat_driver _) as [[d|e] w3]; cbn [fst] in *; now rewrite <- F.
Qed.

End AllStatistics.

(** ** Batches of trips *)

Section Batches.
Context {lib : PyLib}.

Lemma add_trip_raise_store driver pickup dropoff passengers pickup_loc
  dropoff_loc distance fare w e w' :
  add_trip driver pickup dropoff passengers pickup_loc dropoff_loc distance
    fare w = (Raise e, w') ->
  store w' = store w.
Proof.
  unfold add_trip, bind, lift.
  destruct (validate _ _ _ _ _ _ _ _) as [v|e0];
    [|intros H; now injection H as _ <-].
  rewrite add_validated_run.
  destruct (resolved_driver _ _) as [[dfd did]|e1];
    [|intros H; injection H as _ <-; now rewrite !store_looked_at].
  destruct (resolved_location _ (pickup_loc_name v)) as [[dfp pid]|e2];
    [|intros H; injection H as _ <-; now rewrite !store_looked_at].
  destruct (resolved_location _ (dropoff_loc_name v)) as [[dfl oid]|e3];
    [|intros H; injection H as _ <-; now rewrite !store_looked_at].
  destruct (resolved_trip _ _ _ _ _) as [[dft tid]|e4]; [discriminate|].
  intros H. injection H as _ <-. apply store_tables_read.
Qed.

(** The [try] body on a trip: the eight lookups, then [add_trip]. *)
Lemma add_trip_of_run trip w :
  add_trip_of trip w =
  match mapM (subscript trip) trip_keys with
  | Ok [driver; pickup; dropoff; passengers; pickup_loc; dropoff_loc;
        distance; fare] =>
      add_trip driver pickup dropoff passengers pickup_loc dropoff_loc
        distance fare w
  | Ok _ => (Raise KeyError, w)
  | Raise e => (Raise e, w)
  end.
Proof.
  unfold add_trip_of, trip_keys, bind, lift. cbn [mapM].
  repeat match goal with
    | |- context [subscript trip ?k] =>
        destruct (subscript trip k); cbn [rbind]; [|reflexivity]
    end.
  reflexivity.
Qed.

Lemma subscript_raises trip key e :
  subscript trip key = Raise e -> e = KeyError \/ e = TypeError.
Proof.
  unfold subscript.
  destruct trip as [| | | | | | | |dict];
    try (intros H; injection H as <-; tauto).
  destruct (find _ dict); [discriminate|].
  intros H; injection H as <-; tauto.
Qed.

Lemma mapM_raises {A B} (f : A -> result B) l e :
  mapM f l = Raise e -> exists x, In x l /\ f x = Raise e.
Proof.
  induction l as [|a l IH]; [discriminate|]. cbn [mapM].
  destruct (f a) eqn:Ea; cbn [rbind].
  - destruct (mapM f l); cbn [rbind]; [discriminate|].
    intros H. injection H as <-. destruct (IH eq_refl) as [x [Hx Ex]].
    exists x. split; [now right|exact Ex].
  - intros H. injection H as <-. exists a. split; [now left|exact Ea].
Qed.

Lemma add_trip_of_raise_store trip w e w' :
  add_trip_of trip w = (Raise e, w') -> store w' = store w.
Proof.
  rewrite add_trip_of_run.
  destruct (mapM (subscript trip) trip_keys) as [args|e0];
    [|intros H; now injection H as _ <-].
  do 8 (destruct args as [|? args];
        [intros H; now injection H as _ <-|]).
  destruct args; [|intros H; now injection H as _ <-].
  apply add_trip_raise_store.
Qed.

Lemma add_trips_from_accounts i trips w :
  (List.length (returned_value (fst (add_trips_from i trips w)))
   + List.length (printed (fst (add_trips_from i trips w)))
   = List.length trips)%nat /\
  (returned_value (fst (add_trips_from i trips w)) = [] ->
   store (snd (add_trips_from i trips w)) = store w).
Proof.
  revert i w. induction trips as [|trip rest IH]; intros i w.
  - split; reflexivity.
  - cbn [add_trips_from].
    destruct (add_trip_of trip w) as [[id|e] w1] eqn:E.
    + destruct (IH (S i) w1) as [L _].
      destruct (add_trips_from (S i) rest w1) as [r w2].
      cbn [fst snd returned_value printed List.length] in *.
      split; [lia|discriminate].
    + apply add_trip_of_raise_store in E.
      destruct (IH (S i) w1) as [L St].
      destruct e; destruct (add_trips_from (S i) rest w1) as [r w2];
        cbn [fst snd returned_value printed List.length] in *;
        (split; [lia|intros N; rewrite (St N); exact E]).
Qed.

(** [X12] [add_trips] accounts for every trip of the batch: it returns
    one trip_id or prints one warning per trip, so the trip_ids and the
    warnings together are as many as the trips; and a batch none of whose
    trips was added leaves the three tables as they were. *)
Theorem add_trips_accounts_for_every_trip (trips : list value) (w : World) :
  (List.length (returned_value (fst (add_trips trips w)))
   + List.length (printed (fst (add_trips trips w)))
   = List.length trips)%nat /\
  (returned_value (fst (add_trips trips w)) = [] ->
   store (snd (add_trips trips w)) = store w).
Proof. apply add_trips_from_accounts. Qed.

(** [X13] A batch can be cut anywhere: the loop over [first ++ second]
    from index [i] is the loop over [first] followed by the loop over
    [second], which starts in the world the first one left and at index
    [i + len(first)]; trip_ids and warnings are those of the two, in this
    order. *)
Theorem add_trips_from_app (i : nat) (first second : list value)
  (w : World) :
  add_trips_from i (first ++ second) w =
  let (r1, w1) := add_trips_from i first w in
  let (r2, w2) := add_trips_from (i + List.length first) second w1 in
  ({| returned_value := returned_value r1 ++ returned_value r2;
      printed := printed r1 ++ printed r2 |}, w2).
Proof.
  revert i w. induction first as [|trip rest IH]; intros i w.
  - cbn [app add_trips_from List.length returned_value printed].
    rewrite Nat.add_0_r.
    now destruct (add_trips_from i second w) as [[ids out] w2].
  - cbn [app add_trips_from List.length].
    replace (i + S (List.length rest))%nat
      with (S i + List.length rest)%nat by lia.
    destruct (add_trip_of trip w) as [[id|e] w1].
    + rewrite IH. destruct (add_trips_from (S i) rest w1) as [r1 w2].
      now destruct (add_trips_from _ second w2) as [r2 w3].
    + destruct e; rewrite IH;
        destruct (add_trips_from (S i) rest w1) as [r1 w2];
        now destruct (add_trips_from _ second w2) as [r2 w3].
Qed.

(** [X14] A trip that lacks one of the eight keys, or that is not a
    mapping, is skipped before any file is looked at: the loop prints the
    warning "has invalid or incomplete information" with the index of the
    trip and goes on with the rest of the batch in the same world. *)
Theorem add_trips_skips_a_trip_without_a_key (i : nat) (trip : value)
  (rest : list value) (key : string) (w : World) :
  In key trip_keys ->
  (forall x, subscript trip key <> Ok x) ->
  add_trips_from i (trip :: rest) w =
  let (r, w') := add_trips_from (S i) rest w in
  ({| returned_value := returned_value r;
      printed := generic_warning i :: printed r |}, w').
Proof.
  intros K N. cbn [add_trips_from]. rewrite add_trip_of_run.
  destruct (mapM (subscript trip) trip_keys) as [args|e] eqn:M.
  - exfalso. destruct (subscript trip key) as [x|e] eqn:Sk;
      [now apply (N x)|].
    clear N. revert M. unfold trip_keys in *. cbn [mapM].
    cbn [In] in K.
    repeat match goal with
      | |- context [subscript trip ?k] =>
          destruct (subscript trip k) eqn:?; cbn [rbind];
          [|discriminate]
      end.
    intros _.
    repeat match goal with
      | H : _ \/ _ |- _ => destruct H as [H|H]
      end; try contradiction; subst key; congruence.
  - destruct (mapM_raises _ _ _ M) as [k [_ Hk]].
    destruct (subscript_raises _ _ _ Hk) as [-> | ->]; reflexivity.
Qed.

End Batches.

Lemma add_trips_skips_a_trip_without_a_key_witness :
  add_trips_from (lib := ref_lib) 0
    [VDict [(VStr "driver", VStr "Cruz, Juan")]] (fresh empty_store)
  = ({| returned_value := [];
        printed := ["Warning: trip index 0 has invalid or incomplete information. Skipping..."] |},
     fresh empty_store).
Proof.
  apply (add_trips_skips_a_trip_without_a_key (lib := ref_lib) 0
           (VDict [(VStr "driver", VStr "Cruz, Juan")]) [] "fare_amount"
           (fresh empty_store)).
  - unfold trip_keys. simpl. tauto.
  - intros x. discriminate.
Defined.

(** ** The trip_ids of a batch *)

Section BatchIds.
Context {lib : PyLib}.








End BatchIds.


(** ** Identifiers that grow along the rows *)

Section Keys.
Context {lib : PyLib}.









End Keys.


(** ** What [export_data] returns *)

Section ExportRows.
Context {lib : PyLib}.

(** A left merge in which every left row finds at most one right row. *)
Lemma merged_rows_lookup {A B} (g : A -> list value) (h : B -> list value)
  cols rcols (l : list A) (r : list B) shared i j (look : A -> option B) :
  (forall a, In a l ->
     filter (fun row => key_match (cell i (g a)) (cell j row)) (map h r)
     = match look a with Some b => [h b] | None => [] end) ->
  merged_rows {| columns := cols; data := map g l |}
    {| columns := rcols; data := map h r |} shared i j
  = map (fun a =>
           fit (List.length cols) (g a) ++
           (if shared then remove_at j
            else fun row => row)
             (match look a with
              | Some b => fit (List.length rcols) (h b)
              | None => repeat VNaN (List.length rcols)
              end)) l.
Proof.
  intros H. unfold merged_rows. cbn [columns data].
  induction l as [|a l IH]; [reflexivity|].
  rewrite !map_cons.
  match goal with |- flat_map ?f (?x :: ?xs) = _ =>
    change (flat_map f (x :: xs)) with (f x ++ flat_map f xs) end.
  rewrite IH by (intros b Hb; apply H; now right).
  rewrite (H a (or_introl eq_refl)).
  destruct (look a); destruct shared; reflexivity.
Qed.

(** In a column of growing integers a key is found at most once. *)
Lemma filter_key_once {B} (key : B -> Z) (h : B -> list value) j r id :
  (forall b, cell j (h b) = VInt (key b)) ->
  StronglySorted (fun a b => key a < key b) r ->
  filter (fun row => key_match (VInt id) (cell j row)) (map h r)
  = match find (fun b => key b =? id) r with
    | Some b => [h b]
    | None => []
    end.
Proof.
  intros C S. induction r as [|b r IH]; [reflexivity|].
  apply StronglySorted_inv in S. destruct S as [S F].
  cbn [map filter find]. rewrite C. unfold key_match at 1.
  rewrite val_eq_int. cbn [is_null andb]. rewrite orb_false_r.
  rewrite (Z.eqb_sym id (key b)).
  destruct (Z.eqb_spec (key b) id) as [E|E]; [|now apply IH].
  f_equal. clear IH. rewrite Forall_forall in F.
  induction r as [|c r IH]; [reflexivity|].
  apply StronglySorted_inv in S. destruct S as [S _].
  cbn [map filter]. rewrite C. unfold key_match at 1.
  rewrite val_eq_int. cbn [is_null andb]. rewrite orb_false_r.
  assert (key b < key c) by (apply F; now left).
  destruct (Z.eqb_spec id (key c)); [lia|].
  apply IH; [exact S|]. intros x Hx. apply F. now right.
Qed.

(** A list in strict order is left as it is by the sort. *)
Lemma stable_sort_sorted {A} (lt : A -> A -> bool) l :
  StronglySorted (fun a b => lt a b = true) l -> stable_sort lt l = l.
Proof.
  unfold stable_sort. induction l as [|x l IH]; intros S; [reflexivity|].
  apply StronglySorted_inv in S. destruct S as [S F].
  cbn [fold_right]. rewrite (IH S).
  destruct l as [|y r]; [reflexivity|].
  cbn [insert_sorted]. apply Forall_inv in F. now rewrite F.
Qed.

Lemma driver_lookup ds id row :
  drivers_ascending ds ->
  row = VInt id ->
  filter (fun r => key_match row (cell 0 r)) (map driver_cells ds)
  = match driver_of ds id with Some d => [driver_cells d] | None => [] end.
Proof.
  intros A ->. apply (filter_key_once d_id driver_cells 0 ds id);
    [reflexivity|exact A].
Qed.

Lemma location_lookup ls id row :
  locations_ascending ls ->
  row = VInt id ->
  filter (fun r => key_match row (cell 0 r)) (map location_cells ls)
  = match location_of ls id with
    | Some l => [location_cells l]
    | None => []
    end.
Proof.
  intros A ->. apply (filter_key_once l_id location_cells 0 ls id);
    [reflexivity|exact A].
Qed.

Lemma val_lt_int a b : val_lt (VInt a) (VInt b) = (a <? b).
Proof.
  cbn [val_lt number]. unfold Qle_bool. cbn [inject_Z Qnum Qden].
  rewrite !Z.mul_1_r. symmetry. apply Z.ltb_antisym.
Qed.

(** The rows of an ascending ledger are in the order of the sort on
    trip_id. *)
Lemma ascending_rows ds ls ts :
  ascending ts ->
  StronglySorted
    (fun a b => lex_lt [0%nat] (merged ds ls a) (merged ds ls b) = true) ts.
Proof.
  unfold ascending. induction 1 as [|a l S IH F]; constructor; [exact IH|].
  rewrite Forall_forall in *. intros b Hb. cbn [lex_lt merged app trip_cells cell nth].
  rewrite val_lt_int. now rewrite (proj2 (Z.ltb_lt _ _) (F b Hb)).
Qed.

(** Lines 451-485 on typed tables whose identifiers grow. *)
Lemma export_frame_typed ts ds ls :
  ascending ts -> drivers_ascending ds -> locations_ascending ls ->
  export_frame (trips_frame ts) (drivers_frame ds) (locations_frame ls)
  = Ok {| columns := export_columns; data := map (exported ds ls) ts |}.
Proof.
  intros At Ad Al. unfold export_frame.
  unfold trips_frame, drivers_frame, locations_frame.
  unfold merge_left at 1.
  cbn [columns col_index trips_columns drivers_columns String.eqb Ascii.eqb
       Bool.eqb].
  rewrite (merged_rows_lookup trip_cells driver_cells _ _ ts ds _ _ _
             (fun t => driver_of ds (t_driver t)))
    by (intros t _; now apply driver_lookup).
  set (cols1 := merged_columns _ _ _ _ _). vm_compute in cols1. subst cols1.
  cbn [rbind].
  unfold merge_left at 1.
  cbn [columns col_index locations_columns String.eqb Ascii.eqb Bool.eqb].
  rewrite (merged_rows_lookup _ location_cells _ _ ts ls _ _ _
             (fun t => location_of ls (t_pickup_loc t)))
    by (intros t _; apply location_lookup; [exact Al|reflexivity]).
  set (cols2 := merged_columns _ _ _ _ _). vm_compute in cols2. subst cols2.
  cbn [rbind].
  unfold merge_left at 1.
  cbn [columns col_index locations_columns String.eqb Ascii.eqb Bool.eqb].
  rewrite (merged_rows_lookup _ location_cells _ _ ts ls _ _ _
             (fun t => location_of ls (t_dropoff_loc t)))
    by (intros t _; apply location_lookup; [exact Al|reflexivity]).
  set (cols3 := merged_columns _ _ _ _ _). vm_compute in cols3. subst cols3.
  cbn [rbind].
  lazymatch goal with
  | |- rbind (sort_values _ {| columns := _; data := map ?f ts |}) _ = _ =>
      rewrite (map_ext f (merged ds ls))
        by (intros t; unfold merged;
            destruct (driver_of ds (t_driver t)),
              (location_of ls (t_pickup_loc t)),
              (location_of ls (t_dropoff_loc t)); reflexivity)
  end.
  unfold sort_values.
  cbn [columns data mapM col_index String.eqb Ascii.eqb Bool.eqb rbind].
  rewrite stable_sort_map, stable_sort_sorted by (now apply ascending_rows).
  cbn [drop_cols columns data col_index String.eqb Ascii.eqb Bool.eqb
       remove_at rbind].
  rewrite !map_map.
  unfold rename_cols, project.
  cbn [columns data map renamed String.eqb Ascii.eqb Bool.eqb mapM col_index
       rbind].
  rewrite map_map.
  unfold astype.
  cbn [forallb mem existsb fst snd columns data String.eqb Ascii.eqb
       Bool.eqb andb orb].
  rewrite (mapM_map _ _ (exported ds ls)); [reflexivity|].
  intros t _. unfold merged, exported.
  cbn [trip_cells app remove_at map cell nth List.length fit firstn combine
       mapM find fst snd String.eqb Ascii.eqb Bool.eqb].
  destruct (driver_of ds (t_driver t)), (location_of ls (t_pickup_loc t)),
    (location_of ls (t_dropoff_loc t)); reflexivity.
Qed.

(** [X17] On tables in the written layout whose identifiers grow along
    the rows - the stores the class builds - and a ledger of at least one
    trip, [export_data] returns one row per trip of the ledger, in the order of the ledger (the order of
    trip_id): the last and the given name of the driver with the trip's
    driver_id, the two timestamps as stored, the passenger count, the
    names of the locations with the trip's pickup and drop-off location
    ids, the distance and the fare.  A name whose identifier no row of its
    table holds is missing in the export. *)
Theorem export_data_returns_a_row_per_trip (w : World)
  (ts : list TripRecord) (ds : list DriverRecord)
  (ls : list LocationRecord) :
  trips (store w) = Some (trips_frame ts) ->
  drivers (store w) = Some (drivers_frame ds) ->
  locations (store w) = Some (locations_frame ls) ->
  ts <> [] ->
  ascending ts -> drivers_ascending ds -> locations_ascending ls ->
  fst (export_data w)
  = Ok {| columns := export_columns; data := map (exported ds ls) ts |}.
Proof.
  intros Ht Hd Hl _ At Ad Al.
  unfold export_data, and_then, bind, path_exists, read_csv, lift, ret.
  run_io. now rewrite (export_frame_typed ts ds ls At Ad Al).
Qed.

End ExportRows.

Lemma export_data_returns_a_row_per_trip_witness :
  fst (export_data (lib := ref_lib) Example.after_third)
  = Ok {| columns := export_columns;
          data :=
            [[VStr "Cruz"; VStr "Juan"; VStr "10:00:00,01-03-2022";
              VStr "11:00:00,01-03-2022"; VInt 2; VStr "Pasig"; VStr "Pasig";
              VFloat (1 # 1); VFloat (50 # 1)];
             [VStr "Cruz"; VStr "Juan"; VStr "10:00:00,02-03-2022";
              VStr "11:00:00,02-03-2022"; VInt 2; VNaN; VStr "Pasig";
              VFloat (1 # 1); VFloat (75 # 1)];
             [VStr "Cruz"; VStr "Juan"; VStr "10:00:00,03-03-2022";
              VStr "11:00:00,03-03-2022"; VInt 1; VStr "Pasig"; VStr "Pasig";
              VFloat (1 # 1); VFloat (100 # 1)]] |}.
Proof.
  apply (export_data_returns_a_row_per_trip (lib := ref_lib)
           Example.after_third
           [Example.trip1; Example.trip2; Example.trip3]
           [{| d_id := 1; d_given := "Juan"; d_last := "Cruz" |}]
           [{| l_id := 1; l_name := "Pasig" |}]).
  - vm_compute. reflexivity.
  - vm_compute. reflexivity.
  - vm_compute. reflexivity.
  - discriminate.
  - unfold ascending. repeat constructor; vm_compute; reflexivity.
  - repeat constructor.
  - repeat constructor.
Defined.

(** ** The same trip, submitted again *)

Section Resubmitted.
Context {lib : PyLib}.







End Resubmitted.


(** ** The order of the search results *)

Section SearchOrderFacts.
Context {lib : PyLib}.

Lemma val_lt_numbers a b x y :
  number a = Some x -> number b = Some y ->
  val_lt a b = negb (Qle_bool y x).
Proof.
  intros Ha Hb. destruct a; try discriminate Ha; destruct b;
    try discriminate Hb; cbn [val_lt number] in *; congruence.
Qed.

(** On the values of one search key, [val_lt] is a strict weak order. *)
Lemma val_lt_fields key a b c :
  In key valid_keys ->
  (val_lt (field key a) (field key b) = true ->
   val_lt (field key b) (field key a) = false) /\
  (val_lt (field key a) (field key b) = false ->
   val_lt (field key b) (field key c) = false ->
   val_lt (field key a) (field key c) = false).
Proof.
  intros K. destruct (valid_key_cases key K) as [_ [[_ [_ N]]|[_ [_ I]]]].
  - destruct (N a) as [x Hx], (N b) as [y Hy], (N c) as [z Hz].
    rewrite (val_lt_numbers _ _ _ _ Hx Hy), (val_lt_numbers _ _ _ _ Hy Hx),
      (val_lt_numbers _ _ _ _ Hy Hz), (val_lt_numbers _ _ _ _ Hx Hz).
    split.
    + rewrite negb_true_iff, negb_false_iff. intros H.
      apply Qle_bool_iff, Qlt_le_weak, Qnot_le_lt. intros L.
      apply Qle_bool_iff in L. congruence.
    + rewrite !negb_false_iff, !Qle_bool_iff. intros H1 H2.
      eapply Qle_trans; eassumption.
  - destruct (I a) as [[ta ->]| ->], (I b) as [[tb ->]| ->],
      (I c) as [[tc ->]| ->]; cbn [val_lt number is_null negb andb];
      rewrite ?Z.ltb_lt, ?Z.ltb_ge; split; try discriminate; try reflexivity;
      try lia; intros; try discriminate.
Qed.

Lemma sorts_before_asym keys a b :
  (forall key, In key keys -> In key valid_keys) ->
  sorts_before keys a b = true -> sorts_before keys b a = false.
Proof.
  induction keys as [|key keys IH]; intros K; [discriminate|].
  cbn [sorts_before].
  destruct (val_lt_fields key a b a (K key (or_introl eq_refl))) as [A _].
  destruct (val_lt (field key a) (field key b)) eqn:E1.
  - intros _. now rewrite (A eq_refl).
  - destruct (val_lt (field key b) (field key a)) eqn:E2; [discriminate|].
    apply IH. intros k Hk. apply K. now right.
Qed.

Lemma sorts_before_neg_trans keys a b c :
  (forall key, In key keys -> In key valid_keys) ->
  sorts_before keys a b = false -> sorts_before keys b c = false ->
  sorts_before keys a c = false.
Proof.
  induction keys as [|key keys IH]; intros K; [reflexivity|].
  cbn [sorts_before].
  assert (Kk := K key (or_introl eq_refl)).
  destruct (val_lt (field key a) (field key b)) eqn:Eab; [discriminate|].
  destruct (val_lt (field key b) (field key c)) eqn:Ebc;
    [intros _; discriminate|].
  rewrite (proj2 (val_lt_fields key a b c Kk) Eab Ebc).
  destruct (val_lt (field key b) (field key a)) eqn:Eba.
  - intros _ _.
    destruct (val_lt (field key c) (field key a)) eqn:Eca; [reflexivity|].
    pose proof (proj2 (val_lt_fields key b c a Kk) Ebc Eca). congruence.
  - destruct (val_lt (field key c) (field key b)) eqn:Ecb.
    + intros _ _.
      destruct (val_lt (field key c) (field key a)) eqn:Eca; [reflexivity|].
      pose proof (proj2 (val_lt_fields key c a b Kk) Eca Eab). congruence.
    + rewrite (proj2 (val_lt_fields key c b a Kk) Ecb Eba).
      apply IH. intros k Hk. apply K. now right.
Qed.

(** An insertion sort by a strict weak order leaves no row before an
    earlier one. *)
Lemma insert_sorted_sorted {A} (lt : A -> A -> bool) x l :
  (forall a b, lt a b = true -> lt b a = false) ->
  (forall a b c, lt a b = false -> lt b c = false -> lt a c = false) ->
  StronglySorted (fun a b => lt b a = false) l ->
  StronglySorted (fun a b => lt b a = false) (insert_sorted lt x l).
Proof.
  intros Asym Neg. induction l as [|y r IH]; intros S.
  - repeat constructor.
  - apply StronglySorted_inv in S. destruct S as [S F].
    cbn [insert_sorted]. destruct (lt x y) eqn:E.
    + constructor; [now constructor|].
      constructor; [now apply Asym|].
      rewrite Forall_forall in *. intros z Hz.
      apply Neg with y; [now apply F|now apply Asym].
    + constructor; [now apply IH|].
      rewrite Forall_forall in *. intros z Hz.
      apply (Permutation_in _ (insert_sorted_perm lt x r)) in Hz.
      destruct Hz as [<-|Hz]; [exact E|now apply F].
Qed.

Lemma stable_sort_is_sorted {A} (lt : A -> A -> bool) l :
  (forall a b, lt a b = true -> lt b a = false) ->
  (forall a b c, lt a b = false -> lt b c = false -> lt a c = false) ->
  StronglySorted (fun a b => lt b a = false) (stable_sort lt l).
Proof.
  intros Asym Neg. unfold stable_sort.
  induction l as [|x l IH]; [constructor|].
  cbn [fold_right]. now apply insert_sorted_sorted.
Qed.

Lemma stable_sort_ext {A} (lt lt' : A -> A -> bool) l :
  (forall a b, lt a b = lt' a b) -> stable_sort lt l = stable_sort lt' l.
Proof.
  intros E. unfold stable_sort. induction l as [|x l IH]; [reflexivity|].
  cbn [fold_right]. rewrite IH. generalize (fold_right (insert_sorted lt') [] l).
  intros r. induction r as [|y r IHr]; [reflexivity|].
  cbn [insert_sorted]. now rewrite E, IHr.
Qed.

(** The order of the sort on the wide frame is the order on the fields. *)
Lemma lex_lt_fields keys idx a b :
  (forall key, In key keys -> In key valid_keys) ->
  mapM (fun name => match col_index name wide_columns with
                    | Some i => Ok i
                    | None => Raise KeyError
                    end) keys = Ok idx ->
  lex_lt idx (wide_cells a) (wide_cells b) = sorts_before keys a b.
Proof.
  revert idx. induction keys as [|key keys IH]; intros idx K H.
  - injection H as <-. reflexivity.
  - cbn [mapM] in H.
    destruct (col_index key wide_columns) as [i|] eqn:Ei; [|discriminate H].
    cbn [rbind] in H.
    destruct (mapM _ keys) as [rest|] eqn:Er; [|discriminate H].
    cbn [rbind] in H. injection H as <-.
    assert (C : forall t, cell i (wide_cells t) = field key t).
    { intros t.
      destruct (valid_key_cases key (K key (or_introl eq_refl))) as [G _].
      specialize (G [t]). unfold get_col, wide_frame in G.
      cbn [columns data] in G. rewrite Ei in G. cbn [map] in G.
      now injection G. }
    cbn [lex_lt sorts_before]. rewrite !C.
    rewrite (IH rest) by (auto; intros k Hk; apply K; now right).
    reflexivity.
Qed.

(** [X19] The frame [search_trips] returns is sorted by the search keys,
    in the order they were given: on a ledger in the written layout and
    for valid criteria, the result holds the trips that meet every
    criterion, and no trip of the result comes strictly before an earlier
    one, where trips are compared on the first key on which they differ
    (numbers by value, timestamps by instant). *)
Theorem search_trips_sorts_by_the_keys
  (kwargs : list (string * value)) (ts : list TripRecord) (w : World) :
  trips (store w) = Some (trips_frame ts) ->
  timestamps_parse ts ->
  kwargs <> [] ->
  (forall kv, In kv kwargs ->
     In (fst kv) valid_keys /\ criterion_of (fst kv) (snd kv) <> None) ->
  exists found,
    fst (search_trips kwargs w) = Ok (Frame (trips_frame found)) /\
    Permutation found (filter (meets_all kwargs) ts) /\
    StronglySorted
      (fun a b => sorts_before (map fst kwargs) b a = false) found.
Proof.
  intros Ht P Hne V.
  assert (K : forall kv, In kv kwargs -> In (fst kv) valid_keys)
    by (intros kv Hkv; apply V, Hkv).
  assert (Kn : forall key, In key (map fst kwargs) -> In key valid_keys).
  { intros key Hk. apply in_map_iff in Hk. destruct Hk as [kv [<- Hkv]].
    now apply K. }
  rewrite (search_trips_run kwargs w _ Hne K Ht). cbn [fst].
  rewrite (search_frame_typed kwargs ts P).
  rewrite (filter_all_valid kwargs ts V).
  cbn [rbind]. unfold sort_values, wide_frame. cbn [columns data].
  destruct (wide_indexes (map fst kwargs) Kn) as [idx Ei]. rewrite Ei.
  cbn [rbind]. rewrite stable_sort_map.
  set (lt := fun a b => lex_lt idx (wide_cells a) (wide_cells b)).
  exists (stable_sort lt (filter (meets_all kwargs) ts)).
  split; [|split].
  - unfold trips_frame, rename_cols. cbn. rewrite !map_map. reflexivity.
  - apply stable_sort_perm.
  - assert (E : forall a b, lt a b = sorts_before (map fst kwargs) a b)
      by (intros a b; now apply lex_lt_fields).
    rewrite (stable_sort_ext lt (sorts_before (map fst kwargs)) _ E).
    apply stable_sort_is_sorted.
    + intros a b. now apply sorts_before_asym.
    + intros a b c. now apply sorts_before_neg_trans.
Qed.

End SearchOrderFacts.

Lemma search_trips_sorts_by_the_keys_witness :
  exists found,
    fst (search_trips (lib := ref_lib)
           [("passenger_count", VTuple [VInt 1; VNone])] Example.after_third)
    = Ok (Frame (trips_frame found)) /\
    Permutation found
      (filter (meets_all (lib := ref_lib)
                 [("passenger_count", VTuple [VInt 1; VNone])])
         [Example.trip1; Example.trip2; Example.trip3]) /\
    StronglySorted
      (fun a b => sorts_before (lib := ref_lib) ["passenger_count"] b a
                  = false) found.
Proof.
  apply (search_trips_sorts_by_the_keys (lib := ref_lib)
           [("passenger_count", VTuple [VInt 1; VNone])]
           [Example.trip1; Example.trip2; Example.trip3]
           Example.after_third).
  - vm_compute. reflexivity.
  - intros t [<-|[<-|[<-|[]]]]; split; vm_compute; discriminate.
  - discriminate.
  - intros kv [<-|[]]. split; [simpl; tauto|vm_compute; discriminate].
Defined.

(** ** The statistics a plot is drawn from *)

Section PlotGuards.
Context {lib : PyLib}.


End PlotGuards.

(** ** Witnesses of the naming properties *)



(** ** Groups *)

Section Groups.
Context {A : Type} (lt : A -> A -> bool).
Hypothesis Asym : forall a b, lt a b = true -> lt b a = false.
Hypothesis Neg :
  forall a b c, lt a b = false -> lt b c = false -> lt a c = false.

Lemma lt_irrefl a : lt a a = false.
Proof. destruct (lt a a) eqn:E; [now apply Asym in E as E'; congruence|reflexivity]. Qed.

Lemma tied_refl a : tied lt a a = true.
Proof. unfold tied. now rewrite lt_irrefl. Qed.

Lemma tied_sym a b : tied lt a b = tied lt b a.
Proof. unfold tied. apply andb_comm. Qed.

Lemma tied_trans a b c :
  tied lt a b = true -> tied lt b c = true -> tied lt a c = true.
Proof.
  unfold tied. rewrite !andb_true_iff, !negb_true_iff.
  intros [H1 H2] [H3 H4]. split; eapply Neg; eassumption.
Qed.

Lemma lt_not_tied a b : lt a b = true -> tied lt a b = false.
Proof. intros H. unfold tied. now rewrite H. Qed.

Lemma squeeze_In (same : A -> A -> bool) l g :
  In g (squeeze same l) -> In g l.
Proof.
  induction l as [|x r IH]; [contradiction|].
  cbn [squeeze]. destruct r as [|y r']; [auto|].
  destruct (same x y).
  - intros H. right. now apply IH.
  - intros [<-|H]; [now left|right; now apply IH].
Qed.

Lemma squeeze_covers l x :
  In x l -> exists g, In g (squeeze (tied lt) l) /\ tied lt g x = true.
Proof.
  revert x. induction l as [|a r IH]; intros x; [contradiction|].
  intros Hx. cbn [squeeze]. destruct r as [|y r'].
  - destruct Hx as [<-|[]]. exists a. split; [now left|apply tied_refl].
  - destruct (tied lt a y) eqn:T.
    + destruct Hx as [<-|Hx]; [|now apply IH].
      destruct (IH y (or_introl eq_refl)) as [g [Hg Tg]].
      exists g. split; [exact Hg|].
      apply tied_trans with y; [exact Tg|now rewrite tied_sym].
    + destruct Hx as [<-|Hx].
      * exists a. split; [now left|apply tied_refl].
      * destruct (IH x Hx) as [g [Hg Tg]]. exists g. split; [now right|exact Tg].
Qed.

Lemma squeeze_strict l :
  StronglySorted (fun a b => lt b a = false) l ->
  StronglySorted (fun a b => lt a b = true) (squeeze (tied lt) l).
Proof.
  induction l as [|x r IH]; intros S; [constructor|].
  apply StronglySorted_inv in S. destruct S as [S F].
  cbn [squeeze]. destruct r as [|y r']; [repeat constructor|].
  specialize (IH S). destruct (tied lt x y) eqn:T; [exact IH|].
  constructor; [exact IH|].
  rewrite Forall_forall in *. intros g Hg. apply squeeze_In in Hg.
  assert (Lxy : lt x y = true).
  { unfold tied in T. rewrite (F y (or_introl eq_refl)) in T.
    destruct (lt x y); [reflexivity|discriminate T]. }
  destruct (lt x g) eqn:E; [reflexivity|].
  assert (Lgy : lt g y = false).
  { destruct Hg as [<-|Hg]; [apply lt_irrefl|].
    apply StronglySorted_inv in S. destruct S as [_ Fy].
    rewrite Forall_forall in Fy. now apply Fy. }
  pose proof (Neg x g y E Lgy). congruence.
Qed.

Lemma distinct_In l g : In g (distinct lt l) -> In g l.
Proof.
  unfold distinct. intros H. apply squeeze_In in H.
  now apply (Permutation_in _ (stable_sort_perm lt l)).
Qed.

Lemma distinct_covers l x :
  In x l -> exists g, In g (distinct lt l) /\ tied lt g x = true.
Proof.
  intros H. apply squeeze_covers.
  apply (Permutation_in _ (Permutation_sym (stable_sort_perm lt l))), H.
Qed.

Lemma distinct_strict l :
  StronglySorted (fun a b => lt a b = true) (distinct lt l).
Proof.
  apply squeeze_strict. now apply stable_sort_is_sorted.
Qed.

(** In a strictly sorted list one row at most is tied with a given row. *)
Lemma one_tied (G : list A) g0 x :
  StronglySorted (fun a b => lt a b = true) G ->
  In g0 G -> tied lt g0 x = true ->
  filter (fun g => tied lt g x) G = [g0].
Proof.
  induction G as [|g G IH]; intros S Hin T; [contradiction|].
  apply StronglySorted_inv in S. destruct S as [S F].
  rewrite Forall_forall in F. cbn [filter].
  assert (None_after : forall h, tied lt h x = true -> tied lt g x = true ->
                                 In h G -> False).
  { intros h Th Tg Hh.
    assert (tied lt g h = true)
      by (apply tied_trans with x; [exact Tg|now rewrite tied_sym]).
    rewrite (lt_not_tied g h (F h Hh)) in H. discriminate. }
  destruct Hin as [->|Hin].
  - rewrite T. f_equal.
    destruct (filter (fun g => tied lt g x) G) as [|h r] eqn:E; [reflexivity|].
    exfalso.
    assert (Hh : In h (filter (fun g => tied lt g x) G))
      by (rewrite E; now left).
    apply filter_In in Hh. destruct Hh as [Hh Th].
    exact (None_after h Th T Hh).
  - destruct (tied lt g x) eqn:Tg.
    + exfalso. exact (None_after g0 T eq_refl Hin).
    + now apply IH.
Qed.

End Groups.

(** Counting the pairs of a relation by rows and by columns. *)
Lemma count_both_ways {A B} (P : A -> B -> bool) (G : list A) (R : list B) :
  fold_right (fun g acc => (List.length (filter (P g) R) + acc)%nat) 0%nat G
  = fold_right (fun r acc =>
                  (List.length (filter (fun g => P g r) G) + acc)%nat)
      0%nat R.
Proof.
  induction G as [|g G IH].
  - cbn [fold_right filter List.length]. induction R as [|r R IHR];
      [reflexivity|]. cbn [fold_right]. now rewrite <- IHR.
  - cbn [fold_right]. rewrite IH. clear IH.
    induction R as [|r R IHR]; [reflexivity|].
    cbn [fold_right]. rewrite <- IHR. cbn [filter].
    destruct (P g r); cbn [List.length]; lia.
Qed.

(** ** The order of texts *)

Section TextOrder.

Lemma ascii_compare_lt_trans a b c :
  Ascii.compare a b = Lt -> Ascii.compare b c = Lt -> Ascii.compare a c = Lt.
Proof.
  unfold Ascii.compare. rewrite !N.compare_lt_iff. apply N.lt_trans.
Qed.

Lemma string_compare_refl s : String.compare s s = Eq.
Proof.
  pose proof (String.compare_antisym s s) as H.
  destruct (String.compare s s); [reflexivity|discriminate H|discriminate H].
Qed.

Lemma string_compare_lt_trans a b c :
  String.compare a b = Lt -> String.compare b c = Lt ->
  String.compare a c = Lt.
Proof.
  revert b c. induction a as [|x a IH]; intros [|y b] [|z c];
    cbn [String.compare]; try discriminate; try reflexivity.
  destruct (Ascii.compare x y) eqn:Exy; try discriminate.
  - apply Ascii.compare_eq_iff in Exy. subst y.
    destruct (Ascii.compare x z); [apply IH|reflexivity|discriminate].
  - intros _. destruct (Ascii.compare y z) eqn:Eyz; try discriminate.
    + apply Ascii.compare_eq_iff in Eyz. subst z. now rewrite Exy.
    + now rewrite (ascii_compare_lt_trans x y z Exy Eyz).
Qed.

Lemma string_ltb_asym a b : String.ltb a b = true -> String.ltb b a = false.
Proof.
  unfold String.ltb. rewrite (String.compare_antisym b a).
  destruct (String.compare a b); [discriminate|reflexivity|discriminate].
Qed.

Lemma string_ltb_neg_trans a b c :
  String.ltb a b = false -> String.ltb b c = false -> String.ltb a c = false.
Proof.
  unfold String.ltb.
  destruct (String.compare a b) eqn:Eab; try discriminate; intros _;
    destruct (String.compare b c) eqn:Ebc; try discriminate; intros _.
  - apply String.compare_eq_iff in Eab, Ebc. subst.
    now rewrite string_compare_refl.
  - apply String.compare_eq_iff in Eab. subst. now rewrite Ebc.
  - apply String.compare_eq_iff in Ebc. subst. now rewrite Eab.
  - rewrite String.compare_antisym in Eab, Ebc.
    destruct (String.compare b a) eqn:Eba; try discriminate.
    destruct (String.compare c b) eqn:Ecb; try discriminate.
    rewrite String.compare_antisym,
      (string_compare_lt_trans c b a Ecb Eba). reflexivity.
Qed.

Lemma string_tied a b : tied String.ltb a b = String.eqb a b.
Proof.
  unfold tied, String.ltb. rewrite (String.compare_antisym b a).
  destruct (String.compare a b) eqn:E; cbn.
  - apply String.compare_eq_iff in E. subst. now rewrite String.eqb_refl.
  - symmetry. apply String.eqb_neq. intros ->.
    rewrite string_compare_refl in E. discriminate.
  - symmetry. apply String.eqb_neq. intros ->.
    rewrite string_compare_refl in E. discriminate.
Qed.

End TextOrder.

(** ** The two groupings of the ledger *)

Section Weekdays.
Context {lib : PyLib}.

Lemma by_weekday_asym a b : by_weekday a b = true -> by_weekday b a = false.
Proof. apply string_ltb_asym. Qed.

Lemma by_weekday_neg_trans a b c :
  by_weekday a b = false -> by_weekday b c = false -> by_weekday a c = false.
Proof. apply string_ltb_neg_trans. Qed.

Lemma tied_by_weekday a b :
  tied by_weekday a b = String.eqb (weekday_of a) (weekday_of b).
Proof. apply (string_tied (weekday_of a) (weekday_of b)). Qed.

Lemma tied_by_day a b :
  tied by_day a b
  = (String.eqb (weekday_of a) (weekday_of b)
     && Z.eqb (day_number a) (day_number b))%bool.
Proof.
  pose proof (string_tied (weekday_of a) (weekday_of b)) as T.
  unfold tied, by_day in *.
  destruct (String.ltb (weekday_of a) (weekday_of b)) eqn:L1;
    destruct (String.ltb (weekday_of b) (weekday_of a)) eqn:L2;
    cbn [negb andb] in *; rewrite <- T; cbn [andb]; try reflexivity.
  destruct (Z.eqb_spec (day_number a) (day_number b)) as [->|N].
  - now rewrite Z.ltb_irrefl.
  - destruct (Z.ltb_spec (day_number a) (day_number b));
      destruct (Z.ltb_spec (day_number b) (day_number a)); cbn; try reflexivity;
      lia.
Qed.

(** [by_day a b] is false when [b] is not after [a]. *)
Lemma by_day_false a b :
  by_day a b = false <->
  String.ltb (weekday_of b) (weekday_of a) = true \/
  (weekday_of a = weekday_of b /\ day_number b <= day_number a).
Proof.
  pose proof (string_tied (weekday_of a) (weekday_of b)) as T.
  unfold tied, by_day in *.
  destruct (String.ltb (weekday_of a) (weekday_of b)) eqn:L1.
  - split; [discriminate|]. intros [H|[E _]].
    + apply string_ltb_asym in H. congruence.
    + rewrite E in L1. unfold String.ltb in L1.
      rewrite string_compare_refl in L1. discriminate.
  - destruct (String.ltb (weekday_of b) (weekday_of a)) eqn:L2.
    + split; [now left|reflexivity].
    + cbn [negb andb] in T. symmetry in T. apply String.eqb_eq in T.
      rewrite Z.ltb_ge. split; [now right|]. intros [H|[_ H]];
        [discriminate|exact H].
Qed.

Lemma by_day_asym a b : by_day a b = true -> by_day b a = false.
Proof.
  intros H. apply by_day_false.
  destruct (by_day_false b a) as [_ B].
  unfold by_day in H.
  destruct (String.ltb (weekday_of a) (weekday_of b)) eqn:L1; [now left|].
  destruct (String.ltb (weekday_of b) (weekday_of a)) eqn:L2; [discriminate|].
  right. pose proof (string_tied (weekday_of a) (weekday_of b)) as T.
  unfold tied in T. rewrite L1, L2 in T. cbn in T. symmetry in T.
  apply String.eqb_eq in T. apply Z.ltb_lt in H. split; [now symmetry|lia].
Qed.

Lemma by_day_neg_trans a b c :
  by_day a b = false -> by_day b c = false -> by_day a c = false.
Proof.
  rewrite !by_day_false.
  intros [H1|[E1 D1]] [H2|[E2 D2]].
  - left. destruct (String.ltb (weekday_of c) (weekday_of a)) eqn:L;
      [reflexivity|].
    pose proof (string_ltb_neg_trans _ _ _ L
                  (string_ltb_asym _ _ H1)) as N.
    congruence.
  - left. now rewrite <- E2.
  - left. now rewrite E1.
  - right. split; [congruence|lia].
Qed.

End Weekdays.

(** ** The statistics of kind trip *)

Section TripFormula.
Context {lib : PyLib}.

Lemma squeeze_map {A B} (g : A -> B) same (l : list A) :
  squeeze same (map g l) = map g (squeeze (fun a b => same (g a) (g b)) l).
Proof.
  induction l as [|x r IH]; [reflexivity|].
  cbn [map squeeze] in *. destruct r as [|y r']; [reflexivity|].
  cbn [map] in *. destruct (same (g x) (g y)); [exact IH|].
  now rewrite IH.
Qed.

Lemma squeeze_ext {A} (same same' : A -> A -> bool) l :
  (forall a b, same a b = same' a b) -> squeeze same l = squeeze same' l.
Proof.
  intros E. induction l as [|x r IH]; [reflexivity|].
  cbn [squeeze]. destruct r as [|y r']; [reflexivity|].
  now rewrite E, IH.
Qed.

Lemma filter_map {A B} (g : A -> B) p (l : list A) :
  filter p (map g l) = map g (filter (fun a => p (g a)) l).
Proof.
  induction l as [|x l IH]; [reflexivity|].
  cbn [map filter]. destruct (p (g x)); cbn [map]; now rewrite IH.
Qed.

(** The observations of a typed ledger: the weekday, the calendar day and
    the trip_id of every trip. *)
Lemma observations_typed ts :
  pickups_are_instants ts ->
  observations (trips_frame ts) []
  = Ok (map (fun t => [VStr (weekday_of t); VTime (86400 * day_number t);
                       VInt (t_id t)]) ts).
Proof.
  intros P. unfold observations, to_datetime_col, trips_frame.
  rewrite (get_col_map trips_columns trip_cells ts "pickup_datetime" 2%nat
             eq_refl).
  cbn [rbind cell nth trip_cells].
  rewrite (mapM_map (fun t => VStr (t_pickup t)) py_to_datetime
             (fun t => parsed (t_pickup t))).
  2:{ intros t Ht. apply py_to_datetime_parsed.
      destruct (P t Ht) as [p ->]. discriminate. }
  cbn [rbind]. unfold set_col at 3.
  cbn [columns data col_index trips_columns String.eqb Ascii.eqb Bool.eqb].
  rewrite zip_rows_map. cbn [replace_at trip_cells].
  unfold set_col at 2.
  cbn [columns data col_index trips_columns String.eqb Ascii.eqb Bool.eqb
       List.length app].
  rewrite !map_map, zip_rows_map. cbn [replace_at].
  unfold set_col.
  cbn [columns data col_index trips_columns String.eqb Ascii.eqb Bool.eqb
       List.length app].
  rewrite zip_rows_map. cbn [replace_at].
  unfold project.
  cbn [app mapM columns data col_index String.eqb Ascii.eqb Bool.eqb rbind].
  rewrite map_map. cbn [map cell nth]. f_equal.
  apply map_ext_in. intros t Ht. destruct (P t Ht) as [p E].
  unfold weekday_of, day_number, parsed. rewrite E. reflexivity.
Qed.

Lemma lex_lt_fit n idx r1 r2 :
  (forall i, In i idx -> (i < n)%nat) ->
  lex_lt idx (fit n r1) r2 = lex_lt idx r1 r2 /\
  lex_lt idx r1 (fit n r2) = lex_lt idx r1 r2.
Proof.
  induction idx as [|i idx IH]; intros H; [now split|].
  cbn [lex_lt]. rewrite !(cell_fit n _ i) by (apply H; now left).
  destruct IH as [IH1 IH2]; [intros j Hj; apply H; now right|].
  now rewrite IH1, IH2.
Qed.

Lemma keys_lt_fit n r1 r2 :
  keys_lt n (fit n r1) r2 = keys_lt n r1 r2 /\
  keys_lt n r1 (fit n r2) = keys_lt n r1 r2.
Proof.
  apply lex_lt_fit. intros i Hi. apply in_seq in Hi. lia.
Qed.

(** A grouping of rows that have their keys: one row per group of the
    [distinct] keys, with the aggregate of the group. *)
Lemma groupby_agg_map {A} n agg (g : A -> list value) (l : list A) :
  (forall a, forallb not_null (firstn n (fit n (g a))) = true) ->
  groupby_agg n agg (map g l)
  = map (fun a =>
           fit n (g a) ++
           [agg (map (fun b => cell n (g b))
                   (filter (tied (fun a b => keys_lt n (g a) (g b)) a) l))])
        (distinct (fun a b => keys_lt n (g a) (g b)) l).
Proof.
  intros N. unfold groupby_agg, distinct.
  rewrite (filter_keeps_all _ (map g l)).
  2:{ intros r Hr. apply in_map_iff in Hr. destruct Hr as [a [<- _]].
      apply N. }
  rewrite map_map, stable_sort_map, squeeze_map, map_map.
  rewrite (stable_sort_ext _ (fun a b => keys_lt n (g a) (g b)))
    by (intros a b; destruct (keys_lt_fit n (g a) (g b)) as [E1 _];
        destruct (keys_lt_fit n (fit n (g a)) (g b)) as [_ E2];
        now rewrite E2, E1).
  rewrite (squeeze_ext _ (tied (fun a b => keys_lt n (g a) (g b)))).
  2:{ intros a b. unfold same_keys, tied.
      destruct (keys_lt_fit n (g a) (g b)) as [E1 _].
      destruct (keys_lt_fit n (fit n (g a)) (g b)) as [_ E2].
      destruct (keys_lt_fit n (g b) (g a)) as [E3 _].
      destruct (keys_lt_fit n (fit n (g b)) (g a)) as [_ E4].
      now rewrite E2, E1, E4, E3. }
  apply map_ext. intros a. do 3 f_equal.
  rewrite filter_map, map_map. f_equal. apply filter_ext. intros b.
  unfold same_keys, tied.
  destruct (keys_lt_fit n (g a) (g b)) as [E1 _].
  destruct (keys_lt_fit n (g b) (g a)) as [_ E2].
  now rewrite E1, E2.
Qed.

Lemma distinct_ext {A} (lt lt' : A -> A -> bool) l :
  (forall a b, lt a b = lt' a b) -> distinct lt l = distinct lt' l.
Proof.
  intros E. unfold distinct. rewrite (stable_sort_ext lt lt' l E).
  apply squeeze_ext. intros a b. unfold tied. now rewrite !E.
Qed.

Lemma tied_ext {A} (lt lt' : A -> A -> bool) :
  (forall a b, lt a b = lt' a b) -> forall a b, tied lt a b = tied lt' a b.
Proof. intros E a b. unfold tied. now rewrite !E. Qed.

Lemma agg_count_ids {A} (f : A -> Z) (l : list A) :
  agg_count (map (fun a => VInt (f a)) l)
  = VInt (Z.of_nat (List.length l)).
Proof.
  unfold agg_count. rewrite filter_keeps_all.
  - now rewrite length_map.
  - intros v Hv. apply in_map_iff in Hv. now destruct Hv as [a [<- _]].
Qed.

Lemma keys_lt_by_day a b :
  keys_lt 2 [VStr (weekday_of a); VTime (86400 * day_number a);
             VInt (t_id a)]
            [VStr (weekday_of b); VTime (86400 * day_number b);
             VInt (t_id b)]
  = by_day a b.
Proof.
  unfold keys_lt, by_day. cbn [seq lex_lt cell nth val_lt].
  destruct (String.ltb (weekday_of a) (weekday_of b)); [reflexivity|].
  destruct (String.ltb (weekday_of b) (weekday_of a)); [reflexivity|].
  destruct (Z.ltb_spec (86400 * day_number a) (86400 * day_number b));
    destruct (Z.ltb_spec (86400 * day_number b) (86400 * day_number a));
    destruct (Z.ltb_spec (day_number a) (day_number b)); try reflexivity;
    lia.
Qed.

Lemma keys_lt_by_weekday a b x y :
  keys_lt 1 [VStr (weekday_of a); x] [VStr (weekday_of b); y]
  = by_weekday a b.
Proof.
  unfold keys_lt, by_weekday. cbn [seq lex_lt cell nth val_lt].
  destruct (String.ltb (weekday_of a) (weekday_of b)); [reflexivity|].
  now destruct (String.ltb (weekday_of b) (weekday_of a)).
Qed.

(** Lines 534-548 on a typed ledger: one entry per weekday with a pickup,
    the mean over its calendar days of the trips of the day. *)
Lemma stat_trip_frame_typed ts :
  pickups_are_instants ts ->
  stat_trip_frame (trips_frame ts)
  = Ok (VDict
          (map (fun a =>
                  (VStr (weekday_of a),
                   agg_mean
                     (map (fun b =>
                             VInt (Z.of_nat
                                     (List.length
                                        (filter (tied by_day b) ts))))
                        (filter (tied by_weekday a) (distinct by_day ts)))))
             (distinct by_weekday (distinct by_day ts)))).
Proof.
  intros P. unfold stat_trip_frame. rewrite (observations_typed ts P).
  cbn [rbind]. rewrite (groupby_agg_map 2 agg_count) by reflexivity.
  rewrite (distinct_ext _ by_day) by apply keys_lt_by_day.
  rewrite map_map.
  cbn [fit firstn app repeat cell nth without_day].
  match goal with
  | |- context [groupby_agg 1 agg_mean (map ?f ?l)] =>
      rewrite (map_ext f
                 (fun a =>
                    [VStr (weekday_of a);
                     VInt (Z.of_nat
                             (List.length (filter (tied by_day a) ts)))]))
  end.
  2:{ intros a. rewrite (agg_count_ids t_id).
      now rewrite (filter_ext _ _ (tied_ext _ by_day keys_lt_by_day a)). }
  set (g2 := fun a : TripRecord =>
               [VStr (weekday_of a);
                VInt (Z.of_nat (List.length (filter (tied by_day a) ts)))]).
  rewrite (groupby_agg_map 1 agg_mean g2) by reflexivity.
  rewrite (distinct_ext (fun a b => keys_lt 1 (g2 a) (g2 b)) by_weekday)
    by (intros a b; apply keys_lt_by_weekday).
  rewrite map_map. subst g2. cbn [fit firstn app repeat cell nth].
  do 2 f_equal. apply map_ext. intros a. do 3 f_equal.
  apply filter_ext. intros b. apply tied_ext. intros x y.
  apply keys_lt_by_weekday.
Qed.

Lemma filter_comm {A} (p q : A -> bool) l :
  filter p (filter q l) = filter q (filter p l).
Proof.
  induction l as [|x l IH]; [reflexivity|]. cbn [filter].
  destruct (p x) eqn:Ep, (q x) eqn:Eq; cbn [filter];
    rewrite ?Ep, ?Eq, IH; reflexivity.
Qed.

Lemma sum_indicator {A} (p : A -> bool) l :
  fold_right (fun r acc => ((if p r then 1 else 0) + acc)%nat) 0%nat l
  = List.length (filter p l).
Proof.
  induction l as [|x l IH]; [reflexivity|]. cbn [fold_right filter].
  rewrite IH. now destruct (p x).
Qed.

Lemma sum_ext_in {A} (f g : A -> nat) l :
  (forall x, In x l -> f x = g x) ->
  fold_right (fun x acc => (f x + acc)%nat) 0%nat l
  = fold_right (fun x acc => (g x + acc)%nat) 0%nat l.
Proof.
  induction l as [|x l IH]; intros H; [reflexivity|]. cbn [fold_right].
  rewrite (H x (or_introl eq_refl)), IH; [reflexivity|].
  intros y Hy. apply H. now right.
Qed.

Lemma strict_filter {A} (lt : A -> A -> bool) p l :
  StronglySorted (fun a b => lt a b = true) l ->
  StronglySorted (fun a b => lt a b = true) (filter p l).
Proof.
  induction l as [|a l IH]; intros S; [constructor|].
  apply StronglySorted_inv in S. destruct S as [S F]. cbn [filter].
  destruct (p a); [|now apply IH].
  constructor; [now apply IH|].
  rewrite Forall_forall in *. intros t Ht. apply F.
  now apply filter_In in Ht.
Qed.

Lemma strict_NoDup {A B} (lt : A -> A -> bool) (f : A -> B) l :
  StronglySorted (fun a b => lt a b = true) l ->
  (forall a b, In a l -> In b l -> f a = f b -> lt a b = false) ->
  NoDup (map f l).
Proof.
  induction l as [|a l IH]; intros S H; [constructor|].
  apply StronglySorted_inv in S. destruct S as [S F]. cbn [map].
  constructor.
  - intros Hin. apply in_map_iff in Hin. destruct Hin as [b [E Hb]].
    rewrite Forall_forall in F.
    pose proof (H a b (or_introl eq_refl) (or_intror Hb) (eq_sym E)).
    rewrite (F b Hb) in H0. discriminate.
  - apply IH; [exact S|]. intros x y Hx Hy. apply H; now right.
Qed.

(** The trips of a weekday are those of its calendar days. *)
Lemma trips_of_a_weekday ts a :
  fold_right
    (fun b acc => (List.length (filter (tied by_day b) ts) + acc)%nat) 0%nat
    (filter (tied by_weekday a) (distinct by_day ts))
  = List.length (filter (picked_up_on (weekday_of a)) ts).
Proof.
  rewrite (count_both_ways (tied by_day)).
  rewrite <- sum_indicator. apply sum_ext_in. intros r Hr.
  destruct (distinct_covers by_day by_day_asym by_day_neg_trans ts r Hr)
    as [g0 [Hg0 T0]].
  rewrite filter_comm.
  rewrite (one_tied by_day by_day_neg_trans _ g0 r
             (distinct_strict by_day by_day_asym by_day_neg_trans ts)
             Hg0 T0).
  cbn [filter]. rewrite tied_by_weekday. unfold picked_up_on.
  rewrite tied_by_day in T0. apply andb_true_iff in T0.
  destruct T0 as [En _]. apply String.eqb_eq in En. rewrite En.
  rewrite String.eqb_sym. now destruct (String.eqb _ _).
Qed.

(** The calendar days of a weekday are the groups of the first grouping
    that have the weekday. *)
Lemma days_of_a_weekday ts a :
  List.length (filter (tied by_weekday a) (distinct by_day ts))
  = active_days (weekday_of a) ts.
Proof.
  unfold active_days.
  rewrite <- (length_map day_number
                (filter (tied by_weekday a) (distinct by_day ts))).
  apply Permutation_length, NoDup_Permutation.
  - apply (strict_NoDup by_day).
    + apply strict_filter.
      apply (distinct_strict by_day by_day_asym by_day_neg_trans).
    + intros x y Hx Hy E. apply filter_In in Hx, Hy.
      destruct Hx as [_ Tx], Hy as [_ Ty].
      rewrite tied_by_weekday in Tx, Ty.
      apply String.eqb_eq in Tx, Ty.
      apply by_day_false. right. split; [congruence|lia].
  - apply NoDup_nodup.
  - intros d. rewrite nodup_In, !in_map_iff. split.
    + intros [g [<- Hg]]. apply filter_In in Hg. destruct Hg as [Hg Tg].
      exists g. split; [reflexivity|]. apply filter_In. split.
      * eapply distinct_In; eassumption.
      * unfold picked_up_on. rewrite tied_by_weekday in Tg.
        now rewrite String.eqb_sym.
    + intros [t [<- Ht]]. apply filter_In in Ht. destruct Ht as [Ht Pt].
      destruct (distinct_covers by_day by_day_asym by_day_neg_trans ts t Ht)
        as [g0 [Hg0 T0]].
      rewrite tied_by_day in T0. apply andb_true_iff in T0.
      destruct T0 as [En Ed]. apply String.eqb_eq in En.
      apply Z.eqb_eq in Ed.
      exists g0. split; [exact Ed|]. apply filter_In. split; [exact Hg0|].
      rewrite tied_by_weekday, En. unfold picked_up_on in Pt.
      now rewrite String.eqb_sym.
Qed.

Lemma sum_counts {A} (c : A -> nat) (l : list A) :
  (fold_right
     (fun v acc => match number v with
                   | Some q => Qplus q acc
                   | None => acc
                   end) (0 # 1)%Q
     (map (fun b => VInt (Z.of_nat (c b))) l)
   == inject_Z (Z.of_nat (fold_right (fun b acc => (c b + acc)%nat) 0%nat l)))%Q.
Proof.
  induction l as [|x l IH]; [reflexivity|].
  cbn [map fold_right number]. rewrite IH.
  rewrite Nat2Z.inj_add, inject_Z_plus. reflexivity.
Qed.

(** The mean of the trips of the days of a group. *)
Lemma agg_mean_counts {A} (c : A -> nat) (l : list A) :
  l <> [] ->
  agg_mean (map (fun b => VInt (Z.of_nat (c b))) l)
  = VFloat (Qred (inject_Z (Z.of_nat
                              (fold_right (fun b acc => (c b + acc)%nat)
                                 0%nat l))
                  / inject_Z (Z.of_nat (List.length l)))).
Proof.
  intros N. unfold agg_mean. rewrite filter_keeps_all.
  2:{ intros v Hv. apply in_map_iff in Hv. now destruct Hv as [a [<- _]]. }
  destruct l as [|x l]; [congruence|].
  remember (x :: l) as xl. destruct (map _ xl) eqn:E;
    [subst xl; discriminate E|].
  rewrite <- E. f_equal. apply Qred_complete.
  now rewrite sum_counts, length_map.
Qed.

(** [X23] The statistics of kind trip are the trips per active day: on a
    ledger in the written layout whose pickups all parse,
    [generate_statistics('trip')] returns a mapping with one entry per
    weekday on which a trip was picked up, and the value of a weekday is
    the number of trips picked up on that weekday divided by the number of
    calendar days with a pickup on that weekday (days without a pickup do
    not count). *)
Theorem generate_statistics_trip_is_trips_per_active_day
  (w : World) (ts : list TripRecord) :
  trips (store w) = Some (trips_frame ts) ->
  pickups_are_instants ts ->
  exists entries,
    fst (generate_statistics "trip" w) = Ok (VDict entries) /\
    NoDup (map fst entries) /\
    forall k v,
      In (k, v) entries <->
      exists n,
        k = VStr n /\
        (exists t, In t ts /\ picked_up_on n t = true) /\
        v = trips_per_active_day n ts.
Proof.
  intros Ht P. unfold generate_statistics.
  cbn [String.eqb Ascii.eqb Bool.eqb]. rewrite stat_trip_run, Ht.
  cbn [fst on_table]. rewrite (stat_trip_frame_typed ts P).
  set (G := distinct by_day ts). set (reps := distinct by_weekday G).
  assert (HG : forall g, In g G -> In g ts)
    by (intros g; apply distinct_In).
  assert (Hreps : forall a, In a reps -> In a G)
    by (intros a; apply distinct_In).
  assert (E : map (fun a =>
                     (VStr (weekday_of a),
                      agg_mean
                        (map (fun b =>
                                VInt (Z.of_nat
                                        (List.length
                                           (filter (tied by_day b) ts))))
                           (filter (tied by_weekday a) G)))) reps
              = map (fun a => (VStr (weekday_of a),
                               trips_per_active_day (weekday_of a) ts))
                  reps).
  { apply map_ext_in. intros a Ha. f_equal.
    rewrite agg_mean_counts.
    - unfold trips_per_active_day.
      unfold G. now rewrite trips_of_a_weekday, days_of_a_weekday.
    - intros N.
      assert (Hin : In a (filter (tied by_weekday a) G)).
      { apply filter_In. split; [now apply Hreps|].
        apply (tied_refl by_weekday by_weekday_asym). }
      rewrite N in Hin. contradiction. }
  rewrite E. eexists. split; [reflexivity|]. split.
  - rewrite map_map. cbn [fst].
    apply (strict_NoDup by_weekday).
    + apply (distinct_strict by_weekday by_weekday_asym
               by_weekday_neg_trans).
    + intros x y _ _ Exy. injection Exy as Exy. unfold by_weekday.
      rewrite Exy. unfold String.ltb. now rewrite string_compare_refl.
  - intros k v. rewrite in_map_iff. split.
    + intros [a [Ea Ha]]. injection Ea as <- <-.
      exists (weekday_of a). split; [reflexivity|]. split; [|reflexivity].
      exists a. split; [now apply HG, Hreps|].
      unfold picked_up_on. apply String.eqb_refl.
    + intros [n [-> [[t [Hin Pt]] ->]]].
      unfold picked_up_on in Pt. apply String.eqb_eq in Pt.
      destruct (distinct_covers by_day by_day_asym by_day_neg_trans ts t Hin)
        as [g [Hg Tg]].
      destruct (distinct_covers by_weekday by_weekday_asym
                  by_weekday_neg_trans G g Hg) as [a [Ha Ta]].
      rewrite tied_by_day in Tg. apply andb_true_iff in Tg.
      destruct Tg as [Eg _]. apply String.eqb_eq in Eg.
      rewrite tied_by_weekday in Ta. apply String.eqb_eq in Ta.
      exists a. split; [|exact Ha]. now rewrite Ta, Eg, Pt.
Qed.

End TripFormula.

Lemma generate_statistics_trip_is_trips_per_active_day_witness :
  exists entries,
    fst (generate_statistics (lib := ref_lib) "trip" Example.after_third)
    = Ok (VDict entries) /\
    NoDup (map fst entries) /\
    forall k v,
      In (k, v) entries <->
      exists n,
        k = VStr n /\
        (exists t,
           In t [Example.trip1; Example.trip2; Example.trip3] /\
           picked_up_on (lib := ref_lib) n t = true) /\
        v = trips_per_active_day (lib := ref_lib) n
              [Example.trip1; Example.trip2; Example.trip3].
Proof.
  apply (generate_statistics_trip_is_trips_per_active_day (lib := ref_lib)
           Example.after_third
           [Example.trip1; Example.trip2; Example.trip3]).
  - vm_compute. reflexivity.
  - intros t [<-|[<-|[<-|[]]]]; eexists; vm_compute; reflexivity.
Defined.

(** ** What the new row of the ledger refers to *)

Section References.
Context {lib : PyLib}.







End References.

